(** * hive_rpc: the JSON-RPC engine client of the hive engine simulator

    A shallow embedding of
    [simulators/ethereum/engine/client/hive_rpc/hive_rpc.go]:
    the block-number encoding, the header and total-difficulty lookups,
    the JWT token issuer, the engine API calls with their call memory,
    and the per-account nonce cache.

    Go values are modelled as follows.
    - [*big.Int] is [option Z] ([None] is the nil pointer), [uint64] is a
      [Z] whose increment wraps at [2^64].
    - [common.Address] and [common.Hash] are the numbers their bytes spell.
    - a pointer [*T] is [option T]; a nil dereference is the outcome
      [Panicked].
    - [map[common.Address]*AccountTransactionInfo] is a [gmap]; the
      pointers stored in it are allocated by [GetNextAccountNonce] alone and
      never shared, so the struct is stored in the map by value.
    - the remote node, the JSON decoders of go-ethereum's types and the
      JWT signer are the interfaces [Geth], [Jwt] and [Node]; every remote
      call is appended to the [wire] log of the world. *)

From Stdlib Require Import ZArith String Ascii List Lia Bool.
From Stdlib Require DecimalString.
From stdpp Require Import base gmap strings list.
Import ListNotations.
Open Scope Z_scope.

(** ** Machine integers and identifiers *)

Abbreviation Address := Z (only parsing).
Abbreviation Hash := Z (only parsing).

Definition uint64_modulus : Z := 2 ^ 64.

(** [x++] on a [uint64]. *)
Definition uint64_inc (x : Z) : Z := (x + 1) mod uint64_modulus.

(** ** Errors *)

(** The errors of go-ethereum's [hexutil] package that number decoding
    returns. *)
Inductive hexutil_error : Type :=
| ErrMissingPrefix
| ErrEmptyNumber
| ErrLeadingZero
| ErrSyntax
| ErrBig256Range
| ErrUint64Range
| ErrNonString.

(** Go [error] values seen by this file.  [NotFound] is the package-level
    value [ethereum.NotFound]; the others are the values made by the rpc
    client, by [encoding/json] and by the JWT library. *)
Inductive error : Type :=
| NotFound
| RPCError (msg : string)
| UnmarshalError (msg : string)
| UnmarshalTypeError (e : hexutil_error)
| SigningError (msg : string).

(** ** JSON values, as the rpc client hands them to [json.Unmarshal] *)

#[warnings="-register-all"]
Inductive json : Type :=
| JNull
| JBool (b : bool)
| JNumber (n : Z)
| JString (s : string)
| JArray (items : list json)
| JObject (fields : list (string * json)).

(** ** Hexadecimal numbers (go-ethereum [common/hexutil], [math/big]) *)

Definition hex_digit (d : Z) : ascii :=
  match d with
  | 0 => "0" | 1 => "1" | 2 => "2" | 3 => "3"
  | 4 => "4" | 5 => "5" | 6 => "6" | 7 => "7"
  | 8 => "8" | 9 => "9" | 10 => "a" | 11 => "b"
  | 12 => "c" | 13 => "d" | 14 => "e" | _ => "f"
  end%char.

(** Most significant digit first. *)
Fixpoint hex_digits (fuel : nat) (n : Z) : list ascii :=
  match fuel with
  | O => []
  | S fuel' =>
      if n <? 16 then [hex_digit n]
      else hex_digits fuel' (n / 16) ++ [hex_digit (n mod 16)]
  end.

(** [big.Int.Text(16)]: a minus sign for negative numbers, then the digits
    of the magnitude with no leading zero; ["0"] for zero. *)
Definition big_Text16 (x : Z) : string :=
  let digits :=
    string_of_list_ascii (hex_digits (S (Z.to_nat (Z.log2 (Z.abs x)))) (Z.abs x)) in
  if x <? 0 then String "-"%char digits else digits.

(** The Go slice expression [s[1:]]. *)
Definition string_tail (s : string) : string :=
  match s with
  | EmptyString => EmptyString
  | String _ rest => rest
  end.

(** Modelled from the spec: [hexutil.EncodeBig] of go-ethereum, which the
    repository imports; "a big-endian hex integer with no leading zero
    (minimal encoding)" behind the [0x] prefix of the JSON-RPC wire
    convention. *)
Definition EncodeBig (bigint : Z) : string :=
  if Z.sgn bigint =? 0 then "0x0"%string
  else if 0 <? Z.sgn bigint then ("0x" ++ big_Text16 bigint)%string
  else ("-0x" ++ string_tail (big_Text16 bigint))%string.

Definition decodeNibble (c : ascii) : option Z :=
  let n := Z.of_nat (nat_of_ascii c) in
  if (48 <=? n) && (n <=? 57) then Some (n - 48)
  else if (65 <=? n) && (n <=? 70) then Some (n - 65 + 10)
  else if (97 <=? n) && (n <=? 102) then Some (n - 97 + 10)
  else None.

(** Value of a digit string read most significant digit first, starting
    from the accumulator [acc]; [None] at the first bad nibble. *)
Fixpoint decode_nibbles (acc : Z) (raw : list ascii) : option Z :=
  match raw with
  | [] => Some acc
  | c :: rest =>
      match decodeNibble c with
      | Some d => decode_nibbles (16 * acc + d) rest
      | None => None
      end
  end.

(** [hexutil.checkNumberText]: the empty text is allowed and is the number
    zero; anything else needs the prefix, a digit, and no leading zero. *)
Definition checkNumberText (input : list ascii) : hexutil_error + list ascii :=
  match input with
  | [] => inr []
  | c0 :: c1 :: raw =>
      if Ascii.eqb c0 "0" && (Ascii.eqb c1 "x" || Ascii.eqb c1 "X") then
        match raw with
        | [] => inl ErrEmptyNumber
        | d :: more =>
            if (0 <? Z.of_nat (length more)) && Ascii.eqb d "0"
            then inl ErrLeadingZero
            else inr raw
        end
      else inl ErrMissingPrefix
  | _ => inl ErrMissingPrefix
  end.

(** [UnmarshalText] of [hexutil.Big]. *)
Definition Big_UnmarshalText (input : string) : hexutil_error + Z :=
  match checkNumberText (list_ascii_of_string input) with
  | inl e => inl e
  | inr raw =>
      if 64 <? Z.of_nat (length raw) then inl ErrBig256Range
      else match decode_nibbles 0 raw with
           | Some v => inr v
           | None => inl ErrSyntax
           end
  end.

(** [UnmarshalJSON] of [hexutil.Big]: only JSON strings are numbers. *)
Definition Big_UnmarshalJSON (input : json) : error + Z :=
  match input with
  | JString s =>
      match Big_UnmarshalText s with
      | inl e => inl (UnmarshalTypeError e)
      | inr v => inr v
      end
  | _ => inl (UnmarshalTypeError ErrNonString)
  end.

(** ** Block-number arguments *)

Definition Head : option Z := None.
Definition Pending : Z := -2.
Definition Finalized : Z := -3.
Definition Safe : Z := -4.

(** [Cmp] of [big.Int]. *)
Definition big_Cmp (x y : Z) : Z :=
  match x ?= y with
  | Lt => -1
  | Eq => 0
  | Gt => 1
  end.

(** Custom toBlockNumArg to test [safe] and [finalized]. *)
Definition toBlockNumArg (number : option Z) : string :=
  match number with
  | None => "latest"%string
  | Some n =>
      if big_Cmp n Pending =? 0 then "pending"%string
      else if big_Cmp n Finalized =? 0 then "finalized"%string
      else if big_Cmp n Safe =? 0 then "safe"%string
      else EncodeBig n
  end.

(** [UnmarshalJSON] of [hexutil.Uint64], the result type of ethclient's
    [NonceAt]: the same text format, at most sixteen digits. *)
Definition Uint64_UnmarshalJSON (input : json) (old : Z) : Z * option error :=
  match input with
  | JString s =>
      match checkNumberText (list_ascii_of_string s) with
      | inl e => (old, Some (UnmarshalTypeError e))
      | inr raw =>
          if 16 <? Z.of_nat (length raw)
          then (old, Some (UnmarshalTypeError ErrUint64Range))
          else match decode_nibbles 0 raw with
               | Some v => (v, None)
               | None => (old, Some (UnmarshalTypeError ErrSyntax))
               end
      end
  | _ => (old, Some (UnmarshalTypeError ErrNonString))
  end.

(** ** Decoding JSON into Go values *)

(** What [json.Unmarshal(data, &v)] does for a value [v] of type [T]: the
    new value of [v] and the error.  [zero_value] is the value of
    [var v T]. *)
Class Unmarshal (T : Type) : Type := {
  zero_value : T;
  json_Unmarshal : json -> T -> T * option error
}.

(** Decoding into a pointer variable: JSON [null] sets it to nil, any
    other value is decoded into the pointee, allocated when the pointer
    was nil. *)
#[export] Instance Unmarshal_ptr {T : Type} `{Unmarshal T} : Unmarshal (option T) := {|
  zero_value := None;
  json_Unmarshal data p :=
    match data with
    | JNull => (None, None)
    | _ =>
        let '(v, err) := json_Unmarshal data (default zero_value p) in
        (Some v, err)
    end
|}.

(** Helper structs to fetch the TotalDifficulty *)
Record TD : Type := {
  TotalDifficulty : option Z
}.

(** ASCII case folding of the key comparison of [encoding/json]. *)
Definition ascii_lower (c : ascii) : ascii :=
  let n := nat_of_ascii c in
  if (65 <=? n)%nat && (n <=? 90)%nat then ascii_of_nat (n + 32) else c.

Fixpoint string_lower (s : string) : string :=
  match s with
  | EmptyString => EmptyString
  | String c rest => String (ascii_lower c) (string_lower rest)
  end.

(** An object key selects the struct field tagged [name] when it equals
    the tag, exactly or up to letter case. *)
Definition key_matches (name key : string) : bool :=
  String.eqb key name || String.eqb (string_lower key) (string_lower name).

Definition has_field (name : string) (fields : list (string * json)) : bool :=
  existsb (fun member => key_matches name (fst member)) fields.

(** The struct decoder of [encoding/json] on [TD]: the members of the
    object are visited in order; a member named [totalDifficulty] is
    decoded into the pointer field ([null] resets it to nil), a decoding
    error stops the walk, every other member is skipped. *)
Fixpoint TD_decode_fields (fields : list (string * json)) (td : TD) : TD * option error :=
  match fields with
  | [] => (td, None)
  | (key, value) :: rest =>
      if key_matches "totalDifficulty" key then
        match value with
        | JNull => TD_decode_fields rest {| TotalDifficulty := None |}
        | _ =>
            match Big_UnmarshalJSON value with
            | inl e => ({| TotalDifficulty := Some (default 0 (TotalDifficulty td)) |}, Some e)
            | inr v => TD_decode_fields rest {| TotalDifficulty := Some v |}
            end
        end
      else TD_decode_fields rest td
  end.

#[export] Instance Unmarshal_TD : Unmarshal TD := {|
  zero_value := {| TotalDifficulty := None |};
  json_Unmarshal data td :=
    match data with
    | JObject fields => TD_decode_fields fields td
    | JNull => (td, None)
    | _ => (td, Some (UnmarshalError "json: cannot unmarshal into Go value of type hive_rpc.TD"))
    end
|}.

(** ** The JWT library *)

(** [time.Time], and its [Unix] method. *)
Record Time : Type := {
  wall_seconds : Z;
  wall_nanoseconds : Z
}.

Definition Time_Unix (t : Time) : Z := wall_seconds t.

Inductive SigningMethod : Type :=
| SigningMethodHS256.

(** [jwt.Token] with [jwt.MapClaims]. *)
Record Token : Type := {
  Method : SigningMethod;
  Claims : gmap string Z
}.

Definition NewWithClaims (method : SigningMethod) (claims : gmap string Z) : Token :=
  {| Method := method; Claims := claims |}.

(** The signer of the JWT library: the token string and the error. *)
Class Jwt : Type := {
  SignedString : Token -> list Byte.byte -> string * option error
}.

(** ** go-ethereum types *)

(** [types.Header] with the two fields and the method the client reads,
    the request and response types of the engine API ([core/beacon]), and
    their JSON decoders. *)
Class Geth : Type := {
  Header : Type;
  Header_ParentHash : Header -> Hash;
  Header_Number : Header -> option Z;
  Header_Hash : Header -> Hash;
  ForkchoiceStateV1 : Type;
  PayloadAttributesV1 : Type;
  PayloadID : Type;
  ForkChoiceResponse : Type;
  ExecutableDataV1 : Type;
  PayloadStatusV1 : Type;
  TransitionConfigurationV1 : Type;
  Unmarshal_Header :: Unmarshal Header;
  Unmarshal_ForkChoiceResponse :: Unmarshal ForkChoiceResponse;
  Unmarshal_ExecutableDataV1 :: Unmarshal ExecutableDataV1;
  Unmarshal_PayloadStatusV1 :: Unmarshal PayloadStatusV1;
  Unmarshal_TransitionConfigurationV1 :: Unmarshal TransitionConfigurationV1
}.

(** ** The client and the world it runs in *)

Section Client.
Context {G : Geth}.

(** The remote procedure calls the client issues, with their arguments. *)
Inductive Request : Type :=
| eth_getBlockByNumber (number : string) (full : bool)
| eth_getTransactionCount (account : Address) (blockNumber : option Z)
| engine_forkchoiceUpdatedV1
    (fcState : option ForkchoiceStateV1) (pAttributes : option PayloadAttributesV1)
| engine_getPayloadV1 (payloadId : option PayloadID)
| engine_newPayloadV1 (payload : option ExecutableDataV1)
| engine_exchangeTransitionConfigurationV1 (tConf : option TransitionConfigurationV1).

Inductive Endpoint : Type :=
| EnginePort
| EthPort.

(** [rpc.Client]: the endpoint it was dialled to and the HTTP headers set
    on it with [SetHeader]. *)
Record rpc_Client : Type := {
  endpoint : Endpoint;
  headers : gmap string string
}.

(** One HTTP round trip: where it went, the headers it carried, and the
    call. *)
Record WireCall : Type := {
  wire_endpoint : Endpoint;
  wire_headers : gmap string string;
  wire_request : Request
}.

(** The node behind the two ports.  Its answer to a call may depend on
    every call made before: either an error of the rpc client (refused
    connection, JSON-RPC error object, missing result, deadline exceeded)
    or the raw JSON result. *)
Class Node : Type := {
  node_reply : list WireCall -> WireCall -> string + json
}.

Record AccountTransactionInfo : Type := {
  PreviousBlock : Hash;
  PreviousNonce : Z
}.

(** Implements the EngineClient interface for a normal RPC client.  The
    embedded [*ethclient.Client] wraps the same rpc client as [cEth]. *)
Record HiveRPCEngineClient : Type := {
  c : rpc_Client;
  cEth : rpc_Client;
  ttd : option Z;
  JWTSecretBytes : list Byte.byte;
  (* Engine updates info *)
  latestFcUStateSent : option ForkchoiceStateV1;
  latestPAttrSent : option PayloadAttributesV1;
  latestFcUResponse : option ForkChoiceResponse;
  latestPayloadSent : option ExecutableDataV1;
  latestPayloadStatusReponse : option PayloadStatusV1;
  (* Test account nonces *)
  accTxInfoMap : gmap Address (option AccountTransactionInfo)
}.

(** NewClient creates a engine client that uses the given RPC client. *)
Definition NewHiveRPCEngineClient (jwtSecretBytes : list Byte.byte) (ttd : option Z)
  : HiveRPCEngineClient :=
  {| c := {| endpoint := EnginePort; headers := ∅ |};
     cEth := {| endpoint := EthPort; headers := ∅ |};
     ttd := ttd;
     JWTSecretBytes := jwtSecretBytes;
     latestFcUStateSent := None;
     latestPAttrSent := None;
     latestFcUResponse := None;
     latestPayloadSent := None;
     latestPayloadStatusReponse := None;
     accTxInfoMap := ∅ |}.

Definition TerminalTotalDifficulty (ec : HiveRPCEngineClient) : option Z := ttd ec.

(** Field assignments. *)
Definition set_c (v : rpc_Client) (ec : HiveRPCEngineClient) : HiveRPCEngineClient :=
  {| c := v; cEth := cEth ec; ttd := ttd ec; JWTSecretBytes := JWTSecretBytes ec;
     latestFcUStateSent := latestFcUStateSent ec; latestPAttrSent := latestPAttrSent ec;
     latestFcUResponse := latestFcUResponse ec; latestPayloadSent := latestPayloadSent ec;
     latestPayloadStatusReponse := latestPayloadStatusReponse ec;
     accTxInfoMap := accTxInfoMap ec |}.

Definition set_latestFcUStateSent (v : option ForkchoiceStateV1) (ec : HiveRPCEngineClient)
  : HiveRPCEngineClient :=
  {| c := c ec; cEth := cEth ec; ttd := ttd ec; JWTSecretBytes := JWTSecretBytes ec;
     latestFcUStateSent := v; latestPAttrSent := latestPAttrSent ec;
     latestFcUResponse := latestFcUResponse ec; latestPayloadSent := latestPayloadSent ec;
     latestPayloadStatusReponse := latestPayloadStatusReponse ec;
     accTxInfoMap := accTxInfoMap ec |}.

Definition set_latestPAttrSent (v : option PayloadAttributesV1) (ec : HiveRPCEngineClient)
  : HiveRPCEngineClient :=
  {| c := c ec; cEth := cEth ec; ttd := ttd ec; JWTSecretBytes := JWTSecretBytes ec;
     latestFcUStateSent := latestFcUStateSent ec; latestPAttrSent := v;
     latestFcUResponse := latestFcUResponse ec; latestPayloadSent := latestPayloadSent ec;
     latestPayloadStatusReponse := latestPayloadStatusReponse ec;
     accTxInfoMap := accTxInfoMap ec |}.

Definition set_latestFcUResponse (v : option ForkChoiceResponse) (ec : HiveRPCEngineClient)
  : HiveRPCEngineClient :=
  {| c := c ec; cEth := cEth ec; ttd := ttd ec; JWTSecretBytes := JWTSecretBytes ec;
     latestFcUStateSent := latestFcUStateSent ec; latestPAttrSent := latestPAttrSent ec;
     latestFcUResponse := v; latestPayloadSent := latestPayloadSent ec;
     latestPayloadStatusReponse := latestPayloadStatusReponse ec;
     accTxInfoMap := accTxInfoMap ec |}.

Definition set_latestPayloadSent (v : option ExecutableDataV1) (ec : HiveRPCEngineClient)
  : HiveRPCEngineClient :=
  {| c := c ec; cEth := cEth ec; ttd := ttd ec; JWTSecretBytes := JWTSecretBytes ec;
     latestFcUStateSent := latestFcUStateSent ec; latestPAttrSent := latestPAttrSent ec;
     latestFcUResponse := latestFcUResponse ec; latestPayloadSent := v;
     latestPayloadStatusReponse := latestPayloadStatusReponse ec;
     accTxInfoMap := accTxInfoMap ec |}.

Definition set_latestPayloadStatusReponse (v : option PayloadStatusV1)
  (ec : HiveRPCEngineClient) : HiveRPCEngineClient :=
  {| c := c ec; cEth := cEth ec; ttd := ttd ec; JWTSecretBytes := JWTSecretBytes ec;
     latestFcUStateSent := latestFcUStateSent ec; latestPAttrSent := latestPAttrSent ec;
     latestFcUResponse := latestFcUResponse ec; latestPayloadSent := latestPayloadSent ec;
     latestPayloadStatusReponse := v;
     accTxInfoMap := accTxInfoMap ec |}.

Definition set_accTxInfoMap (v : gmap Address (option AccountTransactionInfo))
  (ec : HiveRPCEngineClient) : HiveRPCEngineClient :=
  {| c := c ec; cEth := cEth ec; ttd := ttd ec; JWTSecretBytes := JWTSecretBytes ec;
     latestFcUStateSent := latestFcUStateSent ec; latestPAttrSent := latestPAttrSent ec;
     latestFcUResponse := latestFcUResponse ec; latestPayloadSent := latestPayloadSent ec;
     latestPayloadStatusReponse := latestPayloadStatusReponse ec;
     accTxInfoMap := v |}.

(** The world: the client object and the log of the round trips made so
    far, oldest first. *)
Record World : Type := {
  client : HiveRPCEngineClient;
  wire : list WireCall
}.

(** A method either returns a value in a new world or panics (a nil
    pointer dereference). *)
Inductive Outcome (A : Type) : Type :=
| Done (a : A) (w : World)
| Panicked.
Arguments Done {A} a w.
Arguments Panicked {A}.

Definition M (A : Type) : Type := World -> Outcome A.

Definition ret {A : Type} (a : A) : M A := fun w => Done a w.

Definition bind {A B : Type} (m : M A) (k : A -> M B) : M B :=
  fun w =>
    match m w with
    | Done a w' => k a w'
    | Panicked => Panicked
    end.

Notation "x <- m ;; k" := (bind m (fun x => k))
  (at level 62, m at next level, right associativity).
Notation "m ;;; k" := (bind m (fun _ => k))
  (at level 62, right associativity).

(** Reading the receiver [ec] and assigning to its fields. *)
Definition this : M HiveRPCEngineClient := fun w => Done (client w) w.

Definition assign (f : HiveRPCEngineClient -> HiveRPCEngineClient) : M unit :=
  fun w => Done tt {| client := f (client w); wire := wire w |}.

(** Dereferencing a pointer. *)
Definition deref {A : Type} (p : option A) : M A :=
  fun w =>
    match p with
    | Some a => Done a w
    | None => Panicked
    end.

(** [SetHeader] of [rpc.Client]. *)
Definition SetHeader (key value : string) (rc : rpc_Client) : rpc_Client :=
  {| endpoint := endpoint rc; headers := <[key := value]> (headers rc) |}.

(** The round trip a call on [rc] makes, and the world after it. *)
Definition round_trip (rc : rpc_Client) (req : Request) : WireCall :=
  {| wire_endpoint := endpoint rc;
     wire_headers := headers rc;
     wire_request := req |}.

Definition logged (call : WireCall) (w : World) : World :=
  {| client := client w; wire := wire w ++ [call] |}.

(** A call failed when it returned a non-nil error or panicked. *)
Definition failed {A : Type} (o : Outcome (A * option error)) : Prop :=
  match o with
  | Done (_, None) _ => False
  | Done (_, Some _) _ => True
  | Panicked => True
  end.

Context {N : Node}.

(** [CallContext] of [rpc.Client]: one round trip, logged; an error of
    the rpc client leaves [result] as it was, otherwise the raw result is
    decoded into it with [json.Unmarshal]. *)
Definition CallContext {T : Type} `{Unmarshal T} (rc : rpc_Client) (result : T)
  (req : Request) : M (T * option error) :=
  fun w =>
    let call := round_trip rc req in
    match node_reply (wire w) call with
    | inl msg => Done (result, Some (RPCError msg)) (logged call w)
    | inr raw => Done (json_Unmarshal raw result) (logged call w)
    end.

Definition HeaderByNumber (number : option Z) : M (option Header * option error) :=
  let header : option Header := None in
  ec <- this ;;
  r <- CallContext (cEth ec) header
         (eth_getBlockByNumber (toBlockNumArg number) false) ;;
  let '(header, err) := r in
  let err :=
    match err, header with
    | None, None => Some NotFound
    | _, _ => err
    end in
  ret (header, err).

Record TotalDifficultyHeader : Type := {
  tdh_Header : Header;
  tdh_TD : TD
}.

Definition TotalDifficultyHeader_UnmarshalJSON (data : json) (tdh : TotalDifficultyHeader)
  : TotalDifficultyHeader * option error :=
  let '(hdr, err) := json_Unmarshal data (tdh_Header tdh) in
  let tdh := {| tdh_Header := hdr; tdh_TD := tdh_TD tdh |} in
  match err with
  | Some e => (tdh, Some e)
  | None =>
      let '(td, err) := json_Unmarshal data (tdh_TD tdh) in
      let tdh := {| tdh_Header := tdh_Header tdh; tdh_TD := td |} in
      match err with
      | Some e => (tdh, Some e)
      | None => (tdh, None)
      end
  end.

#[export] Instance Unmarshal_TotalDifficultyHeader : Unmarshal TotalDifficultyHeader := {|
  zero_value := {| tdh_Header := zero_value; tdh_TD := zero_value |};
  json_Unmarshal := TotalDifficultyHeader_UnmarshalJSON
|}.

(** [ToInt] of [hexutil.Big] converts the pointer; nil stays nil. *)
Definition Big_ToInt (b : option Z) : option Z := b.

Definition GetTotalDifficulty : M (option Z * option error) :=
  let td : option TotalDifficultyHeader := None in
  ec <- this ;;
  r <- CallContext (cEth ec) td (eth_getBlockByNumber "latest" false) ;;
  let '(td, err) := r in
  match err with
  | None =>
      tdh <- deref td ;;
      ret (Big_ToInt (TotalDifficulty (tdh_TD tdh)), None)
  | Some e => ret (None, Some e)
  end.

(** JWT Tokens *)
Context {J : Jwt}.

Definition GetNewToken (jwtSecretBytes : list Byte.byte) (iat : Time)
  : string * option error :=
  let newToken := NewWithClaims SigningMethodHS256 {[ "iat"%string := Time_Unix iat ]} in
  let '(tokenString, err) := SignedString newToken jwtSecretBytes in
  match err with
  | Some e => (EmptyString, Some e)
  | None => (tokenString, None)
  end.

Definition PrepareAuthCallToken (jwtSecretBytes : list Byte.byte) (iat : Time)
  : M (option error) :=
  let '(newTokenString, err) := GetNewToken jwtSecretBytes iat in
  match err with
  | Some e => ret (Some e)
  | None =>
      ec <- this ;;
      assign (set_c (SetHeader "Authorization" ("Bearer " ++ newTokenString) (c ec))) ;;;
      ret None
  end.

(** [now] is the value [time.Now()] reads. *)
Definition PrepareDefaultAuthCallToken (now : Time) : M (option error) :=
  ec <- this ;;
  PrepareAuthCallToken (JWTSecretBytes ec) now ;;;
  ret None.

(** Engine API Call Methods *)
Definition ForkchoiceUpdatedV1 (now : Time) (fcState : option ForkchoiceStateV1)
  (pAttributes : option PayloadAttributesV1) : M (ForkChoiceResponse * option error) :=
  let result : ForkChoiceResponse := zero_value in
  err <- PrepareDefaultAuthCallToken now ;;
  match err with
  | Some e => ret (result, Some e)
  | None =>
      assign (set_latestFcUStateSent fcState) ;;;
      assign (set_latestPAttrSent pAttributes) ;;;
      ec <- this ;;
      r <- CallContext (c ec) result (engine_forkchoiceUpdatedV1 fcState pAttributes) ;;
      let '(result, err) := r in
      assign (set_latestFcUResponse (Some result)) ;;;
      ret (result, err)
  end.

Definition GetPayloadV1 (now : Time) (payloadId : option PayloadID)
  : M (ExecutableDataV1 * option error) :=
  let result : ExecutableDataV1 := zero_value in
  err <- PrepareDefaultAuthCallToken now ;;
  match err with
  | Some e => ret (result, Some e)
  | None =>
      ec <- this ;;
      r <- CallContext (c ec) result (engine_getPayloadV1 payloadId) ;;
      let '(result, err) := r in
      ret (result, err)
  end.

Definition NewPayloadV1 (now : Time) (payload : option ExecutableDataV1)
  : M (PayloadStatusV1 * option error) :=
  let result : PayloadStatusV1 := zero_value in
  err <- PrepareDefaultAuthCallToken now ;;
  match err with
  | Some e => ret (result, Some e)
  | None =>
      assign (set_latestPayloadSent payload) ;;;
      ec <- this ;;
      r <- CallContext (c ec) result (engine_newPayloadV1 payload) ;;
      let '(result, err) := r in
      assign (set_latestPayloadStatusReponse (Some result)) ;;;
      ret (result, err)
  end.

Definition ExchangeTransitionConfigurationV1 (tConf : option TransitionConfigurationV1)
  : M (TransitionConfigurationV1 * option error) :=
  let result : TransitionConfigurationV1 := zero_value in
  ec <- this ;;
  r <- CallContext (c ec) result (engine_exchangeTransitionConfigurationV1 tConf) ;;
  let '(result, err) := r in
  ret (result, err).

(** [NonceAt] of the embedded ethclient: one call on the eth port whose
    result is a [hexutil.Uint64]; the number and the error are returned
    together. *)
#[local] Instance Unmarshal_Uint64 : Unmarshal Z := {|
  zero_value := 0;
  json_Unmarshal := Uint64_UnmarshalJSON
|}.

Definition NonceAt (account : Address) (blockNumber : option Z) : M (Z * option error) :=
  let result : Z := 0 in
  ec <- this ;;
  r <- CallContext (cEth ec) result (eth_getTransactionCount account blockNumber) ;;
  let '(result, err) := r in
  ret (result, err).

Definition GetNextAccountNonce (account : Address) : M (Z * option error) :=
  (* First get the current head of the client where we will send the tx *)
  r <- HeaderByNumber None ;;
  let '(head, err) := r in
  match err with
  | Some e => ret (0, Some e)
  | None =>
      (* We don't have info about this account, or is outdated, or we
         re-org'd, we must request the nonce *)
      let request_nonce : M (Z * option error) :=
        h <- deref head ;;
        r <- NonceAt account (Header_Number h) ;;
        let '(nonce, err) := r in
        match err with
        | Some e => ret (0, Some e)
        | None =>
            ec <- this ;;
            assign (set_accTxInfoMap
                      (<[account := Some {| PreviousBlock := Header_Hash h;
                                            PreviousNonce := nonce |}]>
                         (accTxInfoMap ec))) ;;;
            ret (nonce, None)
        end in
      (* Then check if we have any info about this account, and when it
         was last updated *)
      ec <- this ;;
      match accTxInfoMap ec !! account with
      | Some (Some accTxInfo) =>
          h <- deref head ;;
          if (PreviousBlock accTxInfo =? Header_Hash h)
             || (PreviousBlock accTxInfo =? Header_ParentHash h)
          then
            (* We have info about this account and is up to date (or up to
               date until the very last block).  Increase the nonce and
               return it *)
            let accTxInfo :=
              {| PreviousBlock := Header_Hash h;
                 PreviousNonce := uint64_inc (PreviousNonce accTxInfo) |} in
            assign (set_accTxInfoMap (<[account := Some accTxInfo]> (accTxInfoMap ec))) ;;;
            ret (PreviousNonce accTxInfo, None)
          else request_nonce
      | _ => request_nonce
      end
  end.

Definition PostRunVerifications : M (option error) :=
  (* There are no post run verifications for RPC clients yet *)
  ret None.

Definition LatestForkchoiceSent (ec : HiveRPCEngineClient)
  : option ForkchoiceStateV1 * option PayloadAttributesV1 :=
  (latestFcUStateSent ec, latestPAttrSent ec).

Definition LatestNewPayloadSent (ec : HiveRPCEngineClient) : option ExecutableDataV1 :=
  latestPayloadSent ec.

Definition LatestForkchoiceResponse (ec : HiveRPCEngineClient) : option ForkChoiceResponse :=
  latestFcUResponse ec.

Definition LatestNewPayloadResponse (ec : HiveRPCEngineClient) : option PayloadStatusV1 :=
  latestPayloadStatusReponse ec.

(** The five fields of the call memory. *)
Definition CallMemory (ec : HiveRPCEngineClient) :=
  (latestFcUStateSent ec, latestPAttrSent ec, latestFcUResponse ec,
   latestPayloadSent ec, latestPayloadStatusReponse ec).

End Client.

Arguments Done {G A} a w.
Arguments Panicked {G A}.

(** ** A concrete world

    A small instance of the interfaces, on which the client can be run:
    headers that carry their own hash, engine types that are plain strings,
    a signer, and a few nodes. *)

Module Sample.

Record header : Type := {
  hash : Z;
  parentHash : Z;
  number : Z
}.

(** Last member of an object with the given key. *)
Fixpoint member (key : string) (fields : list (string * json)) : option json :=
  match fields with
  | [] => None
  | (k, v) :: rest =>
      match member key rest with
      | Some v' => Some v'
      | None => if String.eqb k key then Some v else None
      end
  end.

Definition required (key : string) (fields : list (string * json)) : error + Z :=
  match member key fields with
  | Some v => Big_UnmarshalJSON v
  | None => inl (UnmarshalError ("missing required field " ++ key))
  end.

Definition header_UnmarshalJSON (data : json) (h : header) : header * option error :=
  match data with
  | JObject fields =>
      match required "hash" fields, required "parentHash" fields, required "number" fields with
      | inr hs, inr ph, inr n => ({| hash := hs; parentHash := ph; number := n |}, None)
      | inl e, _, _ => (h, Some e)
      | _, inl e, _ => (h, Some e)
      | _, _, inl e => (h, Some e)
      end
  | _ => (h, Some (UnmarshalError "not an object"))
  end.

Definition string_UnmarshalJSON (data : json) (s : string) : string * option error :=
  match data with
  | JString v => (v, None)
  | JNull => (s, None)
  | _ => (s, Some (UnmarshalError "not a string"))
  end.

Definition Unmarshal_string : Unmarshal string :=
  {| zero_value := EmptyString; json_Unmarshal := string_UnmarshalJSON |}.

Definition geth : Geth :=
  {| Header := header;
     Header_ParentHash := parentHash;
     Header_Number := fun h => Some (number h);
     Header_Hash := hash;
     ForkchoiceStateV1 := string;
     PayloadAttributesV1 := string;
     PayloadID := string;
     ForkChoiceResponse := string;
     ExecutableDataV1 := string;
     PayloadStatusV1 := string;
     TransitionConfigurationV1 := string;
     Unmarshal_Header :=
       {| zero_value := {| hash := 0; parentHash := 0; number := 0 |};
          json_Unmarshal := header_UnmarshalJSON |};
     Unmarshal_ForkChoiceResponse := Unmarshal_string;
     Unmarshal_ExecutableDataV1 := Unmarshal_string;
     Unmarshal_PayloadStatusV1 := Unmarshal_string;
     Unmarshal_TransitionConfigurationV1 := Unmarshal_string |}.

(** A signer that signs with every key, as HS256 does; the token spells
    the issue time. *)
Definition jwt : Jwt :=
  {| SignedString tok secret :=
       (("hs256." ++ EncodeBig (default 0 (Claims tok !! "iat"%string)))%string, None) |}.

(** Block 0xb1 on top of block 0xb0, at height 1. *)
Definition block_fields : list (string * json) :=
  [("hash", JString "0xb1"); ("parentHash", JString "0xb0");
   ("number", JString "0x1")]%string.

Definition block : header := {| hash := 177; parentHash := 176; number := 1 |}.

(** A node with that head, total difficulty 0x20000, nonce 5 for every
    account, and [VALID] for every engine call. *)
Definition node_ok : @Node geth :=
  {| node_reply _ call :=
       match wire_request call with
       | eth_getBlockByNumber _ _ =>
           inr (JObject (block_fields ++ [("totalDifficulty"%string, JString "0x20000")]))
       | eth_getTransactionCount _ _ => inr (JString "0x5")
       | _ => inr (JString "VALID")
       end |}.

(** The same node, whose blocks carry no total difficulty. *)
Definition node_no_td : @Node geth :=
  {| node_reply _ call :=
       match wire_request call with
       | eth_getBlockByNumber _ _ => inr (JObject block_fields)
       | eth_getTransactionCount _ _ => inr (JString "0x5")
       | _ => inr (JString "VALID")
       end |}.

(** A node that knows no block. *)
Definition node_empty : @Node geth :=
  {| node_reply _ call :=
       match wire_request call with
       | eth_getBlockByNumber _ _ => inr JNull
       | eth_getTransactionCount _ _ => inr (JString "0x0")
       | _ => inr (JString "SYNCING")
       end |}.

(** A node that cannot be reached. *)
Definition node_down : @Node geth :=
  {| node_reply _ _ := inl "connection refused"%string |}.

(** A node that serves blocks and engine calls but fails nonce lookups. *)
Definition node_no_nonce : @Node geth :=
  {| node_reply _ call :=
       match wire_request call with
       | eth_getBlockByNumber _ _ => inr (JObject block_fields)
       | eth_getTransactionCount _ _ => inl "deadline exceeded"%string
       | _ => inr (JString "VALID")
       end |}.

Definition secret : list Byte.byte := [Byte.x73; Byte.x65; Byte.x63].

Definition noon : Time := {| wall_seconds := 1700000000; wall_nanoseconds := 250 |}.

(** A client just made, and the world it starts in. *)
Definition fresh : @World geth :=
  {| client := NewHiveRPCEngineClient secret None; wire := [] |}.

(** A client that has recorded nonce 7 for account 10 at the given block,
    and nonce 3 for account 11 at block 0x01. *)
Definition warm (recorded : Z) : @World geth :=
  {| client :=
       set_accTxInfoMap
         (<[10 := Some {| PreviousBlock := recorded; PreviousNonce := 7 |}]>
            (<[11 := Some {| PreviousBlock := 1; PreviousNonce := 3 |}]> ∅))
         (NewHiveRPCEngineClient secret None);
     wire := [] |}.

End Sample.

(** ** Sequences of calls *)

Section Operations.
Context {G : Geth} {N : Node} {J : Jwt}.

(** The methods of the client that send requests or use the nonce cache,
    with their arguments.  The two exported methods that only set the
    token of the engine rpc client are added in [Call] below. *)
Inductive Operation : Type :=
| DoForkchoiceUpdatedV1
    (now : Time) (fcState : option ForkchoiceStateV1)
    (pAttributes : option PayloadAttributesV1)
| DoGetPayloadV1 (now : Time) (payloadId : option PayloadID)
| DoNewPayloadV1 (now : Time) (payload : option ExecutableDataV1)
| DoExchangeTransitionConfigurationV1 (tConf : option TransitionConfigurationV1)
| DoHeaderByNumber (number : option Z)
| DoGetTotalDifficulty
| DoGetNextAccountNonce (account : Address).

Definition world_after {A : Type} (o : Outcome A) : option World :=
  match o with
  | Done _ w => Some w
  | Panicked => None
  end.

(** The world a call leaves; [None] when it panics. *)
Definition perform (op : Operation) (w : World) : option World :=
  match op with
  | DoForkchoiceUpdatedV1 now fcState pAttributes =>
      world_after (ForkchoiceUpdatedV1 now fcState pAttributes w)
  | DoGetPayloadV1 now payloadId => world_after (GetPayloadV1 now payloadId w)
  | DoNewPayloadV1 now payload => world_after (NewPayloadV1 now payload w)
  | DoExchangeTransitionConfigurationV1 tConf =>
      world_after (ExchangeTransitionConfigurationV1 tConf w)
  | DoHeaderByNumber number => world_after (HeaderByNumber number w)
  | DoGetTotalDifficulty => world_after (GetTotalDifficulty w)
  | DoGetNextAccountNonce account => world_after (GetNextAccountNonce account w)
  end.

Fixpoint perform_all (ops : list Operation) (w : World) : option World :=
  match ops with
  | [] => Some w
  | op :: rest =>
      match perform op w with
      | Some w' => perform_all rest w'
      | None => None
      end
  end.

(** The world of a client that [NewHiveRPCEngineClient] has just made. *)
Definition new_world (jwtSecretBytes : list Byte.byte) (ttd : option Z) : World :=
  {| client := NewHiveRPCEngineClient jwtSecretBytes ttd; wire := [] |}.

(** A nonce cache without nil pointer whose nonces are [uint64] values. *)
Definition cache_well_formed (m : gmap Address (option AccountTransactionInfo)) : Prop :=
  forall (a : Address) (entry : option AccountTransactionInfo),
    m !! a = Some entry ->
    exists accTxInfo : AccountTransactionInfo,
      entry = Some accTxInfo /\ 0 <= PreviousNonce accTxInfo < uint64_modulus.

(** Headers that hold at most a bearer token signed with [secret]. *)
Definition bearer_only (secret : list Byte.byte) (hs : gmap string string) : Prop :=
  forall key value : string,
    hs !! key = Some value ->
    key = "Authorization"%string
    /\ exists (now : Time) (tokenString : string),
         GetNewToken secret now = (tokenString, None)
         /\ value = ("Bearer " ++ tokenString)%string.

(** A round trip that went where its method belongs: the [eth_] methods
    to the eth port without any header, the [engine_] methods to the
    engine port with at most a bearer token. *)
Definition trip_in_order (secret : list Byte.byte) (trip : WireCall) : Prop :=
  match wire_request trip with
  | eth_getBlockByNumber _ _ | eth_getTransactionCount _ _ =>
      wire_endpoint trip = EthPort /\ wire_headers trip = ∅
  | _ =>
      wire_endpoint trip = EnginePort /\ bearer_only secret (wire_headers trip)
  end.

(** What every world reached from a new client by these calls has: the
    secret and the terminal total difficulty it was made with, the eth rpc
    client free of headers, the engine rpc client with at most a bearer
    token, a well-formed nonce cache, and round trips that went where they
    belong. *)
Definition world_in_order (secret : list Byte.byte) (terminal : option Z) (w : World)
  : Prop :=
  JWTSecretBytes (client w) = secret
  /\ ttd (client w) = terminal
  /\ cEth (client w) = {| endpoint := EthPort; headers := ∅ |}
  /\ endpoint (c (client w)) = EnginePort
  /\ bearer_only secret (headers (c (client w)))
  /\ cache_well_formed (accTxInfoMap (client w))
  /\ Forall (trip_in_order secret) (wire w).

End Operations.

(** ** Sequences of calls that also prepare tokens *)

Section Calls.
Context {G : Geth} {N : Node} {J : Jwt}.

(** The calls of [Operation] and the two exported methods that set the
    token of the engine rpc client: [PrepareAuthCallToken], with a secret
    and an issue time of the caller's choice, and
    [PrepareDefaultAuthCallToken], with the secret of the client. *)
Inductive Call : Type :=
| Listed (op : Operation)
| DoPrepareAuthCallToken (jwtSecretBytes : list Byte.byte) (iat : Time)
| DoPrepareDefaultAuthCallToken (now : Time).

Definition perform_call (call : Call) (w : World) : option World :=
  match call with
  | Listed op => perform op w
  | DoPrepareAuthCallToken jwtSecretBytes iat =>
      world_after (PrepareAuthCallToken jwtSecretBytes iat w)
  | DoPrepareDefaultAuthCallToken now =>
      world_after (PrepareDefaultAuthCallToken now w)
  end.

Fixpoint perform_calls (calls : list Call) (w : World) : option World :=
  match calls with
  | [] => Some w
  | call :: rest =>
      match perform_call call w with
      | Some w' => perform_calls rest w'
      | None => None
      end
  end.

(** The secrets given to [PrepareAuthCallToken] in a sequence of calls. *)
Fixpoint secrets_given (calls : list Call) : list (list Byte.byte) :=
  match calls with
  | [] => []
  | DoPrepareAuthCallToken jwtSecretBytes _ :: rest => jwtSecretBytes :: secrets_given rest
  | _ :: rest => secrets_given rest
  end.

(** Headers that hold at most a bearer token signed with one of
    [secrets]. *)
Definition bearer_of (secrets : list (list Byte.byte)) (hs : gmap string string) : Prop :=
  forall key value : string,
    hs !! key = Some value ->
    key = "Authorization"%string
    /\ exists (secret : list Byte.byte) (iat : Time) (tokenString : string),
         In secret secrets
         /\ GetNewToken secret iat = (tokenString, None)
         /\ value = ("Bearer " ++ tokenString)%string.

(** A round trip that went where its method belongs: the [eth_] methods
    to the eth port without any header, the [engine_] methods to the
    engine port with at most a bearer token signed with one of [secrets]. *)
Definition trip_placed (secrets : list (list Byte.byte)) (trip : WireCall) : Prop :=
  match wire_request trip with
  | eth_getBlockByNumber _ _ | eth_getTransactionCount _ _ =>
      wire_endpoint trip = EthPort /\ wire_headers trip = ∅
  | _ =>
      wire_endpoint trip = EnginePort /\ bearer_of secrets (wire_headers trip)
  end.

(** What these sequences keep: the eth rpc client free of headers, the
    engine rpc client on its port with at most a bearer token of one of
    [secrets], the secret of the client among them, and round trips that
    went where they belong. *)
Definition world_placed (secrets : list (list Byte.byte)) (w : World) : Prop :=
  cEth (client w) = {| endpoint := EthPort; headers := ∅ |}
  /\ endpoint (c (client w)) = EnginePort
  /\ In (JWTSecretBytes (client w)) secrets
  /\ bearer_of secrets (headers (c (client w)))
  /\ Forall (trip_placed secrets) (wire w).

End Calls.

(** ** Starting a client *)

Module Starter.

(** [hivesim.Client], the handle of a launched container. *)
Record hivesim_Client : Type := {
  Container : string;
  IP : string
}.

(** The errors [StartClient] makes with [fmt.Errorf], with the text of the
    error they wrap. *)
Inductive start_error : Type :=
| ErrClientTypes (cause : string)
| ErrNoClientTypes
| ErrNoGenesisFile
| ErrParseTTD
| ErrBootnode (cause : string)
| ErrPortsNeverOpen (cause : string).

(** What [StartClient] takes from the simulator, from the [globals] and
    [helper] packages and from the Go library: the default ports and
    secret; the client types of the simulator, with its error; the real
    terminal total difficulty of a genesis file; [SetString] in base ten,
    [Int64] and [%d] of [big.Int]; the launch of a container, [None] when
    the simulator cannot launch it and the test is stopped; and the result
    of [CheckEthEngineLive], which polls the two default ports for five
    seconds. *)
Class Hive : Type := {
  EnginePortHTTP : Z;
  EthPortHTTP : Z;
  DefaultJwtTokenSecretBytes : list Byte.byte;
  Sim_ClientTypes : list string * option string;
  CalculateRealTTD : string -> Z -> Z;
  big_SetString10 : string -> option Z;
  big_Int64 : Z -> Z;
  Sprintf_d : Z -> string;
  T_StartClient : string -> gmap string string -> gmap string string -> option hivesim_Client;
  CheckEthEngineLive : hivesim_Client -> option string
}.

Record HiveRPCEngineStarter : Type := {
  (* Client parameters used to launch the default client *)
  ClientType : string;
  ChainFile : string;
  TerminalTotalDifficulty : option Z;
  EnginePort : Z;
  EthPort : Z;
  JWTSecret : option (list Byte.byte)
}.

(** One call of [T.StartClient]. *)
Record Launch : Type := {
  launch_type : string;
  launch_params : gmap string string;
  launch_files : gmap string string
}.

(** [EnodeURL] of each boot client in turn; the first error stops. *)
Fixpoint enode_urls (bootClients : list (string * option string)) : string + list string :=
  match bootClients with
  | [] => inr []
  | (enode, Some err) :: _ => inl err
  | (enode, None) :: rest =>
      match enode_urls rest with
      | inl err => inl err
      | inr enodes => inr (enode :: enodes)
      end
  end.

Section StartClient.
Context {G : Geth} {H : Hive}.

(** The engine client [StartClient] returns: the container it talks to,
    the two ports its rpc clients were dialled to, and the client object. *)
Record Started : Type := {
  started_h : hivesim_Client;
  started_enginePort : Z;
  started_ethPort : Z;
  started_ec : HiveRPCEngineClient
}.

Inductive StartResult : Type :=
| StartOk (ec : Started)
| StartFailed (err : start_error)
| TestStopped.

(** A boot client is given by what its [EnodeURL] returns.  The result
    comes with the launches made. *)
Definition StartClient (s : HiveRPCEngineStarter)
  (ClientParams ClientFiles : gmap string string)
  (bootClients : list (string * option string)) : list Launch * StartResult :=
  let clientType := ClientType s in
  let enginePort := EnginePort s in
  let ethPort := EthPort s in
  let jwtSecret := JWTSecret s in
  let ttd := TerminalTotalDifficulty s in
  let resolved : start_error + string :=
    if String.eqb clientType EmptyString then
      match Sim_ClientTypes with
      | (_, Some err) => inl (ErrClientTypes err)
      | ([], None) => inl ErrNoClientTypes
      | (name :: _, None) => inr name
      end
    else inr clientType in
  match resolved with
  | inl err => ([], StartFailed err)
  | inr clientType =>
      let enginePort := if enginePort =? 0 then EnginePortHTTP else enginePort in
      let ethPort := if ethPort =? 0 then EthPortHTTP else ethPort in
      let jwtSecret := default DefaultJwtTokenSecretBytes jwtSecret in
      let ClientFiles :=
        if String.eqb (ChainFile s) EmptyString then ClientFiles
        else <["/chain.rlp"%string := ("./chains/" ++ ChainFile s)%string]> ClientFiles in
      match ClientFiles !! "/genesis.json"%string with
      | None => ([], StartFailed ErrNoGenesisFile)
      | Some genesis =>
          let configured : start_error + (option Z * gmap string string) :=
            match ttd with
            | None =>
                match ClientParams !! "HIVE_TERMINAL_TOTAL_DIFFICULTY"%string with
                | Some ttdStr =>
                    (* Retrieve TTD from parameters *)
                    match big_SetString10 ttdStr with
                    | Some v => inr (Some v, ClientParams)
                    | None => inl ErrParseTTD
                    end
                | None => inr (None, ClientParams)
                end
            | Some v =>
                let ttdInt := CalculateRealTTD genesis (big_Int64 v) in
                inr (Some v,
                     <["HIVE_TERMINAL_TOTAL_DIFFICULTY"%string := Sprintf_d ttdInt]>
                       ClientParams)
            end in
          match configured with
          | inl err => ([], StartFailed err)
          | inr (ttd, ClientParams) =>
              let booted : start_error + gmap string string :=
                match bootClients with
                | [] => inr ClientParams
                | _ :: _ =>
                    match enode_urls bootClients with
                    | inl err => inl (ErrBootnode err)
                    | inr enodes =>
                        let enodeString := String.concat "," enodes in
                        inr (<["HIVE_BOOTNODE"%string := enodeString]> ClientParams)
                    end
                end in
              match booted with
              | inl err => ([], StartFailed err)
              | inr ClientParams =>
                  (* Start the client and create the engine client object *)
                  let launch := {| launch_type := clientType;
                                   launch_params := ClientParams;
                                   launch_files := ClientFiles |} in
                  match T_StartClient clientType ClientParams ClientFiles with
                  | None => ([launch], TestStopped)
                  | Some c =>
                      match CheckEthEngineLive c with
                      | Some err => ([launch], StartFailed (ErrPortsNeverOpen err))
                      | None =>
                          ([launch],
                           StartOk {| started_h := c;
                                      started_enginePort := enginePort;
                                      started_ethPort := ethPort;
                                      started_ec := NewHiveRPCEngineClient jwtSecret ttd |})
                      end
                  end
              end
          end
      end
  end.

End StartClient.

End Starter.

(** ** More of the concrete world *)

Module Scenario.

(** A node whose block has a number where its hash should be. *)
Definition node_garbled : @Node Sample.geth :=
  {| node_reply _ _ := inr (JObject [("hash"%string, JNumber 177)]) |}.

(** A node whose block carries its total difficulty as a JSON number. *)
Definition node_td_number : @Node Sample.geth :=
  {| node_reply _ call :=
       match wire_request call with
       | eth_getBlockByNumber _ _ =>
           inr (JObject (Sample.block_fields
                           ++ [("totalDifficulty"%string, JNumber 131072)]))
       | eth_getTransactionCount _ _ => inr (JString "0x5")
       | _ => inr (JString "VALID")
       end |}.

(** A nonce for account 10, a forkchoice update, and a second nonce. *)
Definition script : list (@Operation Sample.geth) :=
  [DoGetNextAccountNonce 10;
   @DoForkchoiceUpdatedV1 Sample.geth Sample.noon (Some "head"%string) None;
   DoGetNextAccountNonce 10].

(** The world after the first nonce of account 10 on a new client. *)
Definition first_nonce : @World Sample.geth :=
  {| client :=
       set_accTxInfoMap
         (<[10 := Some {| PreviousBlock := 177; PreviousNonce := 5 |}]> ∅)
         (client Sample.fresh);
     wire := [round_trip (cEth (client Sample.fresh)) (eth_getBlockByNumber "latest" false);
              round_trip (cEth (client Sample.fresh)) (eth_getTransactionCount 10 (Some 1))] |}.

(** The engine rpc client with the token of noon. *)
Definition bearer (rc : rpc_Client) : rpc_Client :=
  SetHeader "Authorization" "Bearer hs256.0x6553f100" rc.

(** The world a forkchoice update at noon, answered [VALID], leaves. *)
Definition forkchoice_done (w : @World Sample.geth) : @World Sample.geth :=
  {| client :=
       @set_latestFcUResponse Sample.geth (Some "VALID"%string)
         (@set_latestPAttrSent Sample.geth None
            (@set_latestFcUStateSent Sample.geth (Some "head"%string)
               (set_c (bearer (c (client w))) (client w))));
     wire := wire w
             ++ [round_trip (bearer (c (client w)))
                   (@engine_forkchoiceUpdatedV1 Sample.geth (Some "head"%string) None)] |}.

(** The world after the script. *)
Definition script_done : @World Sample.geth :=
  {| client :=
       set_accTxInfoMap
         (<[10 := Some {| PreviousBlock := 177; PreviousNonce := 6 |}]>
            (accTxInfoMap (client (forkchoice_done first_nonce))))
         (client (forkchoice_done first_nonce));
     wire := wire (forkchoice_done first_nonce)
             ++ [round_trip (cEth (client Sample.fresh))
                   (eth_getBlockByNumber "latest" false)] |}.

(** A token prepared with a secret of the caller, then the exchange of the
    transition configuration, and the world they leave. *)
Definition foreign_calls : list (@Call Sample.geth) :=
  [DoPrepareAuthCallToken [Byte.x6b] Sample.noon;
   Listed (DoExchangeTransitionConfigurationV1 None)].

Definition foreign_done : @World Sample.geth :=
  {| client := set_c (bearer (c (client Sample.fresh))) (client Sample.fresh);
     wire := [round_trip (bearer (c (client Sample.fresh)))
                (@engine_exchangeTransitionConfigurationV1 Sample.geth None)] |}.

(** A simulator with one client type, whose containers always start;
    numbers are written in decimal with an optional minus sign, and the
    real terminal total difficulty adds the difficulty of the genesis
    block, here 1000. *)
Definition hive : Starter.Hive :=
  {| Starter.EnginePortHTTP := 8551;
     Starter.EthPortHTTP := 8545;
     Starter.DefaultJwtTokenSecretBytes := Sample.secret;
     Starter.Sim_ClientTypes := (["go-ethereum"%string], None);
     Starter.CalculateRealTTD := fun _ v => v + 1000;
     Starter.big_SetString10 :=
       fun s => option_map Z.of_int (DecimalString.NilZero.int_of_string s);
     Starter.big_Int64 := fun v => v;
     Starter.Sprintf_d := fun v => DecimalString.NilZero.string_of_int (Z.to_int v);
     Starter.T_StartClient :=
       fun _ _ _ => Some {| Starter.Container := "a1b2c3"; Starter.IP := "172.17.0.2" |};
     Starter.CheckEthEngineLive := fun _ => None |}.

(** A starter that names nothing but a terminal total difficulty, and one
    that names nothing at all. *)
Definition starter : Starter.HiveRPCEngineStarter :=
  {| Starter.ClientType := EmptyString;
     Starter.ChainFile := EmptyString;
     Starter.TerminalTotalDifficulty := Some 500;
     Starter.EnginePort := 0;
     Starter.EthPort := 0;
     Starter.JWTSecret := None |}.

Definition bare_starter : Starter.HiveRPCEngineStarter :=
  {| Starter.ClientType := "besu";
     Starter.ChainFile := "blocks.rlp";
     Starter.TerminalTotalDifficulty := None;
     Starter.EnginePort := 9551;
     Starter.EthPort := 0;
     Starter.JWTSecret := Some [Byte.x6b] |}.

Definition files : gmap string string :=
  {[ "/genesis.json"%string := "./init/genesis.json"%string ]}.

Definition params : gmap string string :=
  {[ "HIVE_CHAIN_ID"%string := "7"%string ]}.

Definition boots : list (string * option string) :=
  [("enode://aa@10.0.0.1:30303"%string, None);
   ("enode://bb@10.0.0.2:30303"%string, None)].

(** The launch and the client that [starter] gives with these. *)
Definition launched : Starter.Launch :=
  {| Starter.launch_type := "go-ethereum";
     Starter.launch_params :=
       <["HIVE_BOOTNODE"%string
           := "enode://aa@10.0.0.1:30303,enode://bb@10.0.0.2:30303"%string]>
         (<["HIVE_TERMINAL_TOTAL_DIFFICULTY"%string := "1500"%string]> params);
     Starter.launch_files := files |}.

Definition started : @Starter.Started Sample.geth :=
  {| Starter.started_h :=
       {| Starter.Container := "a1b2c3"; Starter.IP := "172.17.0.2" |};
     Starter.started_enginePort := 8551;
     Starter.started_ethPort := 8545;
     Starter.started_ec := NewHiveRPCEngineClient Sample.secret (Some 500) |}.

End Scenario.

(** * Properties *)

(** ** Hexadecimal text *)

Lemma decodeNibble_hex_digit (d : Z) :
  0 <= d < 16 -> decodeNibble (hex_digit d) = Some d.
Proof.
  intros Hd.
  assert (Hcases : d = 0 \/ d = 1 \/ d = 2 \/ d = 3 \/ d = 4 \/ d = 5 \/ d = 6 \/ d = 7
                   \/ d = 8 \/ d = 9 \/ d = 10 \/ d = 11 \/ d = 12 \/ d = 13 \/ d = 14
                   \/ d = 15) by lia.
  repeat (destruct Hcases as [-> | Hcases]; [reflexivity |]).
  subst d. reflexivity.
Qed.

Lemma hex_digit_zero (d : Z) :
  0 < d < 16 -> hex_digit d <> "0"%char.
Proof.
  intros Hd.
  assert (Hcases : d = 1 \/ d = 2 \/ d = 3 \/ d = 4 \/ d = 5 \/ d = 6 \/ d = 7
                   \/ d = 8 \/ d = 9 \/ d = 10 \/ d = 11 \/ d = 12 \/ d = 13 \/ d = 14
                   \/ d = 15) by lia.
  repeat (destruct Hcases as [-> | Hcases]; [discriminate |]).
  subst d. discriminate.
Qed.

Lemma decode_nibbles_snoc (raw : list ascii) (c : ascii) (d acc : Z) :
  decodeNibble c = Some d ->
  decode_nibbles acc (raw ++ [c]) =
    match decode_nibbles acc raw with
    | Some v => Some (16 * v + d)
    | None => None
    end.
Proof.
  intros Hc. revert acc.
  induction raw as [| x raw IH]; intros acc; simpl.
  - now rewrite Hc.
  - destruct (decodeNibble x); [apply IH | reflexivity].
Qed.

(** With enough fuel the digits spell the number. *)
Lemma hex_digits_value (fuel : nat) :
  forall n : Z, 0 <= n < 16 ^ Z.of_nat fuel ->
    decode_nibbles 0 (hex_digits fuel n) = Some n.
Proof.
  induction fuel as [| fuel IH]; intros n Hn.
  - simpl in Hn. assert (n = 0) by lia. subst n. reflexivity.
  - cbn [hex_digits]. destruct (Z.ltb_spec n 16) as [Hlt | Hge].
    + simpl. rewrite decodeNibble_hex_digit by lia. reflexivity.
    + rewrite Nat2Z.inj_succ, Z.pow_succ_r in Hn by lia.
      rewrite (decode_nibbles_snoc _ _ (n mod 16)).
      * rewrite IH.
        -- f_equal. pose proof (Z.div_mod n 16). lia.
        -- split; [apply Z.div_pos; lia |].
           apply Z.div_lt_upper_bound; lia.
      * apply decodeNibble_hex_digit. apply Z.mod_pos_bound. lia.
Qed.

(** With enough fuel a positive number has no leading zero. *)
Lemma hex_digits_leading (fuel : nat) :
  forall n : Z, 0 < n < 16 ^ Z.of_nat fuel ->
    exists c rest, hex_digits fuel n = c :: rest /\ c <> "0"%char.
Proof.
  induction fuel as [| fuel IH]; intros n Hn.
  - simpl in Hn. lia.
  - cbn [hex_digits]. destruct (Z.ltb_spec n 16) as [Hlt | Hge].
    + exists (hex_digit n), []. split; [reflexivity |]. apply hex_digit_zero. lia.
    + rewrite Nat2Z.inj_succ, Z.pow_succ_r in Hn by lia.
      destruct (IH (n / 16)) as (c & rest & Heq & Hc).
      * split; [apply Z.div_str_pos; lia |].
        apply Z.div_lt_upper_bound; lia.
      * rewrite Heq. exists c, (rest ++ [hex_digit (n mod 16)]). now split.
Qed.

(** The fuel [big_Text16] gives is enough. *)
Lemma fuel_enough (n : Z) :
  0 <= n -> n < 16 ^ Z.of_nat (S (Z.to_nat (Z.log2 n))).
Proof.
  intros Hn.
  rewrite Nat2Z.inj_succ, Z2Nat.id by apply Z.log2_nonneg.
  destruct (Z.eq_dec n 0) as [-> | Hpos].
  - simpl. lia.
  - assert (Hlog : n < 2 ^ Z.succ (Z.log2 n)) by (apply Z.log2_spec; lia).
    assert (Hle : 2 ^ Z.succ (Z.log2 n) <= 16 ^ Z.succ (Z.log2 n)).
    { apply Z.pow_le_mono_l. lia. }
    lia.
Qed.

Lemma string_of_list_ascii_app (l1 l2 : list ascii) :
  string_of_list_ascii (l1 ++ l2) =
    (string_of_list_ascii l1 ++ string_of_list_ascii l2)%string.
Proof.
  induction l1 as [| a l1 IH]; simpl; [reflexivity | now rewrite IH].
Qed.

(** What [EncodeBig] writes: a sign, the prefix, and the minimal digits of
    the magnitude. *)
Lemma EncodeBig_shape (n : Z) :
  exists digits : list ascii,
    EncodeBig n = ((if (n <? 0)%Z then "-0x" else "0x") ++ string_of_list_ascii digits)%string
    /\ decode_nibbles 0 digits = Some (Z.abs n)
    /\ (digits = ["0"%char] \/ exists c rest, digits = c :: rest /\ c <> "0"%char).
Proof.
  unfold EncodeBig.
  destruct (Z.eqb_spec (Z.sgn n) 0) as [Hz | Hnz].
  - assert (Hn : n = 0) by (destruct n; simpl in Hz; lia).
    rewrite Hn. exists ["0"%char]. repeat split; auto.
  - exists (hex_digits (S (Z.to_nat (Z.log2 (Z.abs n)))) (Z.abs n)).
    assert (Habs : 0 < Z.abs n) by (destruct n; simpl in *; lia).
    pose proof (fuel_enough (Z.abs n) ltac:(lia)) as Hfuel.
    split; [| split].
    + unfold big_Text16.
      destruct (Z.ltb_spec 0 (Z.sgn n)) as [Hpos | Hneg].
      * assert (0 < n) by (destruct n; simpl in *; lia).
        destruct (Z.ltb_spec n 0); [lia | reflexivity].
      * assert (n < 0) by (destruct n; simpl in *; lia).
        destruct (Z.ltb_spec n 0); [reflexivity | lia].
    + apply hex_digits_value. lia.
    + right. apply hex_digits_leading. lia.
Qed.

(** The first character of an encoded number is never a letter of a
    sentinel word. *)
Lemma EncodeBig_first (n : Z) :
  exists rest : string,
    EncodeBig n = String "0"%char rest \/ EncodeBig n = String "-"%char rest.
Proof.
  destruct (EncodeBig_shape n) as (digits & Heq & _).
  rewrite Heq. destruct (n <? 0); simpl; eauto.
Qed.

Lemma toBlockNumArg_ordinary (n : Z) :
  n <> Pending -> n <> Finalized -> n <> Safe ->
  toBlockNumArg (Some n) = EncodeBig n.
Proof.
  unfold toBlockNumArg, big_Cmp, Pending, Finalized, Safe. intros H1 H2 H3.
  destruct (Z.compare_spec n (-2)); [lia | |];
    destruct (Z.compare_spec n (-3)); try lia;
    destruct (Z.compare_spec n (-4)); try lia; reflexivity.
Qed.

(** C5.  The block-number encoding sends the nil number to ["latest"] and
    the three negative sentinels to ["pending"], ["finalized"] and
    ["safe"]; every other number is written as a hexadecimal integer,
    most significant digit first and without leading zero, behind the
    [0x] prefix (and a minus sign when negative); the encoding of a
    non-negative block height is none of the four sentinel words. *)
Theorem toBlockNumArg_encoding :
  toBlockNumArg Head = "latest"%string
  /\ toBlockNumArg (Some Pending) = "pending"%string
  /\ toBlockNumArg (Some Finalized) = "finalized"%string
  /\ toBlockNumArg (Some Safe) = "safe"%string
  /\ (forall n : Z, n <> Pending -> n <> Finalized -> n <> Safe ->
        exists digits : list ascii,
          toBlockNumArg (Some n) =
            ((if (n <? 0)%Z then "-0x" else "0x") ++ string_of_list_ascii digits)%string
          /\ decode_nibbles 0 digits = Some (Z.abs n)
          /\ (digits = ["0"%char] \/ exists c rest, digits = c :: rest /\ c <> "0"%char))
  /\ (forall n : Z, 0 <= n ->
        toBlockNumArg (Some n) <> "latest"%string
        /\ toBlockNumArg (Some n) <> "pending"%string
        /\ toBlockNumArg (Some n) <> "finalized"%string
        /\ toBlockNumArg (Some n) <> "safe"%string).
Proof.
  do 4 (split; [reflexivity |]). split.
  - intros n H1 H2 H3. rewrite toBlockNumArg_ordinary by assumption.
    apply EncodeBig_shape.
  - intros n Hn.
    rewrite toBlockNumArg_ordinary by (unfold Pending, Finalized, Safe; lia).
    destruct (EncodeBig_first n) as (rest & [-> | ->]); repeat split; discriminate.
Qed.

(** The height 255 is written [0xff]. *)
Lemma toBlockNumArg_encoding_witness :
  (exists digits : list ascii,
     toBlockNumArg (Some 255) = ("0x" ++ string_of_list_ascii digits)%string
     /\ decode_nibbles 0 digits = Some 255
     /\ (digits = ["0"%char] \/ exists c rest, digits = c :: rest /\ c <> "0"%char))
  /\ toBlockNumArg (Some 255) <> "latest"%string.
Proof.
  destruct toBlockNumArg_encoding as (_ & _ & _ & _ & Hhex & Hord).
  split.
  - apply (Hhex 255); unfold Pending, Finalized, Safe; lia.
  - apply (Hord 255). lia.
Defined.

(** ** The client *)

Section ClientProperties.
Context {G : Geth} {N : Node} {J : Jwt}.

(** The round trip of a header lookup made in the world [w]. *)
Local Abbreviation head_trip number w :=
  (round_trip (cEth (client w)) (eth_getBlockByNumber (toBlockNumArg number) false)).

Local Abbreviation nonce_trip account blockNumber w :=
  (round_trip (cEth (client w)) (eth_getTransactionCount account blockNumber)).

(** [HeaderByNumber], one case per answer of the node. *)
Lemma HeaderByNumber_run (number : option Z) (w : World) :
  HeaderByNumber number w =
    match node_reply (wire w) (head_trip number w) with
    | inl msg => Done (None, Some (RPCError msg)) (logged (head_trip number w) w)
    | inr JNull => Done (None, Some NotFound) (logged (head_trip number w) w)
    | inr raw =>
        Done (Some (fst (json_Unmarshal (T:=Header) raw zero_value)),
              snd (json_Unmarshal (T:=Header) raw zero_value))
             (logged (head_trip number w) w)
    end.
Proof.
  unfold HeaderByNumber, bind, this, CallContext, ret.
  destruct (node_reply (wire w) (head_trip number w)) as [msg | raw]; [reflexivity |].
  destruct raw; simpl; try reflexivity;
    match goal with
    | |- context [json_Unmarshal ?d ?z] => destruct (json_Unmarshal d z) as [h [e |]]
    end; reflexivity.
Qed.

Lemma HeaderByNumber_world (number : option Z) (w w' : World)
  (r : option Header * option error) :
  HeaderByNumber number w = Done r w' -> w' = logged (head_trip number w) w.
Proof.
  rewrite HeaderByNumber_run.
  destruct (node_reply (wire w) (head_trip number w)) as [msg | raw];
    [| destruct raw]; intros Heq; inversion Heq; reflexivity.
Qed.

Lemma HeaderByNumber_total (number : option Z) (w : World) :
  exists r, HeaderByNumber number w = Done r (logged (head_trip number w) w).
Proof.
  rewrite HeaderByNumber_run.
  destruct (node_reply (wire w) (head_trip number w)) as [msg | raw];
    [| destruct raw]; eauto.
Qed.

(** A nil error comes with a header. *)
Lemma HeaderByNumber_header (number : option Z) (w w' : World) (header : option Header) :
  HeaderByNumber number w = Done (header, None) w' -> header <> None.
Proof.
  rewrite HeaderByNumber_run.
  destruct (node_reply (wire w) (head_trip number w)) as [msg | raw];
    [| destruct raw]; intros Heq; inversion Heq; discriminate.
Qed.

(** [NonceAt] is one round trip and never panics. *)
Lemma NonceAt_run (account : Address) (blockNumber : option Z) (w : World) :
  exists nonce err,
    NonceAt account blockNumber w =
      Done (nonce, err) (logged (nonce_trip account blockNumber w) w).
Proof.
  unfold NonceAt, bind, this, CallContext, ret.
  destruct (node_reply (wire w) (nonce_trip account blockNumber w)) as [msg | raw].
  - eauto.
  - destruct (json_Unmarshal raw 0) as [v e]. eauto.
Qed.

(** [GetNextAccountNonce] after a head lookup that failed. *)
Lemma GetNextAccountNonce_head_error (account : Address) (w w1 : World)
  (h : option Header) (e : error) :
  HeaderByNumber None w = Done (h, Some e) w1 ->
  GetNextAccountNonce account w = Done (0, Some e) w1.
Proof.
  intros Hhead. unfold GetNextAccountNonce, bind. rewrite Hhead. reflexivity.
Qed.

(** The fallback of [GetNextAccountNonce]: what the authoritative lookup
    made in [w1] leads to. *)
#[warnings="-inconsistent-scopes"]
Local Abbreviation request_nonce account head w1 :=
  (match NonceAt account (Header_Number head) w1 with
   | Done (nonce, None) w2 =>
       Done (nonce, None)
         {| client :=
              set_accTxInfoMap
                (<[account := Some {| PreviousBlock := Header_Hash head;
                                      PreviousNonce := nonce |}]>
                   (accTxInfoMap (client w2)))
                (client w2);
            wire := wire w2 |}
   | Done (_, Some e) w2 => Done (0, Some e) w2
   | Panicked => Panicked
   end).

(** [GetNextAccountNonce] after a head lookup that succeeded. *)
Lemma GetNextAccountNonce_run (account : Address) (w w1 : World) (head : Header) :
  HeaderByNumber None w = Done (Some head, None) w1 ->
  GetNextAccountNonce account w =
    match accTxInfoMap (client w1) !! account with
    | Some (Some accTxInfo) =>
        if (PreviousBlock accTxInfo =? Header_Hash head)
           || (PreviousBlock accTxInfo =? Header_ParentHash head)
        then
          Done (uint64_inc (PreviousNonce accTxInfo), None)
            {| client :=
                 set_accTxInfoMap
                   (<[account := Some {| PreviousBlock := Header_Hash head;
                                         PreviousNonce := uint64_inc (PreviousNonce accTxInfo) |}]>
                      (accTxInfoMap (client w1)))
                   (client w1);
               wire := wire w1 |}
        else request_nonce account head w1
    | _ => request_nonce account head w1
    end.
Proof.
  intros Hhead. unfold GetNextAccountNonce, bind. rewrite Hhead.
  unfold this, deref, assign, ret.
  destruct (accTxInfoMap (client w1) !! account) as [[accTxInfo |] |]; simpl;
    [destruct ((PreviousBlock accTxInfo =? Header_Hash head)
               || (PreviousBlock accTxInfo =? Header_ParentHash head)); simpl;
     [reflexivity |] | |];
    destruct (NonceAt account (Header_Number head) w1) as [[nonce [e |]] w2 |];
    reflexivity.
Qed.

(** Every call of [GetNextAccountNonce] returns: with an error and the
    client as it was, or with a nil error and a client that differs in
    the nonce cache alone. *)
Lemma GetNextAccountNonce_outcome (account : Address) (w : World) :
  exists (r : Z * option error) (w' : World),
    GetNextAccountNonce account w = Done r w'
    /\ ((exists e : error, snd r = Some e) /\ client w' = client w
        \/ snd r = None
           /\ exists m : gmap Address (option AccountTransactionInfo),
                client w' = set_accTxInfoMap m (client w)).
Proof.
  destruct (HeaderByNumber_total None w) as [[header err] Hhead].
  destruct err as [e |].
  - rewrite (GetNextAccountNonce_head_error _ _ _ _ _ Hhead).
    eexists _, _. split; [reflexivity |]. left. split; [eauto | reflexivity].
  - pose proof (HeaderByNumber_header _ _ _ _ Hhead) as Hsome.
    destruct header as [head |]; [| contradiction].
    rewrite (GetNextAccountNonce_run _ _ _ _ Hhead).
    destruct (NonceAt_run account (Header_Number head)
                (logged (head_trip None w) w)) as (nonce & err & Hnonce).
    rewrite Hnonce.
    destruct (accTxInfoMap (client (logged (head_trip None w) w)) !! account)
      as [[accTxInfo |] |];
      [destruct ((PreviousBlock accTxInfo =? Header_Hash head)
                 || (PreviousBlock accTxInfo =? Header_ParentHash head)) | |];
      destruct err as [e |];
      eexists _, _; (split; [reflexivity |]);
      solve [left; split; [eauto | reflexivity]
            | right; split; [reflexivity | eexists; reflexivity]].
Qed.

(** C7.  A header lookup that the node answers with an empty result
    ([null]) fails with [NotFound], which is no error of the rpc client; a
    lookup on which the rpc client fails returns that error. *)
Theorem HeaderByNumber_NotFound (number : option Z) (w : World) :
  (node_reply (wire w) (head_trip number w) = inr JNull ->
   HeaderByNumber number w = Done (None, Some NotFound) (logged (head_trip number w) w))
  /\ (forall msg : string,
        node_reply (wire w) (head_trip number w) = inl msg ->
        HeaderByNumber number w
          = Done (None, Some (RPCError msg)) (logged (head_trip number w) w)
        /\ RPCError msg <> NotFound).
Proof.
  split.
  - intros Hreply. rewrite HeaderByNumber_run, Hreply. reflexivity.
  - intros msg Hreply. rewrite HeaderByNumber_run, Hreply. split; [reflexivity | discriminate].
Qed.

(** C10.  A header lookup that returns a nil error returns a header, and
    [GetNextAccountNonce] never dereferences a nil header: it does not
    panic, whatever the node answers. *)
Theorem HeaderByNumber_nil_error_header :
  (forall (number : option Z) (w w' : World) (header : option Header),
     HeaderByNumber number w = Done (header, None) w' ->
     exists h : Header, header = Some h)
  /\ (forall (account : Address) (w : World),
        exists (r : Z * option error) (w' : World),
          GetNextAccountNonce account w = Done r w').
Proof.
  split.
  - intros number w w' header Hhead.
    pose proof (HeaderByNumber_header _ _ _ _ Hhead) as Hsome.
    destruct header as [h |]; [eauto | contradiction].
  - intros account w.
    destruct (GetNextAccountNonce_outcome account w) as (r & w' & Hrun & _).
    eauto.
Qed.

(** C1.  After a successful head lookup, [GetNextAccountNonce] decides as
    follows.  When the account has a cache entry whose recorded head is
    the hash of the current head or its parent hash, the cached nonce is
    incremented by one (as a [uint64]), the entry is rebound to the hash of
    the current head, the incremented nonce is returned, and the head
    lookup is the only round trip made.  Otherwise (no entry, or an entry
    recorded under another head) the nonce of the account is looked up on
    the node at the number of the current head, and the result of a lookup
    that succeeds is stored as the entry of the account, bound to the hash
    of the current head, and returned. *)
Theorem GetNextAccountNonce_decision
  (account : Address) (w w1 : World) (head : Header)
  (Hhead : HeaderByNumber None w = Done (Some head, None) w1) :
  (forall accTxInfo : AccountTransactionInfo,
     accTxInfoMap (client w) !! account = Some (Some accTxInfo) ->
     PreviousBlock accTxInfo = Header_Hash head
     \/ PreviousBlock accTxInfo = Header_ParentHash head ->
     GetNextAccountNonce account w =
       Done (uint64_inc (PreviousNonce accTxInfo), None)
         {| client :=
              set_accTxInfoMap
                (<[account := Some {| PreviousBlock := Header_Hash head;
                                      PreviousNonce := uint64_inc (PreviousNonce accTxInfo) |}]>
                   (accTxInfoMap (client w)))
                (client w);
            wire := wire w ++ [head_trip None w] |}
     /\ (0 <= PreviousNonce accTxInfo < uint64_modulus - 1 ->
         uint64_inc (PreviousNonce accTxInfo) = PreviousNonce accTxInfo + 1))
  /\ ((forall accTxInfo : AccountTransactionInfo,
         accTxInfoMap (client w) !! account = Some (Some accTxInfo) ->
         PreviousBlock accTxInfo <> Header_Hash head
         /\ PreviousBlock accTxInfo <> Header_ParentHash head) ->
      exists (nonce : Z) (err : option error),
        NonceAt account (Header_Number head) w1
          = Done (nonce, err) (logged (nonce_trip account (Header_Number head) w1) w1)
        /\ (err = None ->
            GetNextAccountNonce account w =
              Done (nonce, None)
                {| client :=
                     set_accTxInfoMap
                       (<[account := Some {| PreviousBlock := Header_Hash head;
                                             PreviousNonce := nonce |}]>
                          (accTxInfoMap (client w)))
                       (client w);
                   wire := wire w ++ [head_trip None w;
                                      nonce_trip account (Header_Number head) w] |})).
Proof.
  pose proof (HeaderByNumber_world _ _ _ _ Hhead) as Hw1.
  rewrite (GetNextAccountNonce_run _ _ _ _ Hhead). subst w1.
  change (client (logged (head_trip None w) w)) with (client w).
  split.
  - intros accTxInfo Hentry Hfresh. rewrite Hentry.
    assert (Hcond : (PreviousBlock accTxInfo =? Header_Hash head)
                    || (PreviousBlock accTxInfo =? Header_ParentHash head) = true).
    { apply orb_true_iff. destruct Hfresh as [-> | ->]; [left | right]; apply Z.eqb_refl. }
    rewrite Hcond. split; [reflexivity |].
    intros Hrange. unfold uint64_inc. apply Z.mod_small. lia.
  - intros Hstale.
    destruct (NonceAt_run account (Header_Number head)
                (logged (head_trip None w) w)) as (nonce & err & Hnonce).
    exists nonce, err. split; [exact Hnonce |].
    intros ->. rewrite Hnonce.
    assert (Hwire : wire (logged (nonce_trip account (Header_Number head)
                                    (logged (head_trip None w) w))
                            (logged (head_trip None w) w))
                    = wire w ++ [head_trip None w;
                                 nonce_trip account (Header_Number head) w]).
    { unfold logged. simpl. now rewrite <- app_assoc. }
    rewrite Hwire.
    destruct (accTxInfoMap (client w) !! account) as [[accTxInfo |] |] eqn:Hentry;
      [| reflexivity | reflexivity].
    destruct (Hstale accTxInfo eq_refl) as [Hh Hp].
    apply Z.eqb_neq in Hh, Hp. rewrite Hh, Hp. reflexivity.
Qed.

(** C4.  [GetNextAccountNonce] returns the error of a failed head lookup,
    and the error of a failed nonce lookup, to its caller; and whenever it
    returns an error, the client, and so every entry of its nonce cache,
    is as it was before the call. *)
Theorem GetNextAccountNonce_failure (account : Address) (w : World) :
  (forall (h : option Header) (e : error) (w1 : World),
     HeaderByNumber None w = Done (h, Some e) w1 ->
     GetNextAccountNonce account w = Done (0, Some e) w1)
  /\ (forall (head : Header) (w1 w2 : World) (nonce : Z) (e : error),
        HeaderByNumber None w = Done (Some head, None) w1 ->
        (forall accTxInfo : AccountTransactionInfo,
           accTxInfoMap (client w) !! account = Some (Some accTxInfo) ->
           PreviousBlock accTxInfo <> Header_Hash head
           /\ PreviousBlock accTxInfo <> Header_ParentHash head) ->
        NonceAt account (Header_Number head) w1 = Done (nonce, Some e) w2 ->
        GetNextAccountNonce account w = Done (0, Some e) w2)
  /\ (forall (r : Z) (e : error) (w' : World),
        GetNextAccountNonce account w = Done (r, Some e) w' ->
        client w' = client w
        /\ forall a : Address,
             accTxInfoMap (client w') !! a = accTxInfoMap (client w) !! a).
Proof.
  split; [| split].
  - intros h e w1 Hhead. exact (GetNextAccountNonce_head_error _ _ _ _ _ Hhead).
  - intros head w1 w2 nonce e Hhead Hstale Hnonce.
    pose proof (HeaderByNumber_world _ _ _ _ Hhead) as Hw1.
    rewrite (GetNextAccountNonce_run _ _ _ _ Hhead), Hnonce. subst w1.
    change (client (logged (head_trip None w) w)) with (client w).
    destruct (accTxInfoMap (client w) !! account) as [[accTxInfo |] |] eqn:Hentry;
      [| reflexivity | reflexivity].
    destruct (Hstale accTxInfo eq_refl) as [Hh Hp].
    apply Z.eqb_neq in Hh, Hp. rewrite Hh, Hp. reflexivity.
  - intros r e w' Hrun.
    assert (Hclient : client w' = client w).
    { destruct (GetNextAccountNonce_outcome account w)
        as (r0 & w0 & Hrun0 & [[_ Hsame] | [Hnil _]]);
        rewrite Hrun0 in Hrun; inversion Hrun; subst r0 w0;
        [exact Hsame | discriminate Hnil]. }
    split; [exact Hclient |]. intros a. now rewrite Hclient.
Qed.

(** *** Token issuing and the engine calls *)

Lemma CallContext_run {T : Type} `{Unmarshal T} (rc : rpc_Client) (result : T)
  (req : Request) (w : World) :
  exists (result' : T) (err : option error),
    CallContext rc result req w = Done (result', err) (logged (round_trip rc req) w)
    /\ forall msg : string,
         node_reply (wire w) (round_trip rc req) = inl msg ->
         result' = result /\ err = Some (RPCError msg).
Proof.
  unfold CallContext.
  destruct (node_reply (wire w) (round_trip rc req)) as [msg | raw].
  - exists result, (Some (RPCError msg)). split; [reflexivity |].
    intros msg' Heq. inversion Heq. now split.
  - destruct (json_Unmarshal raw result) as [v e].
    exists v, e. split; [reflexivity | discriminate].
Qed.

(** The world after [PrepareDefaultAuthCallToken]: the bearer token is set
    on the engine rpc client when signing succeeded, and nothing changed
    when it failed. *)
Local Abbreviation authorized now w :=
  (match GetNewToken (JWTSecretBytes (client w)) now with
   | (newTokenString, None) =>
       {| client :=
            set_c (SetHeader "Authorization" ("Bearer " ++ newTokenString) (c (client w)))
                  (client w);
          wire := wire w |}
   | (_, Some _) => w
   end).

(** [PrepareDefaultAuthCallToken] returns nil in either case. *)
Lemma PrepareDefaultAuthCallToken_run (now : Time) (w : World) :
  PrepareDefaultAuthCallToken now w = Done None (authorized now w).
Proof.
  unfold PrepareDefaultAuthCallToken, PrepareAuthCallToken, bind, this, assign, ret.
  simpl.
  destruct (GetNewToken (JWTSecretBytes (client w)) now) as [tok [e |]]; reflexivity.
Qed.

Lemma authorized_frame (now : Time) (w : World) :
  wire (authorized now w) = wire w
  /\ CallMemory (client (authorized now w)) = CallMemory (client w)
  /\ accTxInfoMap (client (authorized now w)) = accTxInfoMap (client w).
Proof.
  destruct (GetNewToken (JWTSecretBytes (client w)) now) as [tok [e |]];
    repeat split; reflexivity.
Qed.

Lemma ForkchoiceUpdatedV1_run (now : Time) (fcState : option ForkchoiceStateV1)
  (pAttributes : option PayloadAttributesV1) (w : World) :
  ForkchoiceUpdatedV1 now fcState pAttributes w =
    let w1 := {| client := set_latestPAttrSent pAttributes
                             (set_latestFcUStateSent fcState (client (authorized now w)));
                 wire := wire (authorized now w) |} in
    match CallContext (c (client w1)) zero_value
            (engine_forkchoiceUpdatedV1 fcState pAttributes) w1 with
    | Done (result, err) w2 =>
        Done (result, err)
          {| client := set_latestFcUResponse (Some result) (client w2); wire := wire w2 |}
    | Panicked => Panicked
    end.
Proof.
  unfold ForkchoiceUpdatedV1, bind. rewrite PrepareDefaultAuthCallToken_run.
  unfold assign, this, ret. simpl.
  match goal with
  | |- context [CallContext ?rc ?z ?q ?x] => destruct (CallContext rc z q x) as [[r e] w2 |]
  end; reflexivity.
Qed.

Lemma NewPayloadV1_run (now : Time) (payload : option ExecutableDataV1) (w : World) :
  NewPayloadV1 now payload w =
    let w1 := {| client := set_latestPayloadSent payload (client (authorized now w));
                 wire := wire (authorized now w) |} in
    match CallContext (c (client w1)) zero_value (engine_newPayloadV1 payload) w1 with
    | Done (result, err) w2 =>
        Done (result, err)
          {| client := set_latestPayloadStatusReponse (Some result) (client w2);
             wire := wire w2 |}
    | Panicked => Panicked
    end.
Proof.
  unfold NewPayloadV1, bind. rewrite PrepareDefaultAuthCallToken_run.
  unfold assign, this, ret. simpl.
  match goal with
  | |- context [CallContext ?rc ?z ?q ?x] => destruct (CallContext rc z q x) as [[r e] w2 |]
  end; reflexivity.
Qed.

(** C2.  Every forkchoice-update call and every new-payload call
    overwrites the call memory: the request is recorded in the world in
    which the remote call is then made, the value the remote call leaves in
    [result] is recorded after it, and this is so whatever the remote call
    returns, an error included; after the call the accessors give this
    request and this response. *)
Theorem CallMemory_overwritten (now : Time) (w : World) :
  (forall (fcState : option ForkchoiceStateV1) (pAttributes : option PayloadAttributesV1),
     exists (w1 w' : World) (result : ForkChoiceResponse) (err : option error),
       wire w1 = wire w
       /\ LatestForkchoiceSent (client w1) = (fcState, pAttributes)
       /\ CallContext (T:=ForkChoiceResponse) (c (client w1)) zero_value
            (engine_forkchoiceUpdatedV1 fcState pAttributes) w1
          = Done (result, err)
              (logged (round_trip (c (client w1))
                         (engine_forkchoiceUpdatedV1 fcState pAttributes)) w1)
       /\ (forall msg : string,
             node_reply (wire w1)
               (round_trip (c (client w1)) (engine_forkchoiceUpdatedV1 fcState pAttributes))
             = inl msg -> err = Some (RPCError msg))
       /\ ForkchoiceUpdatedV1 now fcState pAttributes w = Done (result, err) w'
       /\ client w' = set_latestFcUResponse (Some result) (client w1)
       /\ LatestForkchoiceSent (client w') = (fcState, pAttributes)
       /\ LatestForkchoiceResponse (client w') = Some result)
  /\ (forall payload : option ExecutableDataV1,
        exists (w1 w' : World) (result : PayloadStatusV1) (err : option error),
          wire w1 = wire w
          /\ LatestNewPayloadSent (client w1) = payload
          /\ CallContext (T:=PayloadStatusV1) (c (client w1)) zero_value
               (engine_newPayloadV1 payload) w1
             = Done (result, err)
                 (logged (round_trip (c (client w1)) (engine_newPayloadV1 payload)) w1)
          /\ (forall msg : string,
                node_reply (wire w1)
                  (round_trip (c (client w1)) (engine_newPayloadV1 payload))
                = inl msg -> err = Some (RPCError msg))
          /\ NewPayloadV1 now payload w = Done (result, err) w'
          /\ client w' = set_latestPayloadStatusReponse (Some result) (client w1)
          /\ LatestNewPayloadSent (client w') = payload
          /\ LatestNewPayloadResponse (client w') = Some result).
Proof.
  destruct (authorized_frame now w) as (Hwire & _ & _).
  split.
  - intros fcState pAttributes.
    rewrite ForkchoiceUpdatedV1_run. cbv zeta.
    set (w1 := {| client := set_latestPAttrSent pAttributes
                              (set_latestFcUStateSent fcState (client (authorized now w)));
                  wire := wire (authorized now w) |}).
    destruct (CallContext_run (T:=ForkChoiceResponse) (c (client w1)) zero_value
                (engine_forkchoiceUpdatedV1 fcState pAttributes) w1)
      as (result & err & Hcall & Herr).
    rewrite Hcall.
    exists w1, {| client := set_latestFcUResponse (Some result) (client w1);
                  wire := wire w1 ++ [round_trip (c (client w1))
                                        (engine_forkchoiceUpdatedV1 fcState pAttributes)] |},
      result, err.
    repeat split; try reflexivity; try assumption.
    intros msg Hmsg. exact (proj2 (Herr msg Hmsg)).
  - intros payload.
    rewrite NewPayloadV1_run. cbv zeta.
    set (w1 := {| client := set_latestPayloadSent payload (client (authorized now w));
                  wire := wire (authorized now w) |}).
    destruct (CallContext_run (T:=PayloadStatusV1) (c (client w1)) zero_value
                (engine_newPayloadV1 payload) w1)
      as (result & err & Hcall & Herr).
    rewrite Hcall.
    exists w1, {| client := set_latestPayloadStatusReponse (Some result) (client w1);
                  wire := wire w1 ++ [round_trip (c (client w1))
                                        (engine_newPayloadV1 payload)] |},
      result, err.
    repeat split; try reflexivity; try assumption.
    intros msg Hmsg. exact (proj2 (Herr msg Hmsg)).
Qed.

(** The lookups on the eth port write no call memory either. *)
Lemma GetTotalDifficulty_client (w w' : World) (r : option Z * option error) :
  GetTotalDifficulty w = Done r w' -> client w' = client w.
Proof.
  unfold GetTotalDifficulty, bind, this, CallContext, deref, ret.
  destruct (node_reply (wire w) _) as [msg | raw].
  - intros Heq. inversion Heq. reflexivity.
  - destruct (json_Unmarshal raw None) as [[tdh |] [e |]];
      intros Heq; inversion Heq; reflexivity.
Qed.

Lemma GetNextAccountNonce_memory (account : Address) (w w' : World)
  (r : Z * option error) :
  GetNextAccountNonce account w = Done r w' ->
  CallMemory (client w') = CallMemory (client w).
Proof.
  intros Hrun.
  destruct (GetNextAccountNonce_outcome account w)
    as (r0 & w0 & Hrun0 & [[_ Hsame] | [_ [m Hcache]]]);
    rewrite Hrun0 in Hrun; inversion Hrun; subst r0 w0.
  - now rewrite Hsame.
  - now rewrite Hcache.
Qed.

(** C9.  A get-payload call and an exchange-transition-configuration call
    leave the five fields of the call memory as they were; so do the
    header, total-difficulty and nonce lookups, so that the forkchoice
    update and the new payload are the only calls that write them. *)
Theorem CallMemory_frame (now : Time) (w : World) :
  (forall payloadId : option PayloadID,
     exists (r : ExecutableDataV1 * option error) (w' : World),
       GetPayloadV1 now payloadId w = Done r w'
       /\ CallMemory (client w') = CallMemory (client w))
  /\ (forall tConf : option TransitionConfigurationV1,
        exists (r : TransitionConfigurationV1 * option error) (w' : World),
          ExchangeTransitionConfigurationV1 tConf w = Done r w'
          /\ CallMemory (client w') = CallMemory (client w))
  /\ (forall (number : option Z) (r : option Header * option error) (w' : World),
        HeaderByNumber number w = Done r w' ->
        CallMemory (client w') = CallMemory (client w))
  /\ (forall (r : option Z * option error) (w' : World),
        GetTotalDifficulty w = Done r w' ->
        CallMemory (client w') = CallMemory (client w))
  /\ (forall (account : Address) (r : Z * option error) (w' : World),
        GetNextAccountNonce account w = Done r w' ->
        CallMemory (client w') = CallMemory (client w)).
Proof.
  destruct (authorized_frame now w) as (_ & Hmemory & _).
  split; [| split; [| split; [| split]]].
  - intros payloadId.
    unfold GetPayloadV1, bind. rewrite PrepareDefaultAuthCallToken_run.
    unfold this, ret.
    destruct (CallContext_run (T:=ExecutableDataV1) (c (client (authorized now w))) zero_value
                (engine_getPayloadV1 payloadId) (authorized now w))
      as (result & err & Hcall & _).
    rewrite Hcall. eexists _, _. split; [reflexivity | exact Hmemory].
  - intros tConf.
    unfold ExchangeTransitionConfigurationV1, bind, this, ret.
    destruct (CallContext_run (T:=TransitionConfigurationV1) (c (client w)) zero_value
                (engine_exchangeTransitionConfigurationV1 tConf) w)
      as (result & err & Hcall & _).
    rewrite Hcall. eexists _, _. split; reflexivity.
  - intros number r w' Hrun.
    now rewrite (HeaderByNumber_world _ _ _ _ Hrun).
  - intros r w' Hrun. now rewrite (GetTotalDifficulty_client _ _ _ Hrun).
  - intros account r w' Hrun. exact (GetNextAccountNonce_memory _ _ _ _ Hrun).
Qed.

(** With a signer that returns an error, a privileged call is made all the
    same: the error is dropped, the round trip is made with the headers the
    engine rpc client had, and what the round trip gives is returned. *)
Lemma ForkchoiceUpdatedV1_unsigned (now : Time) (fcState : option ForkchoiceStateV1)
  (pAttributes : option PayloadAttributesV1) (w : World) (s : string) (e : error) :
  GetNewToken (JWTSecretBytes (client w)) now = (s, Some e) ->
  exists (result : ForkChoiceResponse) (err : option error) (w' : World),
    ForkchoiceUpdatedV1 now fcState pAttributes w = Done (result, err) w'
    /\ wire w' = wire w ++ [round_trip (c (client w))
                              (engine_forkchoiceUpdatedV1 fcState pAttributes)]
    /\ (forall raw : json,
          node_reply (wire w)
            (round_trip (c (client w)) (engine_forkchoiceUpdatedV1 fcState pAttributes))
          = inr raw -> err = snd (json_Unmarshal (T:=ForkChoiceResponse) raw zero_value)).
Proof.
  intros Hsign. rewrite ForkchoiceUpdatedV1_run, Hsign. cbv zeta. simpl.
  unfold CallContext. simpl.
  destruct (node_reply (wire w)
              (round_trip (c (client w)) (engine_forkchoiceUpdatedV1 fcState pAttributes)))
    as [msg | raw] eqn:Hreply.
  - eexists _, _, _. split; [reflexivity |]. split; [reflexivity | discriminate].
  - destruct (json_Unmarshal raw zero_value) as [v err] eqn:Hdec.
    eexists _, _, _. split; [reflexivity |]. split; [reflexivity |].
    intros raw' Heq. inversion Heq; subst raw'. now rewrite Hdec.
Qed.

(** C8.  The token string is a function of the secret and of the issue
    time in seconds: equal secrets and equal issue times give equal
    results, and the token that is signed uses HS256 and carries one claim,
    [iat], the issue time. *)
Theorem GetNewToken_pure :
  (forall (secret1 secret2 : list Byte.byte) (iat1 iat2 : Time),
     secret1 = secret2 -> Time_Unix iat1 = Time_Unix iat2 ->
     GetNewToken secret1 iat1 = GetNewToken secret2 iat2)
  /\ (forall (secret : list Byte.byte) (iat : Time),
        exists newToken : Token,
          Method newToken = SigningMethodHS256
          /\ size (Claims newToken) = 1%nat
          /\ Claims newToken !! "iat"%string = Some (Time_Unix iat)
          /\ (forall key : string, key <> "iat"%string -> Claims newToken !! key = None)
          /\ GetNewToken secret iat =
               match SignedString newToken secret with
               | (_, Some e) => (EmptyString, Some e)
               | (tokenString, None) => (tokenString, None)
               end).
Proof.
  split.
  - intros secret1 secret2 iat1 iat2 -> Hiat. unfold GetNewToken. now rewrite Hiat.
  - intros secret iat.
    exists (NewWithClaims SigningMethodHS256 {[ "iat"%string := Time_Unix iat ]}).
    split; [reflexivity |]. split; [apply map_size_singleton |].
    split; [apply lookup_singleton_eq |].
    split; [intros key Hkey; now apply lookup_singleton_ne |].
    unfold GetNewToken.
    destruct (SignedString _ secret) as [tok [e |]]; reflexivity.
Qed.

(** *** Total difficulty *)

Lemma TD_decode_fields_lacking (fields : list (string * json)) (td : TD) :
  has_field "totalDifficulty" fields = false -> TD_decode_fields fields td = (td, None).
Proof.
  induction fields as [| [key value] rest IH]; simpl; [reflexivity |].
  intros Hlacks. apply orb_false_iff in Hlacks as [Hkey Hrest].
  rewrite Hkey. now apply IH.
Qed.

Lemma TD_decode_fields_skip (pre rest : list (string * json)) (td : TD) :
  has_field "totalDifficulty" pre = false ->
  TD_decode_fields (pre ++ rest) td = TD_decode_fields rest td.
Proof.
  induction pre as [| [key value] pre IH]; simpl; [reflexivity |].
  intros Hlacks. apply orb_false_iff in Hlacks as [Hkey Hpre].
  rewrite Hkey. now apply IH.
Qed.

Lemma TD_decode_fields_member (pre post : list (string * json)) (key s : string)
  (v : Z) (td : TD) :
  key_matches "totalDifficulty" key = true ->
  has_field "totalDifficulty" pre = false ->
  has_field "totalDifficulty" post = false ->
  Big_UnmarshalText s = inr v ->
  TD_decode_fields (pre ++ (key, JString s) :: post) td
    = ({| TotalDifficulty := Some v |}, None).
Proof.
  intros Hkey Hpre Hpost Htext.
  rewrite TD_decode_fields_skip by exact Hpre.
  cbn [TD_decode_fields Big_UnmarshalJSON]. rewrite Hkey, Htext.
  now apply TD_decode_fields_lacking.
Qed.

Local Abbreviation td_trip w :=
  (round_trip (cEth (client w)) (eth_getBlockByNumber "latest" false)).

(** [GetTotalDifficulty] on a block whose header fields decode. *)
Lemma GetTotalDifficulty_run (w : World) (fields : list (string * json)) (hdr : Header) :
  node_reply (wire w) (td_trip w) = inr (JObject fields) ->
  json_Unmarshal (T:=Header) (JObject fields) zero_value = (hdr, None) ->
  GetTotalDifficulty w =
    match TD_decode_fields fields zero_value with
    | (td, None) => Done (TotalDifficulty td, None) (logged (td_trip w) w)
    | (_, Some e) => Done (None, Some e) (logged (td_trip w) w)
    end.
Proof.
  intros Hreply Hheader.
  unfold GetTotalDifficulty, bind, this, CallContext. rewrite Hreply.
  cbn [json_Unmarshal Unmarshal_ptr Unmarshal_TotalDifficultyHeader default zero_value].
  unfold TotalDifficultyHeader_UnmarshalJSON.
  cbn [tdh_Header tdh_TD]. rewrite Hheader.
  cbn [json_Unmarshal Unmarshal_TD zero_value].
  destruct (TD_decode_fields fields {| TotalDifficulty := None |}) as [td [e |]];
    reflexivity.
Qed.

(** C6, as the code has it.  On a block whose header fields decode, a
    total-difficulty lookup returns a nil error in both cases: with a nil
    number when the object has no [totalDifficulty] member, and with the
    decoded number when it has one, a hexadecimal string.  The two results
    differ in the number alone. *)
Theorem GetTotalDifficulty_field
  (w : World) (fields : list (string * json)) (hdr : Header)
  (Hreply : node_reply (wire w) (td_trip w) = inr (JObject fields))
  (Hheader : json_Unmarshal (T:=Header) (JObject fields) zero_value = (hdr, None)) :
  (has_field "totalDifficulty" fields = false ->
   GetTotalDifficulty w = Done (None, None) (logged (td_trip w) w))
  /\ (forall (pre post : list (string * json)) (key s : string) (v : Z),
        fields = pre ++ (key, JString s) :: post ->
        key_matches "totalDifficulty" key = true ->
        has_field "totalDifficulty" pre = false ->
        has_field "totalDifficulty" post = false ->
        Big_UnmarshalText s = inr v ->
        GetTotalDifficulty w = Done (Some v, None) (logged (td_trip w) w)).
Proof.
  rewrite (GetTotalDifficulty_run _ _ _ Hreply Hheader).
  split.
  - intros Hlacks. now rewrite TD_decode_fields_lacking.
  - intros pre post key s v -> Hkey Hpre Hpost Htext.
    now rewrite (TD_decode_fields_member _ _ _ _ v).
Qed.

End ClientProperties.

(** ** The properties on the concrete world *)

(** Account 10 was recorded at the head itself, then at its parent: the
    nonce goes from 7 to 8 with the one round trip of the head lookup.  A
    client without entry asks the node. *)
Lemma GetNextAccountNonce_decision_witness :
  @GetNextAccountNonce Sample.geth Sample.node_ok 10 (Sample.warm 177)
    = Done (8, None)
        {| client :=
             set_accTxInfoMap
               (<[10 := Some {| PreviousBlock := 177; PreviousNonce := 8 |}]>
                  (accTxInfoMap (client (Sample.warm 177))))
               (client (Sample.warm 177));
           wire := [round_trip (cEth (client (Sample.warm 177)))
                      (eth_getBlockByNumber "latest" false)] |}
  /\ exists (nonce : Z) (err : option error),
       @NonceAt Sample.geth Sample.node_ok 10 (Some 1)
         (logged (round_trip (cEth (client Sample.fresh))
                    (eth_getBlockByNumber "latest" false)) Sample.fresh)
       = Done (nonce, err)
           (logged (round_trip (cEth (client Sample.fresh))
                      (eth_getTransactionCount 10 (Some 1)))
              (logged (round_trip (cEth (client Sample.fresh))
                         (eth_getBlockByNumber "latest" false)) Sample.fresh)).
Proof.
  split.
  - refine (proj1 (proj1 (@GetNextAccountNonce_decision Sample.geth Sample.node_ok
                            10 (Sample.warm 177) _ Sample.block eq_refl)
                     {| PreviousBlock := 177; PreviousNonce := 7 |} eq_refl
                     (or_introl eq_refl))).
  - destruct (proj2 (@GetNextAccountNonce_decision Sample.geth Sample.node_ok
                       10 Sample.fresh _ Sample.block eq_refl))
      as (nonce & err & Hnonce & _).
    + intros accTxInfo Hentry. discriminate Hentry.
    + exists nonce, err. exact Hnonce.
Defined.

(** A node that cannot be reached, and a node that fails the nonce lookup
    of an account recorded under a stale head: the error comes back and
    the client is as before. *)
Lemma GetNextAccountNonce_failure_witness :
  @GetNextAccountNonce Sample.geth Sample.node_down 10 (Sample.warm 177)
    = Done (0, Some (RPCError "connection refused"))
        (logged (round_trip (cEth (client (Sample.warm 177)))
                   (eth_getBlockByNumber "latest" false)) (Sample.warm 177))
  /\ @GetNextAccountNonce Sample.geth Sample.node_no_nonce 10 (Sample.warm 175)
     = Done (0, Some (RPCError "deadline exceeded"))
         (logged (round_trip (cEth (client (Sample.warm 175)))
                    (eth_getTransactionCount 10 (Some 1)))
            (logged (round_trip (cEth (client (Sample.warm 175)))
                       (eth_getBlockByNumber "latest" false)) (Sample.warm 175)))
  /\ client (logged (round_trip (cEth (client (Sample.warm 177)))
                       (eth_getBlockByNumber "latest" false)) (Sample.warm 177))
     = client (Sample.warm 177).
Proof.
  pose proof (@GetNextAccountNonce_failure Sample.geth Sample.node_down
                10 (Sample.warm 177)) as (Hhead & _ & Hframe).
  pose proof (@GetNextAccountNonce_failure Sample.geth Sample.node_no_nonce
                10 (Sample.warm 175)) as (_ & Hnonce & _).
  split; [| split].
  - exact (Hhead None (RPCError "connection refused") _ eq_refl).
  - refine (Hnonce Sample.block _ _ 0 (RPCError "deadline exceeded") eq_refl _ eq_refl).
    intros accTxInfo Hentry. injection Hentry as <-. split; discriminate.
  - exact (proj1 (Hframe 0 (RPCError "connection refused") _
                    (Hhead None (RPCError "connection refused") _ eq_refl))).
Defined.

(** The node that knows no block gives [NotFound]; the node that cannot be
    reached gives the error of the rpc client. *)
Lemma HeaderByNumber_NotFound_witness :
  @HeaderByNumber Sample.geth Sample.node_empty (Some 1000000) Sample.fresh
    = Done (None, Some NotFound)
        (logged (round_trip (cEth (client Sample.fresh))
                   (eth_getBlockByNumber "0xf4240" false)) Sample.fresh)
  /\ @HeaderByNumber Sample.geth Sample.node_down (Some 1000000) Sample.fresh
     = Done (None, Some (RPCError "connection refused"))
         (logged (round_trip (cEth (client Sample.fresh))
                    (eth_getBlockByNumber "0xf4240" false)) Sample.fresh)
  /\ RPCError "connection refused" <> NotFound.
Proof.
  split; [| split].
  - exact (proj1 (@HeaderByNumber_NotFound Sample.geth Sample.node_empty
                    (Some 1000000) Sample.fresh) eq_refl).
  - exact (proj1 (proj2 (@HeaderByNumber_NotFound Sample.geth Sample.node_down
                           (Some 1000000) Sample.fresh)
                    "connection refused"%string eq_refl)).
  - exact (proj2 (proj2 (@HeaderByNumber_NotFound Sample.geth Sample.node_down
                           (Some 1000000) Sample.fresh)
                    "connection refused"%string eq_refl)).
Defined.

(** The head lookup on the sample node returns its block. *)
Lemma HeaderByNumber_nil_error_header_witness :
  exists h : Sample.header, Some Sample.block = Some h.
Proof.
  exact (proj1 (@HeaderByNumber_nil_error_header Sample.geth Sample.node_ok)
           None Sample.fresh _ (Some Sample.block) eq_refl).
Defined.

(** A forkchoice update and a new payload sent to a node that cannot be
    reached are recorded all the same. *)
Lemma CallMemory_overwritten_witness :
  (exists (w' : @World Sample.geth) (result : string),
     @ForkchoiceUpdatedV1 Sample.geth Sample.node_down Sample.jwt Sample.noon
       (Some "head"%string) (Some "attributes"%string) Sample.fresh
     = Done (result, Some (RPCError "connection refused")) w'
     /\ LatestForkchoiceSent (client w') = (Some "head"%string, Some "attributes"%string)
     /\ LatestForkchoiceResponse (client w') = Some result)
  /\ (exists (w' : @World Sample.geth) (result : string),
        @NewPayloadV1 Sample.geth Sample.node_down Sample.jwt Sample.noon
          (Some "block"%string) Sample.fresh
        = Done (result, Some (RPCError "connection refused")) w'
        /\ LatestNewPayloadSent (client w') = Some "block"%string
        /\ LatestNewPayloadResponse (client w') = Some result).
Proof.
  destruct (@CallMemory_overwritten Sample.geth Sample.node_down Sample.jwt
              Sample.noon Sample.fresh) as [Hfcu Hpayload].
  split.
  - destruct (Hfcu (Some "head"%string) (Some "attributes"%string))
      as (w1 & w' & result & err & _ & _ & _ & Herr & Hrun & _ & Hsent & Hresponse).
    exists w', result.
    rewrite <- (Herr "connection refused"%string eq_refl). auto.
  - destruct (Hpayload (Some "block"%string))
      as (w1 & w' & result & err & _ & _ & _ & Herr & Hrun & _ & Hsent & Hresponse).
    exists w', result.
    rewrite <- (Herr "connection refused"%string eq_refl). auto.
Defined.

(** A nonce lookup that rewrites the cache entry of account 10 leaves the
    call memory alone. *)
Lemma CallMemory_frame_witness :
  CallMemory
    (set_accTxInfoMap
       (<[10 := Some {| PreviousBlock := 177; PreviousNonce := 8 |}]>
          (accTxInfoMap (client (Sample.warm 177))))
       (client (Sample.warm 177)))
  = CallMemory (client (Sample.warm 177)).
Proof.
  exact (proj2 (proj2 (proj2 (proj2
           (@CallMemory_frame Sample.geth Sample.node_ok Sample.jwt Sample.noon
              (Sample.warm 177)))))
           10 (8, None)
           {| client :=
                set_accTxInfoMap
                  (<[10 := Some {| PreviousBlock := 177; PreviousNonce := 8 |}]>
                     (accTxInfoMap (client (Sample.warm 177))))
                  (client (Sample.warm 177));
              wire := [round_trip (cEth (client (Sample.warm 177)))
                         (eth_getBlockByNumber "latest" false)] |}
           eq_refl).
Defined.

(** Two instants of the same second give the same token. *)
Lemma GetNewToken_pure_witness :
  @GetNewToken Sample.jwt Sample.secret Sample.noon
  = @GetNewToken Sample.jwt Sample.secret
      {| wall_seconds := 1700000000; wall_nanoseconds := 999 |}.
Proof.
  exact (proj1 (@GetNewToken_pure Sample.jwt) Sample.secret Sample.secret Sample.noon
           {| wall_seconds := 1700000000; wall_nanoseconds := 999 |} eq_refl eq_refl).
Defined.

(** The block with total difficulty 0x20000, and the block without. *)
Lemma GetTotalDifficulty_field_witness :
  @GetTotalDifficulty Sample.geth Sample.node_ok Sample.fresh
    = Done (Some 131072, None)
        (logged (round_trip (cEth (client Sample.fresh))
                   (eth_getBlockByNumber "latest" false)) Sample.fresh)
  /\ @GetTotalDifficulty Sample.geth Sample.node_no_td Sample.fresh
     = Done (None, None)
         (logged (round_trip (cEth (client Sample.fresh))
                    (eth_getBlockByNumber "latest" false)) Sample.fresh).
Proof.
  split.
  - exact (proj2 (@GetTotalDifficulty_field Sample.geth Sample.node_ok Sample.fresh
                    (Sample.block_fields ++ [("totalDifficulty"%string, JString "0x20000")])
                    Sample.block eq_refl eq_refl)
             Sample.block_fields [] "totalDifficulty"%string "0x20000"%string 131072
             eq_refl eq_refl eq_refl eq_refl eq_refl).
  - exact (proj1 (@GetTotalDifficulty_field Sample.geth Sample.node_no_td Sample.fresh
                    Sample.block_fields Sample.block eq_refl eq_refl) eq_refl).
Defined.

(** A node that answers the block request with [null] makes the
    total-difficulty lookup dereference a nil pointer. *)
Example GetTotalDifficulty_null :
  @GetTotalDifficulty Sample.geth Sample.node_empty Sample.fresh = Panicked.
Proof. reflexivity. Qed.

(** The last [uint64] wraps to zero. *)
Example uint64_inc_wraps : uint64_inc (uint64_modulus - 1) = 0.
Proof. reflexivity. Qed.

(** C6 as the specification states it does not hold: the block of this
    node has no [totalDifficulty] member, and the lookup does not fail; it
    returns a nil number and a nil error. *)
Lemma GetTotalDifficulty_lacking_field_not_failed :
  has_field "totalDifficulty" Sample.block_fields = false
  /\ node_reply (Node:=Sample.node_no_td) (wire Sample.fresh)
       (round_trip (cEth (client Sample.fresh)) (eth_getBlockByNumber "latest" false))
     = inr (JObject Sample.block_fields)
  /\ ~ failed (@GetTotalDifficulty Sample.geth Sample.node_no_td Sample.fresh).
Proof.
  split; [reflexivity |]. split; [reflexivity |].
  vm_compute. intros Hfailed. exact Hfailed.
Qed.

(** * Further properties *)

(** ** Block-number arguments on the wire *)

Lemma string_of_list_ascii_inj (l1 l2 : list ascii) :
  string_of_list_ascii l1 = string_of_list_ascii l2 -> l1 = l2.
Proof.
  intros Heq.
  rewrite <- (list_ascii_of_string_of_list_ascii l1),
          <- (list_ascii_of_string_of_list_ascii l2).
  now rewrite Heq.
Qed.

Lemma EncodeBig_inj (a b : Z) : EncodeBig a = EncodeBig b -> a = b.
Proof.
  destruct (EncodeBig_shape a) as (da & Ha & Hva & _).
  destruct (EncodeBig_shape b) as (db & Hb & Hvb & _).
  rewrite Ha, Hb.
  destruct (Z.ltb_spec a 0), (Z.ltb_spec b 0); simpl; intros Heq;
    try discriminate Heq; injection Heq as Heq;
    apply string_of_list_ascii_inj in Heq; subst db;
    rewrite Hva in Hvb; injection Hvb as Hv; lia.
Qed.

Lemma EncodeBig_no_word (n : Z) :
  EncodeBig n <> "latest"%string /\ EncodeBig n <> "pending"%string
  /\ EncodeBig n <> "finalized"%string /\ EncodeBig n <> "safe"%string.
Proof.
  destruct (EncodeBig_first n) as (rest & [-> | ->]); repeat split; discriminate.
Qed.

(** The five shapes of a block-number argument. *)
Lemma toBlockNumArg_cases (number : option Z) :
  (number = None /\ toBlockNumArg number = "latest"%string)
  \/ (number = Some Pending /\ toBlockNumArg number = "pending"%string)
  \/ (number = Some Finalized /\ toBlockNumArg number = "finalized"%string)
  \/ (number = Some Safe /\ toBlockNumArg number = "safe"%string)
  \/ (exists n : Z, number = Some n /\ toBlockNumArg number = EncodeBig n).
Proof.
  destruct number as [n |]; [| now left].
  destruct (Z.eq_dec n Pending) as [-> | H1]; [right; left; now split |].
  destruct (Z.eq_dec n Finalized) as [-> | H2]; [right; right; left; now split |].
  destruct (Z.eq_dec n Safe) as [-> | H3]; [right; right; right; left; now split |].
  right; right; right; right. exists n. split; [reflexivity |].
  now apply toBlockNumArg_ordinary.
Qed.

(** X1.  Two block selectors that are written the same are the same
    selector: the nil number, the three sentinels and the numbers never
    share a wire string. *)
Theorem toBlockNumArg_injective (a b : option Z) :
  toBlockNumArg a = toBlockNumArg b -> a = b.
Proof.
  destruct (toBlockNumArg_cases a)
    as [[-> ->] | [[-> ->] | [[-> ->] | [[-> ->] | (n & -> & ->)]]]];
    destruct (toBlockNumArg_cases b)
      as [[-> ->] | [[-> ->] | [[-> ->] | [[-> ->] | (m & -> & ->)]]]];
    intros Heq; try reflexivity; try discriminate Heq;
    try (exfalso; destruct (EncodeBig_no_word m) as (? & ? & ? & ?); congruence);
    try (exfalso; destruct (EncodeBig_no_word n) as (? & ? & ? & ?); congruence).
  f_equal. now apply EncodeBig_inj.
Qed.

Lemma toBlockNumArg_injective_witness : Some 255 = Some 255.
Proof.
  exact (toBlockNumArg_injective (Some 255) (Some 255) eq_refl).
Defined.

Lemma hex_digits_length (fuel : nat) :
  forall n k : Z, 1 <= k -> 0 <= n < 16 ^ k ->
    Z.of_nat (length (hex_digits fuel n)) <= k.
Proof.
  induction fuel as [| fuel IH]; intros n k Hk Hn; simpl; [lia |].
  destruct (Z.ltb_spec n 16) as [Hlt | Hge]; simpl; [lia |].
  assert (Hk2 : 2 <= k).
  { destruct (Z.eq_dec k 1) as [-> | ?]; [simpl in Hn; lia | lia]. }
  rewrite length_app, Nat2Z.inj_add. simpl.
  assert (Hpow : 16 ^ k = 16 * 16 ^ (k - 1)).
  { rewrite <- Z.pow_succ_r by lia. f_equal. lia. }
  specialize (IH (n / 16) (k - 1) ltac:(lia)).
  assert (0 <= n / 16 < 16 ^ (k - 1)).
  { split; [apply Z.div_pos; lia |]. apply Z.div_lt_upper_bound; lia. }
  specialize (IH ltac:(assumption)). lia.
Qed.

(** The digits [EncodeBig] writes for a positive number. *)
Lemma EncodeBig_positive (n : Z) :
  0 < n ->
  EncodeBig n =
    ("0x" ++ string_of_list_ascii (hex_digits (S (Z.to_nat (Z.log2 n))) n))%string.
Proof.
  intros Hn. unfold EncodeBig, big_Text16.
  destruct n as [| p | p]; try lia. reflexivity.
Qed.

(** X2.  A block height below [2^256], written by [toBlockNumArg] and read
    back as a [hexutil.Big], is the height. *)
Theorem toBlockNumArg_round_trip (n : Z) :
  0 <= n < 2 ^ 256 -> Big_UnmarshalText (toBlockNumArg (Some n)) = inr n.
Proof.
  intros Hn.
  rewrite toBlockNumArg_ordinary by (unfold Pending, Finalized, Safe; lia).
  destruct (Z.eq_dec n 0) as [-> | Hpos]; [reflexivity |].
  rewrite EncodeBig_positive by lia.
  set (digits := hex_digits (S (Z.to_nat (Z.log2 n))) n).
  pose proof (fuel_enough n ltac:(lia)) as Hfuel.
  destruct (hex_digits_leading (S (Z.to_nat (Z.log2 n))) n ltac:(lia))
    as (d & more & Hdigits & Hd).
  pose proof (hex_digits_value (S (Z.to_nat (Z.log2 n))) n ltac:(lia)) as Hvalue.
  pose proof (hex_digits_length (S (Z.to_nat (Z.log2 n))) n 64 ltac:(lia)) as Hlen.
  assert (H256 : 2 ^ 256 = 16 ^ 64) by reflexivity.
  specialize (Hlen ltac:(lia)).
  fold digits in Hdigits, Hvalue, Hlen.
  unfold Big_UnmarshalText.
  change (list_ascii_of_string ("0x" ++ string_of_list_ascii digits))
    with ("0"%char :: "x"%char :: list_ascii_of_string (string_of_list_ascii digits)).
  rewrite list_ascii_of_string_of_list_ascii.
  unfold checkNumberText. cbn [Ascii.eqb Bool.eqb andb orb].
  rewrite Hdigits.
  assert (Hnd : Ascii.eqb d "0" = false) by (now apply Ascii.eqb_neq).
  rewrite Hnd, andb_false_r. rewrite <- Hdigits.
  destruct (Z.ltb_spec 64 (Z.of_nat (length digits))); [lia |].
  now rewrite Hvalue.
Qed.

Lemma toBlockNumArg_round_trip_witness :
  Big_UnmarshalText (toBlockNumArg (Some 1000000)) = inr 1000000.
Proof.
  apply toBlockNumArg_round_trip. split; [lia | reflexivity].
Defined.

(** ** More on the client *)

Section MoreClientProperties.
Context {G : Geth} {N : Node} {J : Jwt}.

Local Abbreviation head_trip number w :=
  (round_trip (cEth (client w)) (eth_getBlockByNumber (toBlockNumArg number) false)).

Local Abbreviation nonce_trip account blockNumber w :=
  (round_trip (cEth (client w)) (eth_getTransactionCount account blockNumber)).

(** *** The nonce cache *)

(** What a call of [GetNextAccountNonce] does to the client and to the
    wire: an error leaves the client alone; a nil error comes after a
    successful head lookup and rewrites the entry of the account with the
    hash of that head and the nonce returned.  The head lookup is always
    made, the nonce lookup is the only other round trip. *)
Lemma GetNextAccountNonce_effect (account : Address) (w : World) :
  exists (r : Z * option error) (w' : World),
    GetNextAccountNonce account w = Done r w'
    /\ ((exists e : error, snd r = Some e) /\ client w' = client w
        \/ exists head : Header,
             HeaderByNumber None w = Done (Some head, None) (logged (head_trip None w) w)
             /\ snd r = None
             /\ client w' =
                  set_accTxInfoMap
                    (<[account := Some {| PreviousBlock := Header_Hash head;
                                          PreviousNonce := fst r |}]>
                       (accTxInfoMap (client w)))
                    (client w))
    /\ (wire w' = wire w ++ [head_trip None w]
        \/ exists blockNumber : option Z,
             wire w' = wire w ++ [head_trip None w; nonce_trip account blockNumber w]).
Proof.
  destruct (HeaderByNumber_total None w) as [[header err] Hhead].
  destruct err as [e |].
  - rewrite (GetNextAccountNonce_head_error _ _ _ _ _ Hhead).
    eexists _, _. split; [reflexivity |]. split.
    + left. split; [eauto | reflexivity].
    + left. reflexivity.
  - pose proof (HeaderByNumber_header _ _ _ _ Hhead) as Hsome.
    destruct header as [head |]; [| contradiction].
    rewrite (GetNextAccountNonce_run _ _ _ _ Hhead).
    destruct (NonceAt_run account (Header_Number head)
                (logged (head_trip None w) w)) as (nonce & err & Hnonce).
    rewrite Hnonce.
    assert (Hwire : wire (logged (nonce_trip account (Header_Number head)
                                    (logged (head_trip None w) w))
                            (logged (head_trip None w) w))
                    = wire w ++ [head_trip None w;
                                 nonce_trip account (Header_Number head) w]).
    { unfold logged. simpl. now rewrite <- app_assoc. }
    destruct (accTxInfoMap (client (logged (head_trip None w) w)) !! account)
      as [[accTxInfo |] |];
      [destruct ((PreviousBlock accTxInfo =? Header_Hash head)
                 || (PreviousBlock accTxInfo =? Header_ParentHash head)) | |];
      destruct err as [e |];
      eexists _, _; (split; [reflexivity |]);
      (split;
       [ solve [left; split; [eauto | reflexivity]
               | right; exists head; split; [exact Hhead | split; reflexivity]]
       | solve [left; reflexivity
               | right; exists (Header_Number head); exact Hwire] ]).
Qed.

(** X3.  A call of [GetNextAccountNonce] for one account leaves the cache
    entry of every other account, the two rpc clients, the terminal total
    difficulty and the secret of the client as they were. *)
Theorem GetNextAccountNonce_other_accounts
  (account : Address) (w w' : World) (r : Z * option error) :
  GetNextAccountNonce account w = Done r w' ->
  (forall a : Address,
     a <> account -> accTxInfoMap (client w') !! a = accTxInfoMap (client w) !! a)
  /\ c (client w') = c (client w)
  /\ cEth (client w') = cEth (client w)
  /\ ttd (client w') = ttd (client w)
  /\ JWTSecretBytes (client w') = JWTSecretBytes (client w).
Proof.
  intros Hrun.
  destruct (GetNextAccountNonce_effect account w)
    as (r0 & w0 & Hrun0 & [[_ Hsame] | (head & _ & _ & Hcache)] & _);
    rewrite Hrun0 in Hrun; inversion Hrun; subst r0 w0.
  - rewrite Hsame. repeat split; reflexivity.
  - rewrite Hcache. repeat split; try reflexivity.
    intros a Ha. simpl. now apply lookup_insert_ne.
Qed.

(** X4.  When [GetNextAccountNonce] returns a nonce with a nil error, the
    head lookup has succeeded and the cache entry of the account holds
    that nonce, recorded under the hash of that head. *)
Theorem GetNextAccountNonce_entry
  (account : Address) (w w' : World) (nonce : Z) :
  GetNextAccountNonce account w = Done (nonce, None) w' ->
  exists head : Header,
    HeaderByNumber None w = Done (Some head, None) (logged (head_trip None w) w)
    /\ accTxInfoMap (client w') !! account
       = Some (Some {| PreviousBlock := Header_Hash head; PreviousNonce := nonce |}).
Proof.
  intros Hrun.
  destruct (GetNextAccountNonce_effect account w)
    as (r0 & w0 & Hrun0 & [[[e He] _] | (head & Hhead & _ & Hcache)] & _);
    rewrite Hrun0 in Hrun; inversion Hrun; subst r0 w0.
  - discriminate He.
  - exists head. split; [exact Hhead |].
    rewrite Hcache. simpl. apply lookup_insert_eq.
Qed.

(** X5.  Two calls in a row for the same account: when the second call
    finds a head that is the head of the first call, or a child of it, it
    returns the nonce of the first call incremented (as a [uint64]) and
    makes the head lookup only. *)
Theorem GetNextAccountNonce_twice
  (account : Address) (w w1 w2 : World) (nonce : Z) (head1 head2 : Header) :
  HeaderByNumber None w = Done (Some head1, None) (logged (head_trip None w) w) ->
  GetNextAccountNonce account w = Done (nonce, None) w1 ->
  HeaderByNumber None w1 = Done (Some head2, None) w2 ->
  Header_Hash head2 = Header_Hash head1 \/ Header_ParentHash head2 = Header_Hash head1 ->
  GetNextAccountNonce account w1 =
    Done (uint64_inc nonce, None)
      {| client :=
           set_accTxInfoMap
             (<[account := Some {| PreviousBlock := Header_Hash head2;
                                   PreviousNonce := uint64_inc nonce |}]>
                (accTxInfoMap (client w1)))
             (client w1);
         wire := wire w1 ++ [head_trip None w1] |}.
Proof.
  intros Hhead1 Hfirst Hhead2 Hnear.
  assert (Hentry : accTxInfoMap (client w1) !! account
                   = Some (Some {| PreviousBlock := Header_Hash head1;
                                   PreviousNonce := nonce |})).
  { destruct (GetNextAccountNonce_effect account w)
      as (r0 & w0 & Hrun0 & [[[e He] _] | (head & Hhead & _ & Hcache)] & _);
      rewrite Hrun0 in Hfirst; inversion Hfirst; subst r0 w0.
    - discriminate He.
    - rewrite Hhead1 in Hhead. injection Hhead as <-.
      rewrite Hcache. simpl. apply lookup_insert_eq. }
  pose proof (HeaderByNumber_world _ _ _ _ Hhead2) as Hw2.
  rewrite (GetNextAccountNonce_run _ _ _ _ Hhead2). subst w2.
  change (client (logged (head_trip None w1) w1)) with (client w1).
  rewrite Hentry. cbn [PreviousBlock PreviousNonce].
  assert (Hcond : (Header_Hash head1 =? Header_Hash head2)
                  || (Header_Hash head1 =? Header_ParentHash head2) = true).
  { apply orb_true_iff. destruct Hnear as [<- | <-]; [left | right]; apply Z.eqb_refl. }
  rewrite Hcond. reflexivity.
Qed.

(** X6.  A call of [GetNextAccountNonce] makes one round trip or two: the
    lookup of the latest header first, and each of them through the eth
    rpc client, with its endpoint and its headers. *)
Theorem GetNextAccountNonce_round_trips
  (account : Address) (w w' : World) (r : Z * option error) :
  GetNextAccountNonce account w = Done r w' ->
  exists (first : WireCall) (others : list WireCall),
    wire w' = wire w ++ first :: others
    /\ wire_request first = eth_getBlockByNumber "latest" false
    /\ (length others <= 1)%nat
    /\ Forall (fun trip => wire_endpoint trip = endpoint (cEth (client w))
                           /\ wire_headers trip = headers (cEth (client w)))
         (first :: others).
Proof.
  intros Hrun.
  destruct (GetNextAccountNonce_effect account w)
    as (r0 & w0 & Hrun0 & _ & [Hwire | (blockNumber & Hwire)]);
    rewrite Hrun0 in Hrun; inversion Hrun; subst r0 w0.
  - exists (head_trip None w), []. rewrite Hwire.
    split; [reflexivity | split; [reflexivity | split; [simpl; lia |]]].
    repeat constructor.
  - exists (head_trip None w), [nonce_trip account blockNumber w]. rewrite Hwire.
    split; [reflexivity | split; [reflexivity | split; [simpl; lia |]]].
    repeat constructor.
Qed.

(** X23.  [HeaderByNumber] returns a header with a nil error exactly when
    the node answers the request with a result that is not [null] and
    that the header decoder accepts; the header is the decoded one, and
    the call leaves the client as it was and adds its one round trip. *)
Theorem HeaderByNumber_success (number : option Z) (w w' : World) (header : Header) :
  HeaderByNumber number w = Done (Some header, None) w'
  <-> (exists raw : json,
         node_reply (wire w) (head_trip number w) = inr raw
         /\ raw <> JNull
         /\ json_Unmarshal (T:=Header) raw zero_value = (header, None))
      /\ w' = logged (head_trip number w) w.
Proof.
  rewrite HeaderByNumber_run. split.
  - intros Hrun.
    destruct (node_reply (wire w) (head_trip number w)) as [msg | raw];
      [discriminate Hrun |].
    assert (Hraw : raw <> JNull) by (intros ->; discriminate Hrun).
    assert (Hdone :
      Done (Some (fst (json_Unmarshal (T:=Header) raw zero_value)),
            snd (json_Unmarshal (T:=Header) raw zero_value))
        (logged (head_trip number w) w) = Done (Some header, None) w').
    { destruct raw; try contradiction; exact Hrun. }
    inversion Hdone as [[Hheader Herr Hworld]].
    split; [| reflexivity]. exists raw. split; [reflexivity |]. split; [exact Hraw |].
    destruct (json_Unmarshal (T:=Header) raw zero_value) as [h e]. cbn in *. congruence.
  - intros [(raw & Hreply & Hraw & Hdecode) ->]. rewrite Hreply.
    destruct raw; try contradiction; now rewrite Hdecode.
Qed.

(** *** The engine calls *)

Local Abbreviation authorized now w :=
  (match GetNewToken (JWTSecretBytes (client w)) now with
   | (newTokenString, None) =>
       {| client :=
            set_c (SetHeader "Authorization" ("Bearer " ++ newTokenString) (c (client w)))
                  (client w);
          wire := wire w |}
   | (_, Some _) => w
   end).

(** The headers of the engine rpc client after the token was prepared. *)
Local Abbreviation engine_client now w := (c (client (authorized now w))).

Lemma ForkchoiceUpdatedV1_effect (now : Time) (fcState : option ForkchoiceStateV1)
  (pAttributes : option PayloadAttributesV1) (w : World) :
  exists (result : ForkChoiceResponse) (err : option error),
    ForkchoiceUpdatedV1 now fcState pAttributes w =
      Done (result, err)
        {| client :=
             set_latestFcUResponse (Some result)
               (set_latestPAttrSent pAttributes
                  (set_latestFcUStateSent fcState (client (authorized now w))));
           wire := wire w ++ [round_trip (engine_client now w)
                                (engine_forkchoiceUpdatedV1 fcState pAttributes)] |}
    /\ forall msg : string,
         node_reply (wire w)
           (round_trip (engine_client now w)
              (engine_forkchoiceUpdatedV1 fcState pAttributes)) = inl msg ->
         result = zero_value /\ err = Some (RPCError msg).
Proof.
  rewrite ForkchoiceUpdatedV1_run. cbv zeta. unfold CallContext.
  destruct (GetNewToken (JWTSecretBytes (client w)) now) as [tok [e |]];
    cbn [client wire c set_latestPAttrSent set_latestFcUStateSent];
    (destruct (node_reply (wire w) _) as [msg | raw] eqn:Hreply;
     [ exists zero_value, (Some (RPCError msg)); split;
       [ reflexivity | intros msg' Heq; inversion Heq; now split ]
     | destruct (json_Unmarshal raw zero_value) as [v e'];
       exists v, e'; split; [reflexivity | discriminate] ]).
Qed.

Lemma NewPayloadV1_effect (now : Time) (payload : option ExecutableDataV1) (w : World) :
  exists (result : PayloadStatusV1) (err : option error),
    NewPayloadV1 now payload w =
      Done (result, err)
        {| client :=
             set_latestPayloadStatusReponse (Some result)
               (set_latestPayloadSent payload (client (authorized now w)));
           wire := wire w ++ [round_trip (engine_client now w)
                                (engine_newPayloadV1 payload)] |}
    /\ forall msg : string,
         node_reply (wire w)
           (round_trip (engine_client now w) (engine_newPayloadV1 payload)) = inl msg ->
         result = zero_value /\ err = Some (RPCError msg).
Proof.
  rewrite NewPayloadV1_run. cbv zeta. unfold CallContext.
  destruct (GetNewToken (JWTSecretBytes (client w)) now) as [tok [e |]];
    cbn [client wire c set_latestPayloadSent];
    (destruct (node_reply (wire w) _) as [msg | raw] eqn:Hreply;
     [ exists zero_value, (Some (RPCError msg)); split;
       [ reflexivity | intros msg' Heq; inversion Heq; now split ]
     | destruct (json_Unmarshal raw zero_value) as [v e'];
       exists v, e'; split; [reflexivity | discriminate] ]).
Qed.

Lemma GetPayloadV1_effect (now : Time) (payloadId : option PayloadID) (w : World) :
  exists (result : ExecutableDataV1) (err : option error),
    GetPayloadV1 now payloadId w =
      Done (result, err)
        {| client := client (authorized now w);
           wire := wire w ++ [round_trip (engine_client now w)
                                (engine_getPayloadV1 payloadId)] |}.
Proof.
  unfold GetPayloadV1, bind. rewrite PrepareDefaultAuthCallToken_run.
  unfold this, ret, CallContext.
  destruct (GetNewToken (JWTSecretBytes (client w)) now) as [tok [e |]];
    cbn [client wire c];
    (destruct (node_reply (wire w) _) as [msg | raw];
     [ eexists _, _; reflexivity
     | destruct (json_Unmarshal raw zero_value) as [v e'];
       eexists _, _; reflexivity ]).
Qed.

Lemma ExchangeTransitionConfigurationV1_effect
  (tConf : option TransitionConfigurationV1) (w : World) :
  exists (result : TransitionConfigurationV1) (err : option error),
    ExchangeTransitionConfigurationV1 tConf w =
      Done (result, err)
        (logged (round_trip (c (client w))
                   (engine_exchangeTransitionConfigurationV1 tConf)) w).
Proof.
  unfold ExchangeTransitionConfigurationV1, bind, this, ret.
  destruct (CallContext_run (T:=TransitionConfigurationV1) (c (client w)) zero_value
              (engine_exchangeTransitionConfigurationV1 tConf) w)
    as (result & err & Hcall & _).
  rewrite Hcall. eauto.
Qed.

(** The world after a token was signed. *)
Lemma authorized_signed (now : Time) (w : World) (tokenString : string) :
  GetNewToken (JWTSecretBytes (client w)) now = (tokenString, None) ->
  authorized now w =
    {| client :=
         set_c (SetHeader "Authorization" ("Bearer " ++ tokenString) (c (client w)))
               (client w);
       wire := wire w |}.
Proof. intros Hsign. now rewrite Hsign. Qed.

(** X7.  When the token is signed, each of the three privileged calls
    makes one round trip, on the engine rpc client, which carries the
    request and the header [Authorization: Bearer <token>] with the token
    signed for this call; the header stays set on the rpc client. *)
Theorem privileged_call_bearer (now : Time) (w : World) (tokenString : string) :
  GetNewToken (JWTSecretBytes (client w)) now = (tokenString, None) ->
  let bearer := <["Authorization"%string := ("Bearer " ++ tokenString)%string]>
                  (headers (c (client w))) in
  (forall (fcState : option ForkchoiceStateV1) (pAttributes : option PayloadAttributesV1),
     exists (r : ForkChoiceResponse * option error) (w' : World),
       ForkchoiceUpdatedV1 now fcState pAttributes w = Done r w'
       /\ wire w' = wire w ++ [{| wire_endpoint := endpoint (c (client w));
                                  wire_headers := bearer;
                                  wire_request :=
                                    engine_forkchoiceUpdatedV1 fcState pAttributes |}]
       /\ headers (c (client w')) = bearer)
  /\ (forall payloadId : option PayloadID,
        exists (r : ExecutableDataV1 * option error) (w' : World),
          GetPayloadV1 now payloadId w = Done r w'
          /\ wire w' = wire w ++ [{| wire_endpoint := endpoint (c (client w));
                                     wire_headers := bearer;
                                     wire_request := engine_getPayloadV1 payloadId |}]
          /\ headers (c (client w')) = bearer)
  /\ (forall payload : option ExecutableDataV1,
        exists (r : PayloadStatusV1 * option error) (w' : World),
          NewPayloadV1 now payload w = Done r w'
          /\ wire w' = wire w ++ [{| wire_endpoint := endpoint (c (client w));
                                     wire_headers := bearer;
                                     wire_request := engine_newPayloadV1 payload |}]
          /\ headers (c (client w')) = bearer).
Proof.
  intros Hsign bearer. split; [| split].
  - intros fcState pAttributes.
    destruct (ForkchoiceUpdatedV1_effect now fcState pAttributes w)
      as (result & err & Hrun & _).
    rewrite Hrun, (authorized_signed _ _ _ Hsign).
    eexists _, _. split; [reflexivity |]. split; reflexivity.
  - intros payloadId.
    destruct (GetPayloadV1_effect now payloadId w) as (result & err & Hrun).
    rewrite Hrun, (authorized_signed _ _ _ Hsign).
    eexists _, _. split; [reflexivity |]. split; reflexivity.
  - intros payload.
    destruct (NewPayloadV1_effect now payload w) as (result & err & Hrun & _).
    rewrite Hrun, (authorized_signed _ _ _ Hsign).
    eexists _, _. split; [reflexivity |]. split; reflexivity.
Qed.

(** X8.  [ExchangeTransitionConfigurationV1] signs no token and changes
    nothing in the client, and its round trip carries the headers the
    engine rpc client has: after a privileged call whose token was signed,
    it carries the bearer token of that call. *)
Theorem ExchangeTransitionConfigurationV1_headers
  (tConf : option TransitionConfigurationV1) (w : World) :
  (exists (r : TransitionConfigurationV1 * option error) (w' : World),
     ExchangeTransitionConfigurationV1 tConf w = Done r w'
     /\ client w' = client w
     /\ wire w' = wire w ++ [{| wire_endpoint := endpoint (c (client w));
                                wire_headers := headers (c (client w));
                                wire_request :=
                                  engine_exchangeTransitionConfigurationV1 tConf |}])
  /\ (forall (now : Time) (tokenString : string) (fcState : option ForkchoiceStateV1)
        (pAttributes : option PayloadAttributesV1)
        (r1 : ForkChoiceResponse * option error) (w1 : World),
        GetNewToken (JWTSecretBytes (client w)) now = (tokenString, None) ->
        ForkchoiceUpdatedV1 now fcState pAttributes w = Done r1 w1 ->
        exists (r : TransitionConfigurationV1 * option error) (w2 : World)
          (trip : WireCall),
          ExchangeTransitionConfigurationV1 tConf w1 = Done r w2
          /\ wire w2 = wire w1 ++ [trip]
          /\ wire_request trip = engine_exchangeTransitionConfigurationV1 tConf
          /\ wire_headers trip !! "Authorization"%string
             = Some ("Bearer " ++ tokenString)%string).
Proof.
  split.
  - destruct (ExchangeTransitionConfigurationV1_effect tConf w) as (result & err & Hrun).
    rewrite Hrun. eexists _, _. split; [reflexivity |]. split; reflexivity.
  - intros now tokenString fcState pAttributes r1 w1 Hsign Hfirst.
    destruct (ForkchoiceUpdatedV1_effect now fcState pAttributes w)
      as (result & err & Hrun & _).
    rewrite Hrun, (authorized_signed _ _ _ Hsign) in Hfirst.
    inversion Hfirst; subst r1 w1.
    destruct (ExchangeTransitionConfigurationV1_effect tConf
                {| client :=
                     set_latestFcUResponse (Some result)
                       (set_latestPAttrSent pAttributes
                          (set_latestFcUStateSent fcState
                             (set_c (SetHeader "Authorization" ("Bearer " ++ tokenString)
                                       (c (client w))) (client w))));
                   wire := wire w ++ [round_trip
                                        (SetHeader "Authorization" ("Bearer " ++ tokenString)
                                           (c (client w)))
                                        (engine_forkchoiceUpdatedV1 fcState pAttributes)] |})
      as (result2 & err2 & Hrun2).
    cbn [client c set_latestFcUResponse set_latestPAttrSent set_latestFcUStateSent set_c]
      in Hrun2 |- *.
    rewrite Hrun2. eexists _, _, _. split; [reflexivity |].
    split; [reflexivity |]. split; [reflexivity |].
    cbn [round_trip wire_headers SetHeader headers]. apply lookup_insert_eq.
Qed.

(** X9.  The four engine calls leave the nonce cache, the eth rpc client,
    the terminal total difficulty and the secret as they were; a
    forkchoice update leaves the new-payload memory as it was, and a new
    payload the forkchoice memory. *)
Theorem engine_calls_frame (w : World) :
  let kept (w' : World) :=
    accTxInfoMap (client w') = accTxInfoMap (client w)
    /\ cEth (client w') = cEth (client w)
    /\ ttd (client w') = ttd (client w)
    /\ JWTSecretBytes (client w') = JWTSecretBytes (client w) in
  (forall now fcState pAttributes r w',
     ForkchoiceUpdatedV1 now fcState pAttributes w = Done r w' ->
     kept w'
     /\ LatestNewPayloadSent (client w') = LatestNewPayloadSent (client w)
     /\ LatestNewPayloadResponse (client w') = LatestNewPayloadResponse (client w))
  /\ (forall now payload r w',
        NewPayloadV1 now payload w = Done r w' ->
        kept w'
        /\ LatestForkchoiceSent (client w') = LatestForkchoiceSent (client w)
        /\ LatestForkchoiceResponse (client w') = LatestForkchoiceResponse (client w))
  /\ (forall now payloadId r w', GetPayloadV1 now payloadId w = Done r w' -> kept w')
  /\ (forall tConf r w', ExchangeTransitionConfigurationV1 tConf w = Done r w' -> kept w').
Proof.
  intros kept. unfold kept.
  assert (Hauth : forall now,
            accTxInfoMap (client (authorized now w)) = accTxInfoMap (client w)
            /\ cEth (client (authorized now w)) = cEth (client w)
            /\ ttd (client (authorized now w)) = ttd (client w)
            /\ JWTSecretBytes (client (authorized now w)) = JWTSecretBytes (client w)
            /\ CallMemory (client (authorized now w)) = CallMemory (client w)).
  { intros now.
    destruct (GetNewToken (JWTSecretBytes (client w)) now) as [tok [e |]];
      repeat split; reflexivity. }
  split; [| split; [| split]].
  - intros now fcState pAttributes r w' Hrun.
    destruct (ForkchoiceUpdatedV1_effect now fcState pAttributes w)
      as (result & err & Hrun0 & _).
    rewrite Hrun0 in Hrun. inversion Hrun; subst r w'.
    destruct (Hauth now) as (H1 & H2 & H3 & H4 & H5).
    unfold CallMemory in H5. injection H5 as _ _ _ H6 H7.
    cbn. repeat split; assumption.
  - intros now payload r w' Hrun.
    destruct (NewPayloadV1_effect now payload w) as (result & err & Hrun0 & _).
    rewrite Hrun0 in Hrun. inversion Hrun; subst r w'.
    destruct (Hauth now) as (H1 & H2 & H3 & H4 & H5).
    unfold CallMemory in H5. injection H5 as H6 H7 H8 _ _.
    unfold LatestForkchoiceSent, LatestForkchoiceResponse.
    cbn. rewrite H6, H7, H8. repeat split; assumption.
  - intros now payloadId r w' Hrun.
    destruct (GetPayloadV1_effect now payloadId w) as (result & err & Hrun0).
    rewrite Hrun0 in Hrun. inversion Hrun; subst r w'.
    destruct (Hauth now) as (H1 & H2 & H3 & H4 & _). cbn. repeat split; assumption.
  - intros tConf r w' Hrun.
    destruct (ExchangeTransitionConfigurationV1_effect tConf w) as (result & err & Hrun0).
    rewrite Hrun0 in Hrun. inversion Hrun; subst r w'. repeat split; reflexivity.
Qed.

(** X10.  When the rpc client fails on a forkchoice update or on a new
    payload, whatever headers the call carries, the call returns the zero
    response with that error, and the response the client remembers is
    that zero response: the response of an earlier call is gone, and the
    accessor does not return nil. *)
Theorem failed_call_zero_response (now : Time) (w : World) (msg : string) :
  (forall trip : WireCall, node_reply (wire w) trip = inl msg) ->
  (forall (fcState : option ForkchoiceStateV1) (pAttributes : option PayloadAttributesV1),
     exists w' : World,
       ForkchoiceUpdatedV1 now fcState pAttributes w
         = Done (zero_value, Some (RPCError msg)) w'
       /\ LatestForkchoiceResponse (client w') = Some zero_value)
  /\ (forall payload : option ExecutableDataV1,
        exists w' : World,
          NewPayloadV1 now payload w = Done (zero_value, Some (RPCError msg)) w'
          /\ LatestNewPayloadResponse (client w') = Some zero_value).
Proof.
  intros Hdown. split.
  - intros fcState pAttributes.
    destruct (ForkchoiceUpdatedV1_effect now fcState pAttributes w)
      as (result & err & Hrun & Herr).
    destruct (Herr msg (Hdown _)) as [-> ->].
    rewrite Hrun. eexists. split; reflexivity.
  - intros payload.
    destruct (NewPayloadV1_effect now payload w) as (result & err & Hrun & Herr).
    destruct (Herr msg (Hdown _)) as [-> ->].
    rewrite Hrun. eexists. split; reflexivity.
Qed.

(** *** Total difficulty, the other answers *)

Local Abbreviation td_trip w :=
  (round_trip (cEth (client w)) (eth_getBlockByNumber "latest" false)).

(** X11.  When the node answers the block request of a total-difficulty
    lookup with [null], the lookup dereferences the nil pointer the answer
    was decoded into: it panics, where [HeaderByNumber] returns
    [NotFound]. *)
Theorem GetTotalDifficulty_null_panics (w : World) :
  node_reply (wire w) (td_trip w) = inr JNull ->
  GetTotalDifficulty w = Panicked
  /\ HeaderByNumber None w = Done (None, Some NotFound) (logged (td_trip w) w).
Proof.
  intros Hreply. split.
  - unfold GetTotalDifficulty, bind, this, CallContext. now rewrite Hreply.
  - rewrite HeaderByNumber_run.
    change (toBlockNumArg None) with "latest"%string. now rewrite Hreply.
Qed.

(** X12.  A total-difficulty lookup returns a nil number together with the
    error of the rpc client when the round trip fails, and with the error
    of the header decoder when the header fields of the answer do not
    decode, whatever [totalDifficulty] member the answer has. *)
Theorem GetTotalDifficulty_errors (w : World) :
  (forall msg : string,
     node_reply (wire w) (td_trip w) = inl msg ->
     GetTotalDifficulty w = Done (None, Some (RPCError msg)) (logged (td_trip w) w))
  /\ (forall (raw : json) (hdr : Header) (e : error),
        node_reply (wire w) (td_trip w) = inr raw ->
        raw <> JNull ->
        json_Unmarshal (T:=Header) raw zero_value = (hdr, Some e) ->
        GetTotalDifficulty w = Done (None, Some e) (logged (td_trip w) w)).
Proof.
  split.
  - intros msg Hreply.
    unfold GetTotalDifficulty, bind, this, CallContext. now rewrite Hreply.
  - intros raw hdr e Hreply Hraw Hheader.
    unfold GetTotalDifficulty, bind, this, CallContext. rewrite Hreply.
    destruct raw; try contradiction;
      cbn [json_Unmarshal Unmarshal_ptr Unmarshal_TotalDifficultyHeader default zero_value];
      unfold TotalDifficultyHeader_UnmarshalJSON; cbn [tdh_Header tdh_TD];
      rewrite Hheader; reflexivity.
Qed.

(** The walk over the members up to a matching one. *)
Lemma TD_decode_fields_at (pre post : list (string * json)) (key : string)
  (value : json) (td : TD) :
  key_matches "totalDifficulty" key = true ->
  has_field "totalDifficulty" pre = false ->
  TD_decode_fields (pre ++ (key, value) :: post) td =
    match value with
    | JNull => TD_decode_fields post {| TotalDifficulty := None |}
    | _ =>
        match Big_UnmarshalJSON value with
        | inl e => ({| TotalDifficulty := Some (default 0 (TotalDifficulty td)) |}, Some e)
        | inr v => TD_decode_fields post {| TotalDifficulty := Some v |}
        end
    end.
Proof.
  intros Hkey Hpre. rewrite TD_decode_fields_skip by exact Hpre.
  cbn [TD_decode_fields]. rewrite Hkey. reflexivity.
Qed.

(** X13.  On a block whose header fields decode: a [totalDifficulty]
    member that is [null] gives a nil number and a nil error, as if it
    were absent; a first member that is neither [null] nor a string, or
    a string that is no hexadecimal number without leading zero, makes the
    lookup fail with the type error of the decoder and a nil number. *)
Theorem GetTotalDifficulty_member
  (w : World) (pre post : list (string * json)) (key : string) (value : json)
  (hdr : Header) :
  node_reply (wire w) (td_trip w) = inr (JObject (pre ++ (key, value) :: post)) ->
  json_Unmarshal (T:=Header) (JObject (pre ++ (key, value) :: post)) zero_value
    = (hdr, None) ->
  key_matches "totalDifficulty" key = true ->
  has_field "totalDifficulty" pre = false ->
  (value = JNull -> has_field "totalDifficulty" post = false ->
   GetTotalDifficulty w = Done (None, None) (logged (td_trip w) w))
  /\ (forall e : error,
        value <> JNull -> Big_UnmarshalJSON value = inl e ->
        GetTotalDifficulty w = Done (None, Some e) (logged (td_trip w) w))
  /\ ((forall s : string, value <> JString s) -> value <> JNull ->
      GetTotalDifficulty w
        = Done (None, Some (UnmarshalTypeError ErrNonString)) (logged (td_trip w) w))
  /\ (forall (s : string) (e : hexutil_error),
        value = JString s -> Big_UnmarshalText s = inl e ->
        GetTotalDifficulty w
          = Done (None, Some (UnmarshalTypeError e)) (logged (td_trip w) w)).
Proof.
  intros Hreply Hheader Hkey Hpre.
  rewrite (GetTotalDifficulty_run _ _ _ Hreply Hheader).
  rewrite (TD_decode_fields_at _ _ _ _ _ Hkey Hpre).
  assert (Hfail : forall e : error,
            value <> JNull -> Big_UnmarshalJSON value = inl e ->
            match
              match value with
              | JNull => TD_decode_fields post {| TotalDifficulty := None |}
              | _ =>
                  match Big_UnmarshalJSON value with
                  | inl e0 =>
                      ({| TotalDifficulty :=
                            Some (default 0 (TotalDifficulty zero_value)) |}, Some e0)
                  | inr v => TD_decode_fields post {| TotalDifficulty := Some v |}
                  end
              end
            with
            | (td, None) => Done (TotalDifficulty td, None) (logged (td_trip w) w)
            | (_, Some e0) => Done (None, Some e0) (logged (td_trip w) w)
            end = Done (None, Some e) (logged (td_trip w) w)).
  { intros e Hnull Hbad. destruct value; try contradiction; now rewrite Hbad. }
  split; [| split; [| split]].
  - intros -> Hpost. now rewrite TD_decode_fields_lacking.
  - exact Hfail.
  - intros Hnostring Hnull. apply Hfail; [exact Hnull |].
    destruct value; try reflexivity. now destruct (Hnostring s).
  - intros s e -> Htext. apply Hfail; [discriminate |].
    cbn [Big_UnmarshalJSON]. now rewrite Htext.
Qed.

(** *** What holds after any sequence of calls *)

Lemma decodeNibble_range (ch : ascii) (d : Z) :
  decodeNibble ch = Some d -> 0 <= d < 16.
Proof.
  unfold decodeNibble.
  repeat match goal with
         | |- context [if ?b then _ else _] => destruct b eqn:?
         end; intros Heq; inversion Heq; subst; lia.
Qed.

Lemma decode_nibbles_range (raw : list ascii) :
  forall acc v : Z,
    0 <= acc -> decode_nibbles acc raw = Some v ->
    0 <= v < (acc + 1) * 16 ^ Z.of_nat (length raw).
Proof.
  induction raw as [| ch raw IH]; intros acc v Hacc Hdec; simpl in Hdec.
  - inversion Hdec; subst. simpl. lia.
  - destruct (decodeNibble ch) as [d |] eqn:Hd; [| discriminate].
    apply decodeNibble_range in Hd.
    apply IH in Hdec; [| lia].
    cbn [length]. rewrite Nat2Z.inj_succ, Z.pow_succ_r by lia.
    assert (0 < 16 ^ Z.of_nat (length raw)) by (apply Z.pow_pos_nonneg; lia).
    nia.
Qed.

(** The number [NonceAt] returns is a [uint64]. *)
Lemma NonceAt_range (account : Address) (blockNumber : option Z) (w w' : World)
  (nonce : Z) (err : option error) :
  NonceAt account blockNumber w = Done (nonce, err) w' -> 0 <= nonce < uint64_modulus.
Proof.
  unfold NonceAt, bind, this, CallContext, ret.
  destruct (node_reply (wire w) _) as [msg | raw].
  - intros Heq. inversion Heq. unfold uint64_modulus. lia.
  - cbn [json_Unmarshal Unmarshal_Uint64]. unfold Uint64_UnmarshalJSON.
    assert (H0 : 0 <= 0 < uint64_modulus) by (unfold uint64_modulus; lia).
    destruct raw; try (intros Heq; inversion Heq; exact H0).
    destruct (checkNumberText (list_ascii_of_string s)) as [e | digits];
      [intros Heq; inversion Heq; exact H0 |].
    destruct (Z.ltb_spec 16 (Z.of_nat (length digits))) as [Hlong | Hshort];
      [intros Heq; inversion Heq; exact H0 |].
    destruct (decode_nibbles 0 digits) as [v |] eqn:Hdec;
      [| intros Heq; inversion Heq; exact H0].
    intros Heq. inversion Heq; subst.
    apply decode_nibbles_range in Hdec; [| lia].
    assert (16 ^ Z.of_nat (length digits) <= 16 ^ 16)
      by (apply Z.pow_le_mono_r; lia).
    unfold uint64_modulus. change (2 ^ 64) with (16 ^ 16). lia.
Qed.

Lemma GetTotalDifficulty_world (w w' : World) (r : option Z * option error) :
  GetTotalDifficulty w = Done r w' -> w' = logged (td_trip w) w.
Proof.
  unfold GetTotalDifficulty, bind, this, CallContext, deref, ret.
  destruct (node_reply (wire w) _) as [msg | raw].
  - intros Heq. inversion Heq. reflexivity.
  - destruct (json_Unmarshal raw None) as [[tdh |] [e |]];
      intros Heq; inversion Heq; reflexivity.
Qed.

(** The nonce [GetNextAccountNonce] returns with a nil error is a
    [uint64]. *)
Lemma GetNextAccountNonce_range (account : Address) (w w' : World) (nonce : Z) :
  GetNextAccountNonce account w = Done (nonce, None) w' -> 0 <= nonce < uint64_modulus.
Proof.
  intros Hrun.
  destruct (HeaderByNumber_total None w) as [[header err] Hhead].
  destruct err as [e |].
  - rewrite (GetNextAccountNonce_head_error _ _ _ _ _ Hhead) in Hrun. discriminate Hrun.
  - pose proof (HeaderByNumber_header _ _ _ _ Hhead) as Hsome.
    destruct header as [head |]; [| contradiction].
    rewrite (GetNextAccountNonce_run _ _ _ _ Hhead) in Hrun.
    destruct (NonceAt_run account (Header_Number head)
                (logged (head_trip None w) w)) as (n & err & Hnonce).
    pose proof (NonceAt_range _ _ _ _ _ _ Hnonce) as Hrange.
    rewrite Hnonce in Hrun.
    assert (Hinc : forall x : Z, 0 <= uint64_inc x < uint64_modulus).
    { intros x. unfold uint64_inc. apply Z.mod_pos_bound. reflexivity. }
    destruct (accTxInfoMap (client (logged (head_trip None w) w)) !! account)
      as [[accTxInfo |] |];
      [destruct ((PreviousBlock accTxInfo =? Header_Hash head)
                 || (PreviousBlock accTxInfo =? Header_ParentHash head)) | |];
      destruct err; inversion Hrun; subst; first [apply Hinc | exact Hrange].
Qed.

(** A step that keeps the configuration and the rpc clients, leaves a
    well-formed cache and adds round trips in order keeps the world in
    order. *)
Lemma world_in_order_step (secret : list Byte.byte) (terminal : option Z)
  (w w' : World) (trips : list WireCall) :
  world_in_order secret terminal w ->
  JWTSecretBytes (client w') = JWTSecretBytes (client w) ->
  ttd (client w') = ttd (client w) ->
  cEth (client w') = cEth (client w) ->
  endpoint (c (client w')) = endpoint (c (client w)) ->
  bearer_only secret (headers (c (client w'))) ->
  cache_well_formed (accTxInfoMap (client w')) ->
  wire w' = wire w ++ trips ->
  Forall (trip_in_order secret) trips ->
  world_in_order secret terminal w'.
Proof.
  intros (Hs & Ht & He & Hc & Hb & Hm & Hw) Hs' Ht' He' Hc' Hb' Hm' Hw' Htrips.
  unfold world_in_order.
  do 4 (split; [congruence |]).
  split; [exact Hb' |]. split; [exact Hm' |].
  rewrite Hw'. apply Forall_app. now split.
Qed.

Lemma bearer_only_authorized (secret : list Byte.byte) (terminal : option Z)
  (now : Time) (w : World) :
  world_in_order secret terminal w ->
  bearer_only secret (headers (engine_client now w))
  /\ endpoint (engine_client now w) = EnginePort.
Proof.
  intros (Hs & _ & _ & Hc & Hb & _).
  destruct (GetNewToken (JWTSecretBytes (client w)) now) as [tok [e |]] eqn:Hsign;
    [now split |].
  split; [| exact Hc].
  cbn [client c set_c SetHeader headers].
  intros key value Hlookup.
  destruct (decide (key = "Authorization"%string)) as [-> | Hne].
  - rewrite lookup_insert_eq in Hlookup. injection Hlookup as <-.
    split; [reflexivity |]. exists now, tok. rewrite <- Hs. now split.
  - rewrite lookup_insert_ne in Hlookup by congruence. now apply Hb.
Qed.

Lemma authorized_kept (now : Time) (w : World) :
  JWTSecretBytes (client (authorized now w)) = JWTSecretBytes (client w)
  /\ ttd (client (authorized now w)) = ttd (client w)
  /\ cEth (client (authorized now w)) = cEth (client w)
  /\ accTxInfoMap (client (authorized now w)) = accTxInfoMap (client w).
Proof.
  destruct (GetNewToken (JWTSecretBytes (client w)) now) as [tok [e |]];
    repeat split; reflexivity.
Qed.

(** The step of a privileged call: the token is prepared, fields of the
    call memory are assigned, and one round trip is made on the engine rpc
    client. *)
Ltac privileged_step secret terminal now w Hin :=
  let Hb' := fresh "Hb'" in
  let Hc' := fresh "Hc'" in
  let K1 := fresh "K1" in
  let K2 := fresh "K2" in
  let K3 := fresh "K3" in
  let K4 := fresh "K4" in
  destruct (bearer_only_authorized secret terminal now w Hin) as [Hb' Hc'];
  destruct (authorized_kept now w) as (K1 & K2 & K3 & K4);
  pose proof Hin as (_ & _ & _ & ? & _ & ? & _);
  eapply world_in_order_step;
  [ exact Hin
  | exact K1
  | exact K2
  | exact K3
  | cbn; congruence
  | exact Hb'
  | cbn; rewrite K4; assumption
  | cbn [wire]; reflexivity
  | constructor; [split; [exact Hc' | exact Hb'] | constructor] ].

(** Each call keeps the world in order. *)
Lemma perform_in_order (secret : list Byte.byte) (terminal : option Z)
  (op : Operation) (w w' : World) :
  world_in_order secret terminal w -> perform op w = Some w' ->
  world_in_order secret terminal w'.
Proof.
  intros Hin Hstep.
  pose proof Hin as (Hs & Ht & He & Hc & Hb & Hm & Hw).
  destruct op as [now fcState pAttributes | now payloadId | now payload | tConf
                 | number | | account]; cbn [perform] in Hstep.
  - destruct (ForkchoiceUpdatedV1_effect now fcState pAttributes w)
      as (result & err & Hrun & _).
    rewrite Hrun in Hstep. injection Hstep as <-.
    privileged_step secret terminal now w Hin.
  - destruct (GetPayloadV1_effect now payloadId w) as (result & err & Hrun).
    rewrite Hrun in Hstep. injection Hstep as <-.
    privileged_step secret terminal now w Hin.
  - destruct (NewPayloadV1_effect now payload w) as (result & err & Hrun & _).
    rewrite Hrun in Hstep. injection Hstep as <-.
    privileged_step secret terminal now w Hin.
  - destruct (ExchangeTransitionConfigurationV1_effect tConf w) as (result & err & Hrun).
    rewrite Hrun in Hstep. injection Hstep as <-.
    apply (world_in_order_step secret terminal w _
             [round_trip (c (client w)) (engine_exchangeTransitionConfigurationV1 tConf)]
             Hin); try reflexivity; try assumption.
    constructor; [split; assumption | constructor].
  - destruct (HeaderByNumber number w) as [r w0 |] eqn:Hrun; [| discriminate].
    injection Hstep as <-.
    rewrite (HeaderByNumber_world _ _ _ _ Hrun).
    apply (world_in_order_step secret terminal w _ [head_trip number w] Hin);
      try reflexivity; try assumption.
    constructor; [| constructor]. unfold trip_in_order. cbn. now rewrite He.
  - destruct (GetTotalDifficulty w) as [r w0 |] eqn:Hrun; [| discriminate].
    injection Hstep as <-.
    rewrite (GetTotalDifficulty_world _ _ _ Hrun).
    apply (world_in_order_step secret terminal w _ [td_trip w] Hin);
      try reflexivity; try assumption.
    constructor; [| constructor]. unfold trip_in_order. cbn. now rewrite He.
  - destruct (GetNextAccountNonce account w) as [r w0 |] eqn:Hrun; [| discriminate].
    injection Hstep as ->.
    destruct (GetNextAccountNonce_effect account w)
      as (r0 & w1 & Hrun0 & Hclient & Hwire).
    rewrite Hrun0 in Hrun. inversion Hrun; subst r0 w1.
    assert (Htrips : exists trips,
              wire w' = wire w ++ trips /\ Forall (trip_in_order secret) trips).
    { destruct Hwire as [Hwire | (blockNumber & Hwire)]; eexists; (split; [exact Hwire |]);
        repeat (constructor; [unfold trip_in_order; cbn; now rewrite He |]);
        constructor. }
    destruct Htrips as (trips & Hw' & Htrips).
    destruct Hclient as [[_ Hsame] | (head & _ & Hnil & Hcache)].
    + apply (world_in_order_step secret terminal w _ trips Hin);
        try (now rewrite Hsame); assumption.
    + apply (world_in_order_step secret terminal w _ trips Hin);
        try (now rewrite Hcache); try assumption.
      rewrite Hcache. cbn [accTxInfoMap set_accTxInfoMap].
      intros a entry Hlookup.
      destruct (decide (a = account)) as [-> | Hne].
      * rewrite lookup_insert_eq in Hlookup. injection Hlookup as <-.
        eexists. split; [reflexivity |]. cbn [PreviousNonce].
        destruct r as [nonce err]. cbn in Hnil. subst err.
        exact (GetNextAccountNonce_range _ _ _ _ Hrun0).
      * rewrite lookup_insert_ne in Hlookup by congruence. exact (Hm a entry Hlookup).
Qed.

Lemma perform_all_in_order (secret : list Byte.byte) (terminal : option Z)
  (ops : list Operation) :
  forall w w' : World,
    world_in_order secret terminal w -> perform_all ops w = Some w' ->
    world_in_order secret terminal w'.
Proof.
  induction ops as [| op ops IH]; intros w w' Hin Hrun; cbn [perform_all] in Hrun.
  - now injection Hrun as <-.
  - destruct (perform op w) as [w1 |] eqn:Hstep; [| discriminate].
    exact (IH _ _ (perform_in_order _ _ _ _ _ Hin Hstep) Hrun).
Qed.

Lemma new_world_in_order (secret : list Byte.byte) (terminal : option Z) :
  world_in_order secret terminal (new_world secret terminal).
Proof.
  unfold world_in_order, new_world. cbn.
  do 4 (split; [reflexivity |]).
  split; [| split].
  - intros key value Hlookup. now rewrite lookup_empty in Hlookup.
  - intros a entry Hlookup. now rewrite lookup_empty in Hlookup.
  - constructor.
Qed.

(** X14.  After any sequence of calls on a client made by
    [NewHiveRPCEngineClient], the client has the secret and the terminal
    total difficulty it was made with, its eth rpc client has no header,
    and its engine rpc client has at most the header [Authorization], a
    bearer token signed with that secret. *)
Theorem configuration_kept (secret : list Byte.byte) (terminal : option Z)
  (ops : list Operation) (w : World) :
  perform_all ops (new_world secret terminal) = Some w ->
  JWTSecretBytes (client w) = secret
  /\ TerminalTotalDifficulty (client w) = terminal
  /\ cEth (client w) = {| endpoint := EthPort; headers := ∅ |}
  /\ endpoint (c (client w)) = EnginePort
  /\ bearer_only secret (headers (c (client w))).
Proof.
  intros Hrun.
  destruct (perform_all_in_order _ _ _ _ _ (new_world_in_order secret terminal) Hrun)
    as (Hs & Ht & He & Hc & Hb & _).
  exact (conj Hs (conj Ht (conj He (conj Hc Hb)))).
Qed.

(** X15.  After any sequence of calls on a new client, the nonce cache
    holds no nil pointer, and every nonce in it is a [uint64]. *)
Theorem cache_kept_well_formed (secret : list Byte.byte) (terminal : option Z)
  (ops : list Operation) (w : World) :
  perform_all ops (new_world secret terminal) = Some w ->
  cache_well_formed (accTxInfoMap (client w)).
Proof.
  intros Hrun.
  now destruct (perform_all_in_order _ _ _ _ _ (new_world_in_order secret terminal) Hrun)
    as (_ & _ & _ & _ & _ & Hm & _).
Qed.

(** *** Sequences that also prepare tokens *)

Lemma bearer_of_more (secrets more : list (list Byte.byte)) (hs : gmap string string) :
  (forall secret, In secret secrets -> In secret more) ->
  bearer_of secrets hs -> bearer_of more hs.
Proof.
  intros Hsub Hb key value Hlookup.
  destruct (Hb key value Hlookup) as (Hkey & secret & iat & tok & Hin & Hsign & Hvalue).
  split; [exact Hkey |]. exists secret, iat, tok. split; [now apply Hsub | now split].
Qed.

Lemma trip_placed_more (secrets more : list (list Byte.byte)) (trip : WireCall) :
  (forall secret, In secret secrets -> In secret more) ->
  trip_placed secrets trip -> trip_placed more trip.
Proof.
  intros Hsub. unfold trip_placed.
  destruct (wire_request trip); intros [He Hh]; (split; [exact He |]);
    solve [exact Hh | exact (bearer_of_more _ _ _ Hsub Hh)].
Qed.

Lemma world_placed_more (secrets more : list (list Byte.byte)) (w : World) :
  (forall secret, In secret secrets -> In secret more) ->
  world_placed secrets w -> world_placed more w.
Proof.
  intros Hsub (He & Hc & Hs & Hb & Hw).
  split; [exact He |]. split; [exact Hc |]. split; [now apply Hsub |].
  split; [exact (bearer_of_more _ _ _ Hsub Hb) |].
  eapply Forall_impl; [exact Hw |]. intros trip. now apply trip_placed_more.
Qed.

(** A step that keeps the eth rpc client, the port of the engine rpc
    client and the secret, leaves headers in order and adds round trips in
    order. *)
Lemma world_placed_step (secrets : list (list Byte.byte)) (w w' : World)
  (trips : list WireCall) :
  world_placed secrets w ->
  cEth (client w') = cEth (client w) ->
  endpoint (c (client w')) = endpoint (c (client w)) ->
  JWTSecretBytes (client w') = JWTSecretBytes (client w) ->
  bearer_of secrets (headers (c (client w'))) ->
  wire w' = wire w ++ trips ->
  Forall (trip_placed secrets) trips ->
  world_placed secrets w'.
Proof.
  intros (He & Hc & Hs & Hb & Hw) He' Hc' Hs' Hb' Hw' Htrips.
  unfold world_placed.
  split; [congruence |]. split; [congruence |]. split; [now rewrite Hs' |].
  split; [exact Hb' |]. rewrite Hw'. apply Forall_app. now split.
Qed.

(** Setting a bearer token signed with one of the secrets keeps the
    headers in order. *)
Lemma bearer_of_set (secrets : list (list Byte.byte)) (secret : list Byte.byte)
  (iat : Time) (tokenString : string) (rc : rpc_Client) :
  In secret secrets ->
  GetNewToken secret iat = (tokenString, None) ->
  bearer_of secrets (headers rc) ->
  bearer_of secrets (headers (SetHeader "Authorization" ("Bearer " ++ tokenString) rc)).
Proof.
  intros Hin Hsign Hb key value Hlookup. cbn [SetHeader headers] in Hlookup.
  destruct (decide (key = "Authorization"%string)) as [-> | Hne].
  - rewrite lookup_insert_eq in Hlookup. injection Hlookup as <-.
    split; [reflexivity |]. exists secret, iat, tokenString. now split.
  - rewrite lookup_insert_ne in Hlookup by congruence. now apply Hb.
Qed.

Lemma PrepareAuthCallToken_run (jwtSecretBytes : list Byte.byte) (iat : Time) (w : World) :
  PrepareAuthCallToken jwtSecretBytes iat w =
    match GetNewToken jwtSecretBytes iat with
    | (newTokenString, None) =>
        Done None
          {| client :=
               set_c (SetHeader "Authorization" ("Bearer " ++ newTokenString) (c (client w)))
                     (client w);
             wire := wire w |}
    | (_, Some e) => Done (Some e) w
    end.
Proof.
  unfold PrepareAuthCallToken, bind, this, assign, ret.
  destruct (GetNewToken jwtSecretBytes iat) as [tok [e |]]; reflexivity.
Qed.

(** The world after the token of a privileged call was prepared. *)
Lemma authorized_placed (secrets : list (list Byte.byte)) (now : Time) (w : World) :
  world_placed secrets w ->
  world_placed secrets (authorized now w)
  /\ wire (authorized now w) = wire w.
Proof.
  intros Hin. pose proof Hin as (He & Hc & Hs & Hb & Hw).
  destruct (GetNewToken (JWTSecretBytes (client w)) now) as [tok [e |]] eqn:Hsign;
    [now split |].
  split; [| reflexivity].
  apply (world_placed_step secrets w _ [] Hin); try reflexivity.
  - cbn [client c set_c]. now apply (bearer_of_set secrets (JWTSecretBytes (client w)) now tok).
  - cbn [wire]. now rewrite app_nil_r.
  - constructor.
Qed.

(** Each call of [Operation] keeps the world in order. *)
Lemma perform_placed (secrets : list (list Byte.byte)) (op : Operation) (w w' : World) :
  world_placed secrets w -> perform op w = Some w' -> world_placed secrets w'.
Proof.
  intros Hin Hstep.
  pose proof Hin as (He & Hc & Hs & Hb & Hw).
  destruct op as [now fcState pAttributes | now payloadId | now payload | tConf
                 | number | | account]; cbn [perform] in Hstep.
  - destruct (ForkchoiceUpdatedV1_effect now fcState pAttributes w)
      as (result & err & Hrun & _).
    rewrite Hrun in Hstep. injection Hstep as <-.
    destruct (authorized_placed secrets now w Hin) as [Hauth Hwire].
    pose proof Hauth as (_ & Hc' & _ & Hb' & _).
    apply (world_placed_step secrets (authorized now w) _
             [round_trip (engine_client now w)
                (engine_forkchoiceUpdatedV1 fcState pAttributes)] Hauth);
      try reflexivity; try assumption.
    + cbn [wire]. now rewrite Hwire.
    + constructor; [split; assumption | constructor].
  - destruct (GetPayloadV1_effect now payloadId w) as (result & err & Hrun).
    rewrite Hrun in Hstep. injection Hstep as <-.
    destruct (authorized_placed secrets now w Hin) as [Hauth Hwire].
    pose proof Hauth as (_ & Hc' & _ & Hb' & _).
    apply (world_placed_step secrets (authorized now w) _
             [round_trip (engine_client now w) (engine_getPayloadV1 payloadId)] Hauth);
      try reflexivity; try assumption.
    + cbn [wire]. now rewrite Hwire.
    + constructor; [split; assumption | constructor].
  - destruct (NewPayloadV1_effect now payload w) as (result & err & Hrun & _).
    rewrite Hrun in Hstep. injection Hstep as <-.
    destruct (authorized_placed secrets now w Hin) as [Hauth Hwire].
    pose proof Hauth as (_ & Hc' & _ & Hb' & _).
    apply (world_placed_step secrets (authorized now w) _
             [round_trip (engine_client now w) (engine_newPayloadV1 payload)] Hauth);
      try reflexivity; try assumption.
    + cbn [wire]. now rewrite Hwire.
    + constructor; [split; assumption | constructor].
  - destruct (ExchangeTransitionConfigurationV1_effect tConf w) as (result & err & Hrun).
    rewrite Hrun in Hstep. injection Hstep as <-.
    apply (world_placed_step secrets w _
             [round_trip (c (client w)) (engine_exchangeTransitionConfigurationV1 tConf)]
             Hin); try reflexivity; try assumption.
    constructor; [split; assumption | constructor].
  - destruct (HeaderByNumber number w) as [r w0 |] eqn:Hrun; [| discriminate].
    injection Hstep as <-.
    rewrite (HeaderByNumber_world _ _ _ _ Hrun).
    apply (world_placed_step secrets w _ [head_trip number w] Hin);
      try reflexivity; try assumption.
    constructor; [| constructor]. unfold trip_placed. cbn. now rewrite He.
  - destruct (GetTotalDifficulty w) as [r w0 |] eqn:Hrun; [| discriminate].
    injection Hstep as <-.
    rewrite (GetTotalDifficulty_world _ _ _ Hrun).
    apply (world_placed_step secrets w _ [td_trip w] Hin);
      try reflexivity; try assumption.
    constructor; [| constructor]. unfold trip_placed. cbn. now rewrite He.
  - destruct (GetNextAccountNonce account w) as [r w0 |] eqn:Hrun; [| discriminate].
    injection Hstep as ->.
    destruct (GetNextAccountNonce_effect account w)
      as (r0 & w1 & Hrun0 & Hclient & Hwire).
    rewrite Hrun0 in Hrun. inversion Hrun; subst r0 w1.
    assert (Htrips : exists trips,
              wire w' = wire w ++ trips /\ Forall (trip_placed secrets) trips).
    { destruct Hwire as [Hwire | (blockNumber & Hwire)]; eexists; (split; [exact Hwire |]);
        repeat (constructor; [unfold trip_placed; cbn; now rewrite He |]);
        constructor. }
    destruct Htrips as (trips & Hw' & Htrips).
    destruct Hclient as [[_ Hsame] | (head & _ & _ & Hcache)].
    + apply (world_placed_step secrets w _ trips Hin);
        try (now rewrite Hsame); assumption.
    + apply (world_placed_step secrets w _ trips Hin);
        try (now rewrite Hcache); assumption.
Qed.

(** Each call keeps the world in order, for the secrets so far and the one
    it is given. *)
Lemma perform_call_placed (secrets : list (list Byte.byte)) (call : Call) (w w' : World) :
  world_placed secrets w -> perform_call call w = Some w' ->
  world_placed (secrets ++ secrets_given [call]) w'.
Proof.
  intros Hin Hstep.
  destruct call as [op | jwtSecretBytes iat | now]; cbn [perform_call secrets_given] in *.
  - rewrite app_nil_r. exact (perform_placed _ _ _ _ Hin Hstep).
  - assert (Hmore : world_placed (secrets ++ [jwtSecretBytes]) w).
    { apply (world_placed_more secrets); [| exact Hin].
      intros secret Hsecret. apply in_or_app. now left. }
    rewrite PrepareAuthCallToken_run in Hstep.
    destruct (GetNewToken jwtSecretBytes iat) as [tok [e |]] eqn:Hsign;
      injection Hstep as <-; [exact Hmore |].
    pose proof Hmore as (_ & _ & _ & Hb & _).
    apply (world_placed_step _ w _ [] Hmore); try reflexivity.
    + cbn [client c set_c]. apply (bearer_of_set _ jwtSecretBytes iat tok);
        [apply in_or_app; right; now left | exact Hsign | exact Hb].
    + cbn [wire]. now rewrite app_nil_r.
    + constructor.
  - rewrite app_nil_r. rewrite PrepareDefaultAuthCallToken_run in Hstep.
    injection Hstep as <-. exact (proj1 (authorized_placed secrets now w Hin)).
Qed.

Lemma secrets_given_cons (call : Call) (calls : list Call) :
  secrets_given (call :: calls) = secrets_given [call] ++ secrets_given calls.
Proof. destruct call; reflexivity. Qed.

Lemma perform_calls_placed (calls : list Call) :
  forall (secrets : list (list Byte.byte)) (w w' : World),
    world_placed secrets w -> perform_calls calls w = Some w' ->
    world_placed (secrets ++ secrets_given calls) w'.
Proof.
  induction calls as [| call calls IH]; intros secrets w w' Hin Hrun;
    cbn [perform_calls] in Hrun.
  - injection Hrun as <-. cbn [secrets_given]. now rewrite app_nil_r.
  - destruct (perform_call call w) as [w1 |] eqn:Hstep; [| discriminate].
    rewrite secrets_given_cons, app_assoc.
    exact (IH _ _ _ (perform_call_placed _ _ _ _ Hin Hstep) Hrun).
Qed.

(** X16.  After any sequence of the calls [ForkchoiceUpdatedV1],
    [GetPayloadV1], [NewPayloadV1], [ExchangeTransitionConfigurationV1],
    [HeaderByNumber], [GetTotalDifficulty], [GetNextAccountNonce],
    [PrepareAuthCallToken] and [PrepareDefaultAuthCallToken] on a new
    client, every round trip made went where its method belongs: the
    [eth_] methods to the eth port and without header, so that no token
    is sent there; the [engine_] methods to the engine port, with at most
    the header [Authorization], a bearer token signed with the secret of
    the client or with a secret given to [PrepareAuthCallToken] in the
    sequence. *)
Theorem calls_round_trips_placed (secret : list Byte.byte) (terminal : option Z)
  (calls : list Call) (w : World) :
  perform_calls calls (new_world secret terminal) = Some w ->
  Forall (trip_placed (secret :: secrets_given calls)) (wire w).
Proof.
  intros Hrun.
  assert (Hnew : world_placed [secret] (new_world secret terminal)).
  { unfold world_placed, new_world. cbn.
    split; [reflexivity |]. split; [reflexivity |]. split; [now left |].
    split; [| constructor].
    intros key value Hlookup. now rewrite lookup_empty in Hlookup. }
  now destruct (perform_calls_placed calls _ _ _ Hnew Hrun) as (_ & _ & _ & _ & Hw).
Qed.

End MoreClientProperties.

(** ** Starting a client *)

Section StartClientProperties.
Context {G : Geth} {H : Starter.Hive}.
Import Starter.

Lemma enode_urls_ok (bootClients : list (string * option string)) (enodes : list string) :
  enode_urls bootClients = inr enodes ->
  enodes = map fst bootClients /\ Forall (fun b => snd b = None) bootClients.
Proof.
  revert enodes.
  induction bootClients as [| [enode [err |]] rest IH]; intros enodes Heq; simpl in Heq.
  - injection Heq as <-. split; [reflexivity | constructor].
  - discriminate Heq.
  - destruct (enode_urls rest) as [err | urls]; [discriminate |].
    injection Heq as <-. destruct (IH urls eq_refl) as [-> Hall].
    split; [reflexivity |]. constructor; [reflexivity | exact Hall].
Qed.

Lemma enode_urls_error (bootClients : list (string * option string)) (err : string) :
  enode_urls bootClients = inl err ->
  exists (before after : list (string * option string)) (enode : string),
    bootClients = before ++ (enode, Some err) :: after
    /\ Forall (fun b => snd b = None) before.
Proof.
  induction bootClients as [| [enode [e |]] rest IH]; intros Heq; simpl in Heq.
  - discriminate Heq.
  - injection Heq as ->. exists [], rest, enode. split; [reflexivity | constructor].
  - destruct (enode_urls rest) as [e | urls] eqn:Hrest; [| discriminate].
    injection Heq as ->.
    destruct (IH eq_refl) as (before & after & enode' & -> & Hall).
    exists ((enode, None) :: before), after, enode'.
    split; [reflexivity |]. constructor; [reflexivity | exact Hall].
Qed.


(** The next phase of [StartClient] that can fail. *)
Ltac phase e v Hphase :=
  match goal with
  | |- context [match ?x with inl _ => _ | inr _ => _ end] =>
      destruct x as [e | v] eqn:Hphase
  end.

(** An error found before the launch is not the error of the port check. *)
Ltac early_error Hphase :=
  repeat match type of Hphase with
         | context [match ?x with _ => _ end] => destruct x
         | context [if ?b then _ else _] => destruct b
         end;
  inversion Hphase; reflexivity.

(** The launches, by result. *)
Lemma StartClient_launch_count (s : HiveRPCEngineStarter)
  (ClientParams ClientFiles : gmap string string)
  (bootClients : list (string * option string)) :
  match StartClient s ClientParams ClientFiles bootClients with
  | (launches, StartOk _) => exists launch, launches = [launch]
  | (launches, TestStopped) => exists launch, launches = [launch]
  | (launches, StartFailed (ErrPortsNeverOpen _)) => exists launch, launches = [launch]
  | (launches, StartFailed _) => launches = []
  end.
Proof.
  unfold StartClient. cbv zeta.
  phase e clientType Hresolved; [early_error Hresolved |].
  match goal with
  | |- context [match ?x with Some _ => _ | None => _ end] =>
      destruct x as [genesis |] eqn:Hgenesis; [| reflexivity]
  end.
  phase e configured Hconfigured; [early_error Hconfigured |].
  destruct configured as [terminal params].
  phase e booted Hbooted; [early_error Hbooted |].
  destruct (T_StartClient clientType booted _) as [c |]; [| eauto].
  destruct (CheckEthEngineLive c); eauto.
Qed.

(** The same in a hypothesis. *)
Ltac phase_in Hrun e v Hphase :=
  match type of Hrun with
  | context [match ?x with inl _ => _ | inr _ => _ end] =>
      destruct x as [e | v] eqn:Hphase
  end.

(** The files the container is given: the chain file is added. *)
#[warnings="-inconsistent-scopes"]
Local Abbreviation chain_files s ClientFiles :=
  (if String.eqb (ChainFile s) EmptyString then ClientFiles
   else <["/chain.rlp"%string := ("./chains/" ++ ChainFile s)%string]> ClientFiles).

(** What a call that launched a container went through. *)
Lemma StartClient_launched (s : HiveRPCEngineStarter)
  (ClientParams ClientFiles : gmap string string)
  (bootClients : list (string * option string))
  (launch : Launch) (launches : list Launch) (result : StartResult) :
  StartClient s ClientParams ClientFiles bootClients = (launch :: launches, result) ->
  exists (genesis : string) (terminal : option Z) (params : gmap string string),
    launches = []
    /\ chain_files s ClientFiles !! "/genesis.json"%string = Some genesis
    /\ launch_files launch = chain_files s ClientFiles
    /\ (ClientType s <> EmptyString /\ launch_type launch = ClientType s
        \/ ClientType s = EmptyString
           /\ exists rest, Sim_ClientTypes = (launch_type launch :: rest, None))
    /\ match TerminalTotalDifficulty s with
       | Some v =>
           terminal = Some v
           /\ params = <["HIVE_TERMINAL_TOTAL_DIFFICULTY"%string
                          := Sprintf_d (CalculateRealTTD genesis (big_Int64 v))]>
                         ClientParams
       | None =>
           params = ClientParams
           /\ match ClientParams !! "HIVE_TERMINAL_TOTAL_DIFFICULTY"%string with
              | Some ttdStr => exists v, big_SetString10 ttdStr = Some v /\ terminal = Some v
              | None => terminal = None
              end
       end
    /\ match bootClients with
       | [] => launch_params launch = params
       | _ :: _ =>
           enode_urls bootClients = inr (map fst bootClients)
           /\ launch_params launch
              = <["HIVE_BOOTNODE"%string := String.concat "," (map fst bootClients)]> params
       end
    /\ result =
         match T_StartClient (launch_type launch) (launch_params launch)
                 (launch_files launch) with
         | None => TestStopped
         | Some c =>
             match CheckEthEngineLive c with
             | Some err => StartFailed (ErrPortsNeverOpen err)
             | None =>
                 StartOk
                   {| started_h := c;
                      started_enginePort :=
                        if EnginePort s =? 0 then EnginePortHTTP else EnginePort s;
                      started_ethPort :=
                        if EthPort s =? 0 then EthPortHTTP else EthPort s;
                      started_ec :=
                        NewHiveRPCEngineClient
                          (default DefaultJwtTokenSecretBytes (JWTSecret s)) terminal |}
             end
         end.
Proof.
  unfold StartClient. cbv zeta. intros Hrun.
  phase_in Hrun e clientType Hresolved; [discriminate Hrun |].
  destruct (chain_files s ClientFiles !! "/genesis.json"%string) as [genesis |] eqn:Hgenesis;
    [| discriminate Hrun].
  phase_in Hrun e configured Hconfigured; [discriminate Hrun |].
  destruct configured as [terminal params].
  phase_in Hrun e booted Hbooted; [discriminate Hrun |].
  assert (Hlaunch :
    launch = {| launch_type := clientType; launch_params := booted;
                launch_files := chain_files s ClientFiles |}
    /\ launches = []).
  { destruct (T_StartClient clientType booted _) as [c |];
      [destruct (CheckEthEngineLive c) |]; inversion Hrun; now split. }
  destruct Hlaunch as [-> ->]. cbn [launch_type launch_params launch_files].
  exists genesis, terminal, params.
  split; [reflexivity |]. split; [reflexivity |]. split; [reflexivity |].
  split; [| split; [| split]].
  - destruct (String.eqb_spec (ClientType s) EmptyString) as [Hempty | Hgiven].
    + right. split; [exact Hempty |].
      destruct Sim_ClientTypes as [[| name rest] [err |]]; inversion Hresolved.
      eauto.
    + left. split; [exact Hgiven | now inversion Hresolved].
  - destruct (TerminalTotalDifficulty s) as [v |].
    + inversion Hconfigured. now split.
    + destruct (ClientParams !! "HIVE_TERMINAL_TOTAL_DIFFICULTY"%string) as [ttdStr |].
      * destruct (big_SetString10 ttdStr) as [v |] eqn:Hparse; inversion Hconfigured.
        split; [reflexivity | eauto].
      * inversion Hconfigured. now split.
  - destruct bootClients as [| bootClient rest].
    + now inversion Hbooted.
    + destruct (enode_urls (bootClient :: rest)) as [err | enodes] eqn:Henodes;
        inversion Hbooted.
      destruct (enode_urls_ok _ _ Henodes) as [-> _]. now split.
  - destruct (T_StartClient clientType booted _) as [c |];
      [destruct (CheckEthEngineLive c) |]; now inversion Hrun.
Qed.

Lemma enode_urls_first_error (before after : list (string * option string))
  (enode err : string) :
  Forall (fun b => snd b = None) before ->
  enode_urls (before ++ (enode, Some err) :: after) = inl err.
Proof.
  induction before as [| [e o] before IH]; intros Hall; [reflexivity |].
  inversion Hall as [| ? ? Hnone Hrest]; subst. cbn in Hnone. subst o.
  cbn [app enode_urls]. now rewrite (IH Hrest).
Qed.

Lemma chain_files_other (s : HiveRPCEngineStarter) (ClientFiles : gmap string string)
  (key : string) :
  key <> "/chain.rlp"%string ->
  chain_files s ClientFiles !! key = ClientFiles !! key.
Proof.
  intros Hkey. destruct (String.eqb (ChainFile s) EmptyString); [reflexivity |].
  now apply lookup_insert_ne.
Qed.

(** X17.  [StartClient] launches a container at most once.  When it
    returns a client, and when the test is stopped, it has launched one;
    when it returns an error, it has launched one only if the error is
    that of the port check. *)
Theorem StartClient_launches (s : HiveRPCEngineStarter)
  (ClientParams ClientFiles : gmap string string)
  (bootClients : list (string * option string)) :
  exists (launches : list Launch) (result : StartResult),
    StartClient s ClientParams ClientFiles bootClients = (launches, result)
    /\ (length launches <= 1)%nat
    /\ (forall ec : Started, result = StartOk ec -> length launches = 1%nat)
    /\ (result = TestStopped -> length launches = 1%nat)
    /\ (forall err : start_error,
          result = StartFailed err ->
          (launches = [] <-> forall cause : string, err <> ErrPortsNeverOpen cause)).
Proof.
  pose proof (StartClient_launch_count s ClientParams ClientFiles bootClients) as Hcount.
  destruct (StartClient s ClientParams ClientFiles bootClients) as [launches result].
  exists launches, result. split; [reflexivity |].
  destruct result as [ec | err |].
  - destruct Hcount as [launch ->]. cbn.
    split; [lia |]. split; [reflexivity |]. split; discriminate.
  - split; [| split; [discriminate | split; [discriminate |]]].
    + destruct err; try (subst launches; cbn; lia).
      destruct Hcount as [launch ->]. cbn. lia.
    + intros err' Heq. injection Heq as <-.
      destruct err; try (subst launches; split; [discriminate | reflexivity]).
      destruct Hcount as [launch ->]. split; [discriminate |].
      intros Hnot. now destruct (Hnot cause).
  - destruct Hcount as [launch ->]. cbn.
    split; [lia |]. split; [discriminate |]. split; [reflexivity | discriminate].
Qed.

(** X18.  Without a [/genesis.json] among the client files, [StartClient]
    launches nothing and fails; once the client type is known (given, or
    the first type of the simulator), the error is that of the missing
    genesis file, whatever chain file, parameters and boot clients are
    given. *)
Theorem StartClient_no_genesis (s : HiveRPCEngineStarter)
  (ClientParams ClientFiles : gmap string string)
  (bootClients : list (string * option string)) :
  ClientFiles !! "/genesis.json"%string = None ->
  exists err : start_error,
    StartClient s ClientParams ClientFiles bootClients = ([], StartFailed err)
    /\ (ClientType s <> EmptyString
        \/ (exists name rest, Sim_ClientTypes = (name :: rest, None)) ->
        err = ErrNoGenesisFile).
Proof.
  intros Hmissing.
  assert (Hfiles : chain_files s ClientFiles !! "/genesis.json"%string = None).
  { rewrite chain_files_other by discriminate. exact Hmissing. }
  unfold StartClient. cbv zeta.
  phase e clientType Hresolved.
  - exists e. split; [reflexivity |].
    intros [Hgiven | (name & rest & Hsim)].
    + apply String.eqb_neq in Hgiven. rewrite Hgiven in Hresolved. discriminate.
    + rewrite Hsim in Hresolved.
      destruct (String.eqb (ClientType s) EmptyString); discriminate.
  - rewrite Hfiles. exists ErrNoGenesisFile. now split.
Qed.

Lemma StartClient_ok_launched (s : HiveRPCEngineStarter)
  (ClientParams ClientFiles : gmap string string)
  (bootClients : list (string * option string))
  (launches : list Launch) (ec : Started) :
  StartClient s ClientParams ClientFiles bootClients = (launches, StartOk ec) ->
  exists launch : Launch, launches = [launch].
Proof.
  intros Hrun.
  pose proof (StartClient_launch_count s ClientParams ClientFiles bootClients) as Hcount.
  now rewrite Hrun in Hcount.
Qed.

(** X19.  The client [StartClient] returns is a new client: its call
    memory and its nonce cache are empty and its rpc clients have no
    header.  Its secret is the secret of the starter, or the default
    secret when the starter has none; each of its ports is the port of the
    starter, or the default port when that is zero; and its container is
    the one launched, on which the port check passed. *)
Theorem StartClient_client (s : HiveRPCEngineStarter)
  (ClientParams ClientFiles : gmap string string)
  (bootClients : list (string * option string))
  (launches : list Launch) (ec : Started) :
  StartClient s ClientParams ClientFiles bootClients = (launches, StartOk ec) ->
  JWTSecretBytes (started_ec ec) = default DefaultJwtTokenSecretBytes (JWTSecret s)
  /\ started_enginePort ec = (if EnginePort s =? 0 then EnginePortHTTP else EnginePort s)
  /\ started_ethPort ec = (if EthPort s =? 0 then EthPortHTTP else EthPort s)
  /\ started_ec ec
     = NewHiveRPCEngineClient (JWTSecretBytes (started_ec ec)) (ttd (started_ec ec))
  /\ CallMemory (started_ec ec) = (None, None, None, None, None)
  /\ accTxInfoMap (started_ec ec) = ∅
  /\ (exists launch : Launch,
        launches = [launch]
        /\ T_StartClient (launch_type launch) (launch_params launch) (launch_files launch)
           = Some (started_h ec))
  /\ CheckEthEngineLive (started_h ec) = None.
Proof.
  intros Hrun.
  destruct (StartClient_ok_launched _ _ _ _ _ _ Hrun) as [launch ->].
  destruct (StartClient_launched _ _ _ _ _ _ _ Hrun)
    as (genesis & terminal & params & _ & _ & _ & _ & _ & _ & Hresult).
  destruct (T_StartClient (launch_type launch) (launch_params launch) (launch_files launch))
    as [h |] eqn:Hstart; [| discriminate Hresult].
  destruct (CheckEthEngineLive h) as [err |] eqn:Hlive; [discriminate Hresult |].
  injection Hresult as ->. cbn.
  repeat (split; [reflexivity |]).
  split; [| exact Hlive]. exists launch. now split.
Qed.

(** X20.  The terminal total difficulty.  With a starter that has one,
    the client keeps that number while the container is given, as
    [HIVE_TERMINAL_TOTAL_DIFFICULTY], the real terminal total difficulty
    computed from the genesis file.  With a starter that has none, the
    parameter goes to the container as it came, and the client has the
    number it spells, or none when the parameter is absent; a parameter
    that is no decimal number makes [StartClient] fail before any launch. *)
Theorem StartClient_ttd (s : HiveRPCEngineStarter)
  (ClientParams ClientFiles : gmap string string)
  (bootClients : list (string * option string)) :
  (forall (launches : list Launch) (ec : Started),
     StartClient s ClientParams ClientFiles bootClients = (launches, StartOk ec) ->
     exists launch : Launch,
       launches = [launch]
       /\ match TerminalTotalDifficulty s with
          | Some v =>
              ttd (started_ec ec) = Some v
              /\ exists genesis : string,
                   ClientFiles !! "/genesis.json"%string = Some genesis
                   /\ launch_params launch !! "HIVE_TERMINAL_TOTAL_DIFFICULTY"%string
                      = Some (Sprintf_d (CalculateRealTTD genesis (big_Int64 v)))
          | None =>
              launch_params launch !! "HIVE_TERMINAL_TOTAL_DIFFICULTY"%string
                = ClientParams !! "HIVE_TERMINAL_TOTAL_DIFFICULTY"%string
              /\ ttd (started_ec ec)
                 = ClientParams !! "HIVE_TERMINAL_TOTAL_DIFFICULTY"%string
                     ≫= big_SetString10
          end)
  /\ (forall ttdStr : string,
        TerminalTotalDifficulty s = None ->
        ClientParams !! "HIVE_TERMINAL_TOTAL_DIFFICULTY"%string = Some ttdStr ->
        big_SetString10 ttdStr = None ->
        exists err : start_error,
          StartClient s ClientParams ClientFiles bootClients = ([], StartFailed err)
          /\ (ClientType s <> EmptyString ->
              ClientFiles !! "/genesis.json"%string <> None ->
              err = ErrParseTTD)).
Proof.
  split.
  - intros launches ec Hrun.
    destruct (StartClient_ok_launched _ _ _ _ _ _ Hrun) as [launch ->].
    exists launch. split; [reflexivity |].
    destruct (StartClient_launched _ _ _ _ _ _ _ Hrun)
      as (genesis & terminal & params & _ & Hgenesis & _ & _ & Httd & Hboot & Hresult).
    rewrite chain_files_other in Hgenesis by discriminate.
    assert (Hclient : ttd (started_ec ec) = terminal).
    { destruct (T_StartClient _ _ _) as [h |]; [| discriminate Hresult].
      destruct (CheckEthEngineLive h); [discriminate Hresult |].
      now injection Hresult as ->. }
    assert (Hparam : launch_params launch !! "HIVE_TERMINAL_TOTAL_DIFFICULTY"%string
                     = params !! "HIVE_TERMINAL_TOTAL_DIFFICULTY"%string).
    { destruct bootClients; [now rewrite Hboot |].
      destruct Hboot as [_ ->]. now apply lookup_insert_ne. }
    rewrite Hclient, Hparam.
    destruct (TerminalTotalDifficulty s) as [v |].
    + destruct Httd as [-> ->]. split; [reflexivity |].
      exists genesis. split; [exact Hgenesis | apply lookup_insert_eq].
    + destruct Httd as [-> Hparsed]. split; [reflexivity |].
      destruct (ClientParams !! "HIVE_TERMINAL_TOTAL_DIFFICULTY"%string) as [ttdStr |].
      * destruct Hparsed as (v & Hv & ->). cbn. now rewrite Hv.
      * now subst terminal.
  - intros ttdStr Hnone Hparam Hbad.
    unfold StartClient. cbv zeta.
    phase e clientType Hresolved.
    + exists e. split; [reflexivity |]. intros Hgiven _.
      apply String.eqb_neq in Hgiven. rewrite Hgiven in Hresolved. discriminate.
    + destruct (chain_files s ClientFiles !! "/genesis.json"%string) as [genesis |]
        eqn:Hgenesis.
      * rewrite Hnone, Hparam, Hbad. exists ErrParseTTD. now split.
      * exists ErrNoGenesisFile. split; [reflexivity |]. intros _ Hfile.
        rewrite chain_files_other in Hgenesis by discriminate. contradiction.
Qed.

(** X21.  The boot nodes.  Without boot client the parameter
    [HIVE_BOOTNODE] goes to the container as it came.  With boot clients,
    a launch means that the enode of every one of them was obtained, and
    the container is given their enodes, in the order of the boot clients
    and joined with commas; when one of them fails to give its enode,
    nothing is launched and [StartClient] fails. *)
Theorem StartClient_bootnodes (s : HiveRPCEngineStarter)
  (ClientParams ClientFiles : gmap string string)
  (bootClients : list (string * option string)) :
  (forall (launch : Launch) (launches : list Launch) (result : StartResult),
     StartClient s ClientParams ClientFiles bootClients = (launch :: launches, result) ->
     match bootClients with
     | [] =>
         launch_params launch !! "HIVE_BOOTNODE"%string
           = ClientParams !! "HIVE_BOOTNODE"%string
     | _ :: _ =>
         Forall (fun bootClient => snd bootClient = None) bootClients
         /\ launch_params launch !! "HIVE_BOOTNODE"%string
            = Some (String.concat "," (map fst bootClients))
     end)
  /\ (forall (before after : list (string * option string)) (enode err : string),
        bootClients = before ++ (enode, Some err) :: after ->
        Forall (fun bootClient => snd bootClient = None) before ->
        exists e : start_error,
          StartClient s ClientParams ClientFiles bootClients = ([], StartFailed e)
          /\ (ClientType s <> EmptyString ->
              ClientFiles !! "/genesis.json"%string <> None ->
              TerminalTotalDifficulty s <> None ->
              e = ErrBootnode err)).
Proof.
  split.
  - intros launch launches result Hrun.
    destruct (StartClient_launched _ _ _ _ _ _ _ Hrun)
      as (genesis & terminal & params & _ & _ & _ & _ & Httd & Hboot & _).
    destruct bootClients as [| bootClient rest].
    + rewrite Hboot.
      destruct (TerminalTotalDifficulty s) as [v |].
      * destruct Httd as [_ ->]. now apply lookup_insert_ne.
      * now destruct Httd as [-> _].
    + destruct Hboot as [Henodes ->].
      split; [exact (proj2 (enode_urls_ok _ _ Henodes)) | apply lookup_insert_eq].
  - intros before after enode err -> Hbefore.
    pose proof (enode_urls_first_error before after enode err Hbefore) as Henodes.
    unfold StartClient. cbv zeta.
    phase e clientType Hresolved.
    + exists e. split; [reflexivity |]. intros Hgiven _ _.
      apply String.eqb_neq in Hgiven. rewrite Hgiven in Hresolved. discriminate.
    + destruct (chain_files s ClientFiles !! "/genesis.json"%string) as [genesis |]
        eqn:Hgenesis.
      * phase e configured Hconfigured.
        -- exists e. split; [reflexivity |]. intros _ _ Hgiven.
           destruct (TerminalTotalDifficulty s); [discriminate | contradiction].
        -- destruct configured as [terminal params]. rewrite Henodes.
           destruct (before ++ (enode, Some err) :: after) eqn:Hlist;
             [now destruct before |].
           exists (ErrBootnode err). now split.
      * exists ErrNoGenesisFile. split; [reflexivity |]. intros _ Hfile _.
        rewrite chain_files_other in Hgenesis by discriminate. contradiction.
Qed.

(** X22.  What a launch is given besides: the client files, with
    [/chain.rlp] set to the chain file under [./chains/] when the starter
    names one, and every parameter other than
    [HIVE_TERMINAL_TOTAL_DIFFICULTY] and [HIVE_BOOTNODE] as it came; the
    type launched is the type of the starter, or the first type of the
    simulator when the starter names none. *)
Theorem StartClient_launch (s : HiveRPCEngineStarter)
  (ClientParams ClientFiles : gmap string string)
  (bootClients : list (string * option string))
  (launch : Launch) (launches : list Launch) (result : StartResult) :
  StartClient s ClientParams ClientFiles bootClients = (launch :: launches, result) ->
  (exists genesis : string,
     launch_files launch !! "/genesis.json"%string = Some genesis
     /\ ClientFiles !! "/genesis.json"%string = Some genesis)
  /\ (ChainFile s = EmptyString -> launch_files launch = ClientFiles)
  /\ (ChainFile s <> EmptyString ->
      launch_files launch
        = <["/chain.rlp"%string := ("./chains/" ++ ChainFile s)%string]> ClientFiles)
  /\ (forall key : string,
        key <> "HIVE_TERMINAL_TOTAL_DIFFICULTY"%string ->
        key <> "HIVE_BOOTNODE"%string ->
        launch_params launch !! key = ClientParams !! key)
  /\ (ClientType s <> EmptyString -> launch_type launch = ClientType s)
  /\ (ClientType s = EmptyString ->
      exists rest : list string,
        Sim_ClientTypes = (launch_type launch :: rest, None)).
Proof.
  intros Hrun.
  destruct (StartClient_launched _ _ _ _ _ _ _ Hrun)
    as (genesis & terminal & params & _ & Hgenesis & Hfiles & Htype & Httd & Hboot & _).
  split; [| split; [| split; [| split; [| split]]]].
  - exists genesis. rewrite Hfiles. split; [exact Hgenesis |].
    rewrite chain_files_other in Hgenesis by discriminate. exact Hgenesis.
  - intros Hnone. rewrite Hfiles, Hnone. reflexivity.
  - intros Hsome. rewrite Hfiles. apply String.eqb_neq in Hsome. now rewrite Hsome.
  - intros key Hk1 Hk2.
    assert (Hparams : params !! key = ClientParams !! key).
    { destruct (TerminalTotalDifficulty s) as [v |].
      - destruct Httd as [_ ->]. apply lookup_insert_ne. congruence.
      - now destruct Httd as [-> _]. }
    rewrite <- Hparams.
    destruct bootClients; [now rewrite Hboot |].
    destruct Hboot as [_ ->]. apply lookup_insert_ne. congruence.
  - intros Hgiven. destruct Htype as [[_ Htype] | [Hempty _]]; [exact Htype | contradiction].
  - intros Hempty. destruct Htype as [[Hgiven _] | [_ Hsim]]; [contradiction | exact Hsim].
Qed.

End StartClientProperties.

(** ** The further properties on the concrete world *)

(** The nonce of account 10 leaves the entry of account 11 alone. *)
Lemma GetNextAccountNonce_other_accounts_witness :
  accTxInfoMap
    (set_accTxInfoMap
       (<[10 := Some {| PreviousBlock := 177; PreviousNonce := 8 |}]>
          (accTxInfoMap (client (Sample.warm 177))))
       (client (Sample.warm 177))) !! 11
  = accTxInfoMap (client (Sample.warm 177)) !! 11.
Proof.
  exact (proj1 (@GetNextAccountNonce_other_accounts Sample.geth Sample.node_ok
                  10 (Sample.warm 177)
                  {| client :=
                       set_accTxInfoMap
                         (<[10 := Some {| PreviousBlock := 177; PreviousNonce := 8 |}]>
                            (accTxInfoMap (client (Sample.warm 177))))
                         (client (Sample.warm 177));
                     wire := [round_trip (cEth (client (Sample.warm 177)))
                                (eth_getBlockByNumber "latest" false)] |}
                  (8, None) eq_refl) 11 ltac:(discriminate)).
Defined.

(** The first nonce of account 10 on a new client is recorded. *)
Lemma GetNextAccountNonce_entry_witness :
  exists head : Sample.header,
    @HeaderByNumber Sample.geth Sample.node_ok None Sample.fresh
      = Done (Some head, None)
          (logged (round_trip (cEth (client Sample.fresh))
                     (eth_getBlockByNumber "latest" false)) Sample.fresh)
    /\ accTxInfoMap (client Scenario.first_nonce) !! 10
       = Some (Some {| PreviousBlock := Sample.hash head; PreviousNonce := 5 |}).
Proof.
  exact (@GetNextAccountNonce_entry Sample.geth Sample.node_ok
           10 Sample.fresh Scenario.first_nonce 5 eq_refl).
Defined.

(** The second nonce of account 10 under the same head is 6, for one more
    round trip. *)
Lemma GetNextAccountNonce_twice_witness :
  @GetNextAccountNonce Sample.geth Sample.node_ok 10 Scenario.first_nonce
  = Done (6, None)
      {| client :=
           set_accTxInfoMap
             (<[10 := Some {| PreviousBlock := 177; PreviousNonce := 6 |}]>
                (accTxInfoMap (client Scenario.first_nonce)))
             (client Scenario.first_nonce);
         wire := wire Scenario.first_nonce
                 ++ [round_trip (cEth (client Scenario.first_nonce))
                       (eth_getBlockByNumber "latest" false)] |}.
Proof.
  exact (@GetNextAccountNonce_twice Sample.geth Sample.node_ok
           10 Sample.fresh Scenario.first_nonce _ 5 Sample.block Sample.block
           eq_refl eq_refl eq_refl (or_introl eq_refl)).
Defined.

Lemma GetNextAccountNonce_round_trips_witness :
  exists (first : WireCall) (others : list WireCall),
    wire Scenario.first_nonce = wire Sample.fresh ++ first :: others
    /\ wire_request first = eth_getBlockByNumber "latest" false
    /\ (length others <= 1)%nat
    /\ Forall (fun trip => wire_endpoint trip = endpoint (cEth (client Sample.fresh))
                           /\ wire_headers trip = headers (cEth (client Sample.fresh)))
         (first :: others).
Proof.
  exact (@GetNextAccountNonce_round_trips Sample.geth Sample.node_ok
           10 Sample.fresh Scenario.first_nonce (5, None) eq_refl).
Defined.

(** The token of noon goes out with the forkchoice update. *)
Lemma privileged_call_bearer_witness :
  exists (r : string * option error) (w' : @World Sample.geth),
    @ForkchoiceUpdatedV1 Sample.geth Sample.node_ok Sample.jwt Sample.noon
      (Some "head"%string) None Sample.fresh = Done r w'
    /\ wire w' = [{| wire_endpoint := EnginePort;
                     wire_headers :=
                       {[ "Authorization"%string := "Bearer hs256.0x6553f100"%string ]};
                     wire_request :=
                       @engine_forkchoiceUpdatedV1 Sample.geth (Some "head"%string) None |}]
    /\ headers (c (client w'))
       = {[ "Authorization"%string := "Bearer hs256.0x6553f100"%string ]}.
Proof.
  exact (proj1 (@privileged_call_bearer Sample.geth Sample.node_ok Sample.jwt
                  Sample.noon Sample.fresh "hs256.0x6553f100"%string eq_refl)
           (Some "head"%string) None).
Defined.

(** The exchange that follows carries that token. *)
Lemma ExchangeTransitionConfigurationV1_headers_witness :
  exists (w1 : @World Sample.geth) (r : string * option error) (w2 : @World Sample.geth)
    (trip : @WireCall Sample.geth),
    @ForkchoiceUpdatedV1 Sample.geth Sample.node_ok Sample.jwt Sample.noon
      (Some "head"%string) None Sample.fresh = Done ("VALID"%string, None) w1
    /\ @ExchangeTransitionConfigurationV1 Sample.geth Sample.node_ok None w1 = Done r w2
    /\ wire w2 = wire w1 ++ [trip]
    /\ wire_request trip = engine_exchangeTransitionConfigurationV1 None
    /\ wire_headers trip !! "Authorization"%string
       = Some "Bearer hs256.0x6553f100"%string.
Proof.
  eexists. 
  destruct (proj2 (@ExchangeTransitionConfigurationV1_headers Sample.geth Sample.node_ok
                     Sample.jwt None Sample.fresh)
              Sample.noon "hs256.0x6553f100"%string (Some "head"%string) None
              ("VALID"%string, None) _ eq_refl eq_refl)
    as (r & w2 & trip & Hrun & Hrest).
  exists r, w2, trip. split; [reflexivity |]. split; [exact Hrun | exact Hrest].
Defined.

(** A forkchoice update leaves the nonce cache of a warm client alone. *)
Lemma engine_calls_frame_witness :
  accTxInfoMap (client (Scenario.forkchoice_done (Sample.warm 177)))
  = accTxInfoMap (client (Sample.warm 177)).
Proof.
  exact (proj1 (proj1 (proj1 (@engine_calls_frame Sample.geth Sample.node_ok Sample.jwt
                                (Sample.warm 177))
                         Sample.noon (Some "head"%string) None
                         ("VALID"%string, None)
                         (Scenario.forkchoice_done (Sample.warm 177)) eq_refl))).
Defined.

(** The node that cannot be reached leaves the zero response. *)
Lemma failed_call_zero_response_witness :
  exists w' : @World Sample.geth,
    @NewPayloadV1 Sample.geth Sample.node_down Sample.jwt Sample.noon
      (Some "block"%string) Sample.fresh
    = Done (EmptyString, Some (RPCError "connection refused")) w'
    /\ LatestNewPayloadResponse (client w') = Some EmptyString.
Proof.
  exact (proj2 (@failed_call_zero_response Sample.geth Sample.node_down Sample.jwt
                  Sample.noon Sample.fresh "connection refused"%string
                  (fun _ => eq_refl))
           (Some "block"%string)).
Defined.

(** The node that knows no block. *)
Lemma GetTotalDifficulty_null_panics_witness :
  @GetTotalDifficulty Sample.geth Sample.node_empty Sample.fresh = Panicked
  /\ @HeaderByNumber Sample.geth Sample.node_empty None Sample.fresh
     = Done (None, Some NotFound)
         (logged (round_trip (cEth (client Sample.fresh))
                    (eth_getBlockByNumber "latest" false)) Sample.fresh).
Proof.
  exact (@GetTotalDifficulty_null_panics Sample.geth Sample.node_empty Sample.fresh
           eq_refl).
Defined.

(** The node that cannot be reached, and the node whose block has a
    number for a hash. *)
Lemma GetTotalDifficulty_errors_witness :
  @GetTotalDifficulty Sample.geth Sample.node_down Sample.fresh
    = Done (None, Some (RPCError "connection refused"))
        (logged (round_trip (cEth (client Sample.fresh))
                   (eth_getBlockByNumber "latest" false)) Sample.fresh)
  /\ @GetTotalDifficulty Sample.geth Scenario.node_garbled Sample.fresh
     = Done (None, Some (UnmarshalTypeError ErrNonString))
         (logged (round_trip (cEth (client Sample.fresh))
                    (eth_getBlockByNumber "latest" false)) Sample.fresh).
Proof.
  split.
  - exact (proj1 (@GetTotalDifficulty_errors Sample.geth Sample.node_down Sample.fresh)
             "connection refused"%string eq_refl).
  - refine (proj2 (@GetTotalDifficulty_errors Sample.geth Scenario.node_garbled
                     Sample.fresh)
              (JObject [("hash"%string, JNumber 177)])
              {| Sample.hash := 0; Sample.parentHash := 0; Sample.number := 0 |}
              (UnmarshalTypeError ErrNonString) eq_refl _ eq_refl).
    discriminate.
Defined.

(** The node whose total difficulty is a JSON number. *)
Lemma GetTotalDifficulty_member_witness :
  @GetTotalDifficulty Sample.geth Scenario.node_td_number Sample.fresh
  = Done (None, Some (UnmarshalTypeError ErrNonString))
      (logged (round_trip (cEth (client Sample.fresh))
                 (eth_getBlockByNumber "latest" false)) Sample.fresh).
Proof.
  refine (proj1 (proj2 (proj2
            (@GetTotalDifficulty_member Sample.geth Scenario.node_td_number Sample.fresh
               Sample.block_fields [] "totalDifficulty"%string (JNumber 131072)
               Sample.block eq_refl eq_refl eq_refl eq_refl))) _ _).
  - intros s. discriminate.
  - discriminate.
Defined.

(** The script on a new client. *)
Lemma configuration_kept_witness :
  JWTSecretBytes (client Scenario.script_done) = Sample.secret
  /\ TerminalTotalDifficulty (client Scenario.script_done) = None.
Proof.
  destruct (@configuration_kept Sample.geth Sample.node_ok Sample.jwt
              Sample.secret None Scenario.script Scenario.script_done eq_refl)
    as (Hsecret & Hterminal & _).
  split; [exact Hsecret | exact Hterminal].
Defined.

Lemma cache_kept_well_formed_witness :
  cache_well_formed (accTxInfoMap (client Scenario.script_done)).
Proof.
  exact (@cache_kept_well_formed Sample.geth Sample.node_ok Sample.jwt
           Sample.secret None Scenario.script Scenario.script_done eq_refl).
Defined.

(** The exchange after a token was prepared with the secret of the
    caller. *)
Lemma calls_round_trips_placed_witness :
  Forall (@trip_placed Sample.geth Sample.jwt [Sample.secret; [Byte.x6b]])
    (wire Scenario.foreign_done).
Proof.
  exact (@calls_round_trips_placed Sample.geth Sample.node_ok Sample.jwt
           Sample.secret None Scenario.foreign_calls Scenario.foreign_done eq_refl).
Defined.

(** The head of the sample node. *)
Lemma HeaderByNumber_success_witness :
  @HeaderByNumber Sample.geth Sample.node_ok None Sample.fresh
  = Done (Some Sample.block, None)
      (logged (round_trip (cEth (client Sample.fresh))
                 (eth_getBlockByNumber "latest" false)) Sample.fresh).
Proof.
  apply (proj2 (@HeaderByNumber_success Sample.geth Sample.node_ok None Sample.fresh
                  _ Sample.block)).
  split; [| reflexivity].
  exists (JObject (Sample.block_fields
                     ++ [("totalDifficulty"%string, JString "0x20000")])).
  split; [reflexivity |]. split; [discriminate | reflexivity].
Defined.

(** The starter with a terminal total difficulty of 500 and two boot
    clients launches one container. *)
Lemma StartClient_launches_witness :
  exists (launches : list Starter.Launch) (result : @Starter.StartResult Sample.geth),
    @Starter.StartClient Sample.geth Scenario.hive Scenario.starter
      Scenario.params Scenario.files Scenario.boots = (launches, result)
    /\ length launches = 1%nat.
Proof.
  destruct (@StartClient_launches Sample.geth Scenario.hive Scenario.starter
              Scenario.params Scenario.files Scenario.boots)
    as (launches & result & Hrun & _ & Hok & _).
  exists launches, result. split; [exact Hrun |].
  apply (Hok Scenario.started).
  assert (Hvalue : @Starter.StartClient Sample.geth Scenario.hive Scenario.starter
                     Scenario.params Scenario.files Scenario.boots
                   = ([Scenario.launched], Starter.StartOk Scenario.started))
    by reflexivity.
  rewrite Hvalue in Hrun. now injection Hrun as _ <-.
Defined.

(** Without client files nothing is launched. *)
Lemma StartClient_no_genesis_witness :
  exists err : Starter.start_error,
    @Starter.StartClient Sample.geth Scenario.hive Scenario.starter
      Scenario.params ∅ Scenario.boots = ([], Starter.StartFailed err)
    /\ err = Starter.ErrNoGenesisFile.
Proof.
  destruct (@StartClient_no_genesis Sample.geth Scenario.hive Scenario.starter
              Scenario.params ∅ Scenario.boots (lookup_empty _)) as (err & Hrun & Herr).
  exists err. split; [exact Hrun |].
  apply Herr. right. exists "go-ethereum"%string, []. reflexivity.
Defined.

(** The client of the starter without secret and ports has the defaults. *)
Lemma StartClient_client_witness :
  JWTSecretBytes (Starter.started_ec Scenario.started) = Sample.secret
  /\ Starter.started_enginePort Scenario.started = 8551
  /\ Starter.started_ethPort Scenario.started = 8545.
Proof.
  destruct (@StartClient_client Sample.geth Scenario.hive Scenario.starter
              Scenario.params Scenario.files Scenario.boots
              [Scenario.launched] Scenario.started eq_refl)
    as (Hsecret & Hengine & Heth & _).
  split; [exact Hsecret |]. split; [exact Hengine | exact Heth].
Defined.

(** The container is given 1500, the client keeps 500. *)
Lemma StartClient_ttd_witness :
  exists launch : Starter.Launch,
    [Scenario.launched] = [launch]
    /\ ttd (Starter.started_ec Scenario.started) = Some 500
    /\ exists genesis : string,
         Scenario.files !! "/genesis.json"%string = Some genesis
         /\ Starter.launch_params launch !! "HIVE_TERMINAL_TOTAL_DIFFICULTY"%string
            = Some "1500"%string.
Proof.
  destruct (proj1 (@StartClient_ttd Sample.geth Scenario.hive Scenario.starter
                     Scenario.params Scenario.files Scenario.boots)
              [Scenario.launched] Scenario.started eq_refl)
    as (launch & Hlaunch & Hclient & genesis & Hgenesis & Hparam).
  exists launch. split; [exact Hlaunch |]. split; [exact Hclient |].
  exists genesis. split; [exact Hgenesis |].
  assert (Hfile : genesis = "./init/genesis.json"%string).
  { assert (Hvalue : Scenario.files !! "/genesis.json"%string
                     = Some "./init/genesis.json"%string) by reflexivity.
    rewrite Hvalue in Hgenesis. now injection Hgenesis as <-. }
  rewrite Hparam, Hfile. reflexivity.
Defined.

(** The two enodes, joined. *)
Lemma StartClient_bootnodes_witness :
  Forall (fun bootClient : string * option string => snd bootClient = None) Scenario.boots
  /\ Starter.launch_params Scenario.launched !! "HIVE_BOOTNODE"%string
     = Some "enode://aa@10.0.0.1:30303,enode://bb@10.0.0.2:30303"%string.
Proof.
  exact (proj1 (@StartClient_bootnodes Sample.geth Scenario.hive Scenario.starter
                  Scenario.params Scenario.files Scenario.boots)
           Scenario.launched [] (Starter.StartOk Scenario.started) eq_refl).
Defined.

(** The chain identifier goes through. *)
Lemma StartClient_launch_witness :
  Starter.launch_params Scenario.launched !! "HIVE_CHAIN_ID"%string
  = Scenario.params !! "HIVE_CHAIN_ID"%string.
Proof.
  destruct (@StartClient_launch Sample.geth Scenario.hive Scenario.starter
              Scenario.params Scenario.files Scenario.boots
              Scenario.launched [] (Starter.StartOk Scenario.started) eq_refl)
    as (_ & _ & _ & Hparams & _).
  apply Hparams; discriminate.
Defined.
